(** * Investor-Shiksha AI services: sentiment ensemble and recommendation ranking

    A shallow embedding of [ai-services/services/sentiment.py] and
    [ai-services/services/recommendation.py].

    Conventions of the embedding.
    - Python [float] values are modelled as exact rationals ([Q]); equalities
      between computed numbers are stated with [==] ([Qeq]).
    - Python [dict]s with string keys are [gmap string _]; the three-key
      dictionary [sentiment_scores] is a record with one field per key.
    - External capabilities (the tokenizers of nltk, the model pipelines, the
      database, the clock) are arguments of the functions that use them. *)

From Stdlib Require Import QArith Qminmax Qround Qabs Lia Lqa ZArith List Sorted Ascii String.
From stdpp Require Import gmap strings list.

Local Open Scope Q_scope.

(** [x < y] on Python floats, as a boolean. *)
Definition Qltb (x y : Q) : bool := if Qlt_le_dec x y then true else false.

(** ** Sentiment labels and per-model results *)

Inductive Label : Type := positive | negative | neutral.

#[global] Instance Label_eq_dec : EqDecision Label.
Proof. solve_decision. Defined.

(** The entries of an adapter's result dictionary that the ensemble reads:
    [{'sentiment': ..., 'confidence': ...}]. *)
Record ModelResult : Type := mkModelResult {
  sentiment : Label;
  confidence : Q
}.

(** [sentiment_scores = {'positive': 0, 'negative': 0, 'neutral': 0}] *)
Record Scores : Type := mkScores {
  score_positive : Q;
  score_negative : Q;
  score_neutral : Q
}.

Definition zero_scores : Scores := mkScores 0 0 0.

(** [sentiment_scores[l]] *)
Definition get_score (s : Scores) (l : Label) : Q :=
  match l with
  | positive => score_positive s
  | negative => score_negative s
  | neutral => score_neutral s
  end.

(** [sentiment_scores[l] += x] *)
Definition add_score (s : Scores) (l : Label) (x : Q) : Scores :=
  match l with
  | positive => mkScores (score_positive s + x) (score_negative s) (score_neutral s)
  | negative => mkScores (score_positive s) (score_negative s + x) (score_neutral s)
  | neutral => mkScores (score_positive s) (score_negative s) (score_neutral s + x)
  end.

(** [for sentiment in sentiment_scores: sentiment_scores[sentiment] /= d] *)
Definition div_scores (s : Scores) (d : Q) : Scores :=
  mkScores (score_positive s / d) (score_negative s / d) (score_neutral s / d).

(** The position of a key of [sentiment_scores] in insertion order
    ([positive], [negative], [neutral]). *)
Definition key_index (l : Label) : nat :=
  match l with positive => 0 | negative => 1 | neutral => 2 end.

(** Python's [max(iterable, key=f)]: the first element whose key is maximal
    (a later element replaces the current best only when strictly larger). *)
Definition py_max_from {A : Type} (key : A -> Q) (best : A) (xs : list A) : A :=
  fold_left (fun b y => if Qltb (key b) (key y) then y else b) xs best.

(** ** The ensemble combiner *)

Module Ensemble.

(** The order in which [_create_ensemble_result] visits the models. *)
Definition MODELS : list string := ["vader"; "finbert"; "general"; "rule_based"]%string.

Definition weights : gmap string Q :=
  list_to_map [("finbert", 0.4); ("vader", 0.25); ("general", 0.2); ("rule_based", 0.15)]%string.

(** [weights.get(model, 0.25)] *)
Definition weight_of (model : string) : Q := default 0.25 (weights !! model).

(** The result dictionary; [scores], [models_used] and [total_weight] are
    absent from the dictionary returned when no model reported a sentiment.
    [models_used] is [list(results.keys())]; the key order is not modelled. *)
Record EnsembleResult : Type := mkEnsembleResult {
  e_sentiment : Label;
  e_confidence : Q;
  e_scores : option Scores;
  e_models_used : option (gset string);
  e_total_weight : option Q
}.

(** First loop: the sentiments collected from the models present. *)
Definition collect_sentiments (results : gmap string ModelResult) : list Label :=
  omap (fun model => sentiment <$> results !! model) MODELS.

(** One iteration of the weighting loop on the pair
    [(sentiment_scores, total_weight)]. *)
Definition weigh_step (results : gmap string ModelResult)
    (st : Scores * Q) (model : string) : Scores * Q :=
  match results !! model with
  | Some r =>
      let weight := weight_of model in
      (add_score (fst st) (sentiment r) (weight * confidence r), snd st + weight)
  | None => st
  end.

(** The pair [(sentiment_scores, total_weight)] after the weighting loop and
    before the normalisation. *)
Definition weigh (results : gmap string ModelResult) : Scores * Q :=
  fold_left (weigh_step results) MODELS (zero_scores, 0).

Definition raw_scores (results : gmap string ModelResult) : Scores := fst (weigh results).
Definition total_weight (results : gmap string ModelResult) : Q := snd (weigh results).

(** [if total_weight > 0: ... /= total_weight] *)
Definition normalize (s : Scores) (total : Q) : Scores :=
  if Qltb 0 total then div_scores s total else s.

(** [max(sentiment_scores, key=sentiment_scores.get)] *)
Definition argmax_scores (s : Scores) : Label :=
  py_max_from (get_score s) positive [negative; neutral].

Definition _create_ensemble_result (results : gmap string ModelResult) : EnsembleResult :=
  match collect_sentiments results with
  | [] => mkEnsembleResult neutral 0.5 None None None
  | _ :: _ =>
      let '(scores, total) := weigh results in
      let scores' := normalize scores total in
      let final_sentiment := argmax_scores scores' in
      mkEnsembleResult final_sentiment (get_score scores' final_sentiment)
        (Some scores') (Some (dom results)) (Some total)
  end.

(** The keys of the returned dictionary. *)
Definition result_keys (r : EnsembleResult) : list string :=
  ["sentiment"%string; "confidence"%string]
  ++ (if e_scores r is Some _ then ["scores"%string] else [])
  ++ (if e_models_used r is Some _ then ["models_used"%string] else [])
  ++ (if e_total_weight r is Some _ then ["total_weight"%string] else []).

End Ensemble.


(** ** Python string operations used by the services *)

Module PyStr.

(** [c.lower()] on an ASCII character. *)
Definition lower_ascii (c : ascii) : ascii :=
  let n := nat_of_ascii c in
  if (65 <=? n)%nat && (n <=? 90)%nat then ascii_of_nat (n + 32) else c.

(** [s.lower()] *)
Fixpoint lower (s : string) : string :=
  match s with
  | EmptyString => EmptyString
  | String c s' => String (lower_ascii c) (lower s')
  end.

(** [c.isspace()] on an ASCII character: tab, newline, vertical tab, form
    feed, carriage return, the separators 28 to 31 and the space. *)
Definition isspace (c : ascii) : bool :=
  let n := nat_of_ascii c in
  ((9 <=? n)%nat && (n <=? 13)%nat) || ((28 <=? n)%nat && (n <=? 32)%nat).

Fixpoint lstrip (s : string) : string :=
  match s with
  | EmptyString => EmptyString
  | String c s' => if isspace c then lstrip s' else s
  end.

Definition rstrip (s : string) : string := String.rev (lstrip (String.rev s)).

(** [s.strip()] *)
Definition strip (s : string) : string := rstrip (lstrip s).

(** [len(s)] *)
Definition len (s : string) : Z := Z.of_nat (String.length s).

(** [needle in hay] *)
Fixpoint contains (needle hay : string) : bool :=
  if String.prefix needle hay then true
  else match hay with
       | EmptyString => false
       | String _ hay' => contains needle hay'
       end.

(** [s[:n]], also for negative [n] (which drops the last [-n] characters). *)
Definition slice_to (s : string) (n : Z) : string :=
  if (0 <=? n)%Z then String.substring 0 (Z.to_nat n) s
  else String.substring 0 (String.length s - Z.to_nat (- n)) s.

(** [l[:n]] on a list, also for negative [n]. *)
Definition list_slice_to {A : Type} (l : list A) (n : Z) : list A :=
  if (0 <=? n)%Z then take (Z.to_nat n) l
  else take (length l - Z.to_nat (- n)) l.

(** [sorted(l, key=key, reverse=True)] and [l.sort(key=key, reverse=True)]:
    descending by key, elements of equal key in their original order. *)
Fixpoint insert_desc {A : Type} (key : A -> Q) (x : A) (l : list A) : list A :=
  match l with
  | [] => [x]
  | y :: l' =>
      if Qltb (key x) (key y) then y :: insert_desc key x l'
      else x :: y :: l'
  end.

Definition sorted_desc {A : Type} (key : A -> Q) (l : list A) : list A :=
  fold_right (insert_desc key) [] l.

End PyStr.

(** ** The rule-based adapter *)

Module Rules.

Definition positive_keywords : list string :=
  ["profit"; "gain"; "growth"; "bull"; "rise"; "increase"; "positive";
   "strong"; "beat"; "exceed"; "outperform"; "surge"; "rally"; "boom";
   "bullish"; "uptrend"; "breakthrough"; "milestone"; "achievement"]%string.

Definition negative_keywords : list string :=
  ["loss"; "decline"; "bear"; "fall"; "decrease"; "negative"; "weak";
   "miss"; "underperform"; "crash"; "plunge"; "recession"; "bearish";
   "downtrend"; "crisis"; "risk"; "concern"; "worry"; "trouble"]%string.

Definition neutral_keywords : list string :=
  ["stable"; "unchanged"; "flat"; "sideways"; "consolidate"; "range";
   "maintain"; "steady"; "consistent"; "regular"; "normal"]%string.

(** [sum(1 for word in words if word in keywords)] *)
Definition count_keywords (keywords words : list string) : Z :=
  Z.of_nat (length (filter (fun word => word ∈ keywords) words)).

(** The dictionary returned by [_analyze_with_rules]. [keyword_counts] is the
    empty dictionary ([None]) and [scores] is absent when no keyword matched;
    the triples are in the order positive, negative, neutral. *)
Record RuleResult : Type := mkRuleResult {
  r_sentiment : Label;
  r_confidence : Q;
  r_keyword_counts : option (Z * Z * Z);
  r_scores : option Scores
}.

(** The body of [_analyze_with_rules] after tokenization. *)
Definition analyze_words (words : list string) : RuleResult :=
  let positive_count := count_keywords positive_keywords words in
  let negative_count := count_keywords negative_keywords words in
  let neutral_count := count_keywords neutral_keywords words in
  let total_sentiment_words := (positive_count + negative_count + neutral_count)%Z in
  if (total_sentiment_words =? 0)%Z then mkRuleResult neutral 0.5 None None
  else
    let pos_score := inject_Z positive_count / inject_Z total_sentiment_words in
    let neg_score := inject_Z negative_count / inject_Z total_sentiment_words in
    let neu_score := inject_Z neutral_count / inject_Z total_sentiment_words in
    let counts := Some (positive_count, negative_count, neutral_count) in
    let scores := Some (mkScores pos_score neg_score neu_score) in
    if Qltb neg_score pos_score && Qltb neu_score pos_score
    then mkRuleResult positive pos_score counts scores
    else if Qltb pos_score neg_score && Qltb neu_score neg_score
    then mkRuleResult negative neg_score counts scores
    else mkRuleResult neutral (Qmax neu_score 0.5) counts scores.

(** [_analyze_with_rules]; [word_tokenize] is nltk's tokenizer. *)
Definition _analyze_with_rules (word_tokenize : string -> list string)
    (text : string) : RuleResult :=
  let text_lower := PyStr.lower text in
  let words := word_tokenize text_lower in
  analyze_words words.

(** The entries of a rule-based result that the ensemble reads. *)
Definition to_model_result (r : RuleResult) : ModelResult :=
  mkModelResult (r_sentiment r) (r_confidence r).

End Rules.

(** ** Chunking *)

Module Chunking.

(** One iteration of the loop of [_split_text] on the pair
    [(chunks, current_chunk)]. *)
Definition split_step (max_length : Z) (st : list string * string)
    (sentence : string) : list string * string :=
  let '(chunks, current_chunk) := st in
  if (PyStr.len (current_chunk +:+ sentence) <=? max_length)%Z then
    (chunks,
     if String.eqb current_chunk "" then sentence
     else current_chunk +:+ " " +:+ sentence)
  else
    ((if String.eqb current_chunk "" then chunks
      else chunks ++ [PyStr.strip current_chunk]),
     sentence).

(** [_split_text]; [sent_tokenize] is nltk's sentence tokenizer. *)
Definition _split_text (sent_tokenize : string -> list string)
    (text : string) (max_length : Z) : list string :=
  let sentences := sent_tokenize text in
  let '(chunks, current_chunk) :=
    fold_left (split_step max_length) sentences ([], ""%string) in
  let chunks :=
    if String.eqb current_chunk "" then chunks
    else chunks ++ [PyStr.strip current_chunk] in
  match chunks with
  | [] => [PyStr.slice_to text max_length]
  | _ :: _ => chunks
  end.

End Chunking.

(** ** User profiles *)

Module Profile.

(** A row of the learning-progress query, grouped by category and level. *)
Record LearningRow : Type := mkLearningRow {
  category : string;
  level : string;
  completed_courses : Z;
  avg_score : option Q
}.

(** A row of the trading-behaviour query (the aggregates other than the
    trade count are carried along unread and omitted). *)
Record TradeRow : Type := mkTradeRow {
  symbol : string;
  trade_count : Z
}.

(** The user record joined with its preferences. *)
Record UserRow : Type := mkUserRow {
  id : string;
  user_risk_profile : string
}.

Record UserProfile : Type := mkUserProfile {
  user_data : option UserRow;
  learning_progress : list LearningRow;
  trading_behavior : list TradeRow;
  interests : list string;
  skill_level : string;
  risk_profile : string;
  preferred_categories : list string
}.

(** [_extract_interests]: a set, returned as a list. *)
Definition _extract_interests (learning_data : list LearningRow)
    (trading_data : list TradeRow) : list string :=
  let interests : gset string := ∅ in
  let interests :=
    fold_left (fun acc item => acc ∪ {[ category item ]}) learning_data interests in
  let interests :=
    fold_left (fun acc trade =>
                 if String.prefix "BANK" (symbol trade) then acc ∪ {[ "banking"%string ]}
                 else if String.prefix "IT" (symbol trade) then acc ∪ {[ "technology"%string ]}
                 else acc) trading_data interests in
  elements interests.

(** [np.mean] of a list; [None] stands for the NaN of an empty list. *)
Definition mean (l : list Q) : option Q :=
  match l with
  | [] => None
  | _ :: _ => Some (fold_right Qplus 0 l / inject_Z (Z.of_nat (length l)))
  end.

(** [_determine_skill_level] *)
Definition _determine_skill_level (learning_data : list LearningRow) : string :=
  match learning_data with
  | [] => "beginner"%string
  | _ :: _ =>
      let total_courses := fold_right Z.add 0%Z (map completed_courses learning_data) in
      let avg_score :=
        mean (omap (fun item =>
                      match avg_score item with
                      | Some x => if Qeq_bool x 0 then None else Some x
                      | None => None
                      end) learning_data) in
      let at_least (bound : Q) :=
        match avg_score with Some a => Qle_bool bound a | None => false end in
      if (10 <=? total_courses)%Z && at_least 80 then "advanced"%string
      else if (5 <=? total_courses)%Z && at_least 70 then "intermediate"%string
      else "beginner"%string
  end.

(** [_get_preferred_categories] *)
Definition _get_preferred_categories (learning_data : list LearningRow) : list string :=
  match learning_data with
  | [] => []
  | _ :: _ =>
      let sorted_categories :=
        PyStr.sorted_desc (fun x => inject_Z (completed_courses x)) learning_data in
      map category (PyStr.list_slice_to sorted_categories 3)
  end.

End Profile.

(** ** Candidate scoring *)

Module Scorer.

(** The columns of a course row read by the scorer. Times are seconds. *)
Record Course : Type := mkCourse {
  c_id : string;
  c_title : string;
  c_category : string;
  c_level : string;
  c_avg_rating : option Q;
  c_review_count : option Z;
  c_created_at : option Z;
  c_language : option string
}.

(** The columns of a news row read by the scorer. *)
Record Article : Type := mkArticle {
  a_id : string;
  a_title : string;
  a_summary : string;
  a_category : string;
  a_sentiment : option string;
  a_published_at : option Z
}.

(** [level_mapping.get(level, 1)] *)
Definition level_of (level : string) : Z :=
  if String.eqb level "beginner" then 1
  else if String.eqb level "intermediate" then 2
  else if String.eqb level "advanced" then 3
  else 1.

(** [x or 0] on an optional number. *)
Definition or_zero (x : option Q) : Q :=
  match x with
  | Some q => q
  | None => 0
  end.

(** [(now - t).days] *)
Definition days_between (now t : Z) : Z := ((now - t) / 86400)%Z.

(** [(now - t).total_seconds() / 3600] *)
Definition hours_between (now t : Z) : Q := inject_Z (now - t) / 3600.

(** The score of [_calculate_course_score] before the final [min]. *)
Definition course_score_sum (now : Z) (course : Course)
    (user_profile : Profile.UserProfile)
    (preferred_language : option string) : Q :=
  let score := 0 in
  let score :=
    if bool_decide (c_category course ∈ Profile.preferred_categories user_profile)
    then score + 0.3 else score in
  let user_level := level_of (Profile.skill_level user_profile) in
  let course_level := level_of (c_level course) in
  let score :=
    if (course_level =? user_level)%Z then score + 0.25
    else if (course_level =? user_level + 1)%Z then score + 0.15
    else if (course_level =? user_level - 1)%Z then score + 0.1
    else score in
  let rating := or_zero (c_avg_rating course) in
  let review_count := or_zero (inject_Z <$> c_review_count course) in
  let score := score + (rating / 5) * 0.2 in
  let score := score + Qmin (review_count / 100) 0.1 in
  let score :=
    match c_created_at course with
    | Some created_at =>
        let days_old := days_between now created_at in
        if (days_old <? 30)%Z then score + 0.1
        else if (days_old <? 90)%Z then score + 0.05
        else score
    | None => score
    end in
  let score :=
    if bool_decide (preferred_language = c_language course) then score + 0.1
    else score in
  score.

(** [_calculate_course_score]; [preferred_language] is
    [preferences.get("preferred_language")]. *)
Definition _calculate_course_score (now : Z) (course : Course)
    (user_profile : Profile.UserProfile)
    (preferred_language : option string) : Q :=
  Qmin (course_score_sum now course user_profile preferred_language) 1.

(** The interest-matching loop of [_calculate_news_score]. *)
Definition interest_score (article_text : string) (user_interests : list string) : Q :=
  fold_left (fun score interest =>
               if PyStr.contains (PyStr.lower interest) article_text
               then score + 0.3 else score) user_interests 0.

(** The score of [_calculate_news_score] before the final [min]. *)
Definition news_score_sum (now : Z) (article : Article)
    (user_interests : list string) : Q :=
  let article_text := PyStr.lower (a_title article +:+ " " +:+ a_summary article) in
  let score := interest_score article_text user_interests in
  let score :=
    if bool_decide (a_category article ∈
                      ["stocks"; "mutual_funds"; "trading"; "investment"]%string)
    then score + 0.2 else score in
  let score :=
    if bool_decide (a_sentiment article = Some "positive"%string) then score + 0.1
    else if bool_decide (a_sentiment article = Some "neutral"%string) then score + 0.05
    else score in
  let score :=
    match a_published_at article with
    | Some published_at =>
        let hours_old := hours_between now published_at in
        if Qltb hours_old 24 then score + 0.2
        else if Qltb hours_old 72 then score + 0.1
        else score
    | None => score
    end in
  score.

(** [_calculate_news_score] *)
Definition _calculate_news_score (now : Z) (article : Article)
    (user_interests : list string) : Q :=
  Qmin (news_score_sum now article user_interests) 1.

End Scorer.

(** ** Ranking *)

Module Ranker.

(** A recommendation dictionary: the entries read by the ranker and the
    identifying ones (the descriptive entries are carried along unread). *)
Record Candidate : Type := mkCandidate {
  item_id : string;
  item_type : string;
  title : string;
  score : Q;
  reason : string
}.

(** One iteration of the loop of [_rank_recommendations] on the pair
    [(final_recommendations, type_counts)]. *)
Definition rank_step (limit : Z) (st : list Candidate * gmap string Z)
    (rec : Candidate) : list Candidate * gmap string Z :=
  let '(final_recommendations, type_counts) := st in
  let item_type := item_type rec in
  let count := default 0%Z (type_counts !! item_type) in
  let type_counts := <[item_type := count]> type_counts in
  if (Z.of_nat (length final_recommendations) <? limit)%Z
     && Qltb (inject_Z count) (inject_Z limit * 0.6)
  then (final_recommendations ++ [rec], <[item_type := (count + 1)%Z]> type_counts)
  else (final_recommendations, type_counts).

(** [_rank_recommendations] (the profile argument is unused). *)
Definition _rank_recommendations (recommendations : list Candidate)
    (limit : Z) : list Candidate :=
  let ranked := PyStr.sorted_desc score recommendations in
  fst (fold_left (rank_step limit) ranked ([], ∅)).

End Ranker.

(** ** Exceptions and the cache *)

(** The outcome of a call that may raise. *)
Inductive outcome (A : Type) : Type :=
  | Returned (a : A)
  | Raised (e : string).
Arguments Returned {A} a.
Arguments Raised {A} e.

(** Runs the calls of a loop body in order; the first exception ends it. *)
Fixpoint for_each {A B : Type} (f : A -> outcome B) (l : list A) : outcome (list B) :=
  match l with
  | [] => Returned []
  | x :: l' =>
      match f x with
      | Raised e => Raised e
      | Returned y =>
          match for_each f l' with
          | Raised e => Raised e
          | Returned ys => Returned (y :: ys)
          end
      end
  end.

(** ** The sentiment service *)

Module Sentiment.

(** [_aggregate_chunk_results] on the list of [(label, score)] pairs. *)
Definition _aggregate_chunk_results (chunk_results : list (Label * Q)) : Label * Q :=
  match chunk_results with
  | [] => (neutral, 0.5)
  | _ :: _ =>
      let sentiment_counts :=
        fold_left (fun counts result => add_score counts (fst result) (snd result))
                  chunk_results zero_scores in
      let dominant_sentiment :=
        py_max_from (get_score sentiment_counts) positive [negative; neutral] in
      let average_confidence :=
        get_score sentiment_counts dominant_sentiment
        / inject_Z (Z.of_nat (length chunk_results)) in
      (dominant_sentiment, average_confidence)
  end.

(** The sentiment result dictionary: the per-model entries read by the
    ensemble, the ensemble entry, the entities and the metadata (without its
    timestamp). *)
Record Metadata : Type := mkMetadata {
  text_length : Z;
  processed_length : Z;
  model_type_used : string
}.

Record SentimentResults (Entities : Type) : Type := mkSentimentResults {
  models : gmap string ModelResult;
  ensemble : option Ensemble.EnsembleResult;
  entities : option Entities;
  metadata : Metadata
}.
Arguments mkSentimentResults {Entities}.
Arguments models {Entities}.
Arguments ensemble {Entities}.
Arguments entities {Entities}.
Arguments metadata {Entities}.

(** The verdict cache: entries keyed by [(hash(text), model_type)]; a flag
    per operation tells whether the client raises on it. *)
Record Redis (Entities : Type) : Type := mkRedis {
  get_raises : bool;
  setex_raises : bool;
  entries : gmap (Z * string) (SentimentResults Entities)
}.
Arguments mkRedis {Entities}.
Arguments get_raises {Entities}.
Arguments setex_raises {Entities}.
Arguments entries {Entities}.

Section Service.

(** External capabilities. *)
Variable clean_financial_text : string -> string.
Variable hash : string -> Z.
Variable word_tokenize : string -> list string.
Variable sent_tokenize : string -> list string.
(** [vader_analyzer.polarity_scores(text)['compound']] *)
Variable polarity_compound : string -> Q.
(** The two classifier pipelines, with their labels in canonical form. *)
Variable finbert_pipeline : string -> outcome (Label * Q).
Variable general_pipeline : string -> outcome (Label * Q).
Variable Entities : Type.
Variable _extract_entities : string -> Entities.

Definition redis_get (redis : Redis Entities) (key : Z * string)
    : outcome (option (SentimentResults Entities)) :=
  if get_raises redis then Raised "ConnectionError" else Returned (entries redis !! key).

Definition redis_setex (redis : Redis Entities) (key : Z * string)
    (value : SentimentResults Entities) : outcome (Redis Entities) :=
  if setex_raises redis then Raised "ConnectionError"
  else Returned (mkRedis (get_raises redis) (setex_raises redis)
                         (<[key := value]> (entries redis))).

(** [_analyze_with_vader] *)
Definition _analyze_with_vader (text : string) : ModelResult :=
  let compound := polarity_compound text in
  let sentiment :=
    if Qle_bool 0.05 compound then positive
    else if Qle_bool compound (-0.05) then negative
    else neutral in
  mkModelResult sentiment (Qabs compound).

(** The common body of [_analyze_with_finbert] and
    [_analyze_with_general_model]. *)
Definition analyze_with_pipeline (pipeline : string -> outcome (Label * Q))
    (text : string) : ModelResult :=
  let chunks := Chunking._split_text sent_tokenize text 512 in
  match for_each pipeline chunks with
  | Raised _ => mkModelResult neutral 0.5
  | Returned chunk_results =>
      let final_result :=
        match chunk_results with
        | [only] => only
        | _ => _aggregate_chunk_results chunk_results
        end in
      mkModelResult (fst final_result) (snd final_result)
  end.

Definition _analyze_with_finbert : string -> ModelResult :=
  analyze_with_pipeline finbert_pipeline.

Definition _analyze_with_general_model : string -> ModelResult :=
  analyze_with_pipeline general_pipeline.

(** The dictionary [results] built by [analyze_sentiment] before caching. *)
Definition compute_results (text : string) (include_entities : bool)
    (model_type : string) : SentimentResults Entities :=
  let processed_text := clean_financial_text text in
  let results : gmap string ModelResult := ∅ in
  let results :=
    if bool_decide (model_type ∈ ["vader"; "ensemble"]%string)
    then <["vader"%string := _analyze_with_vader processed_text]> results
    else results in
  let results :=
    if bool_decide (model_type ∈ ["finbert"; "ensemble"]%string)
    then <["finbert"%string := _analyze_with_finbert processed_text]> results
    else results in
  let results :=
    if bool_decide (model_type ∈ ["general"; "ensemble"]%string)
    then <["general"%string := _analyze_with_general_model processed_text]> results
    else results in
  let results :=
    <["rule_based"%string :=
        Rules.to_model_result (Rules._analyze_with_rules word_tokenize processed_text)]>
      results in
  let ensemble :=
    if String.eqb model_type "ensemble"
    then Some (Ensemble._create_ensemble_result results) else None in
  let entities := if include_entities then Some (_extract_entities text) else None in
  mkSentimentResults results ensemble entities
    (mkMetadata (PyStr.len text) (PyStr.len processed_text) model_type).

(** [analyze_sentiment]: every exception is logged and raised again. *)
Definition analyze_sentiment (text : string) (include_entities : bool)
    (model_type : string) (redis : Redis Entities)
    : outcome (SentimentResults Entities) * Redis Entities :=
  let cache_key := (hash text, model_type) in
  match redis_get redis cache_key with
  | Raised e => (Raised e, redis)
  | Returned (Some cached_result) => (Returned cached_result, redis)
  | Returned None =>
      let results := compute_results text include_entities model_type in
      match redis_setex redis cache_key results with
      | Raised e => (Raised e, redis)
      | Returned redis' => (Returned results, redis')
      end
  end.

End Service.

End Sentiment.

(** ** The recommendation service *)

Module Recommendation.

Import Profile Scorer Ranker.

(** The cache of the recommendation service: profiles under
    [user_profile:<id>], ranked sets under [recommendations:<id>]; a flag per
    operation tells whether the client raises on it. *)
Record Redis : Type := mkRedis {
  get_raises : bool;
  setex_raises : bool;
  profile_entries : gmap string UserProfile;
  recommendation_entries : gmap string (list Candidate)
}.

Definition get_profile (redis : Redis) (user_id : string) : outcome (option UserProfile) :=
  if get_raises redis then Raised "ConnectionError"
  else Returned (profile_entries redis !! user_id).

Definition setex_profile (redis : Redis) (user_id : string) (profile : UserProfile)
    : outcome Redis :=
  if setex_raises redis then Raised "ConnectionError"
  else Returned (mkRedis (get_raises redis) (setex_raises redis)
                         (<[user_id := profile]> (profile_entries redis))
                         (recommendation_entries redis)).

Definition setex_recommendations (redis : Redis) (user_id : string)
    (recommendations : list Candidate) : outcome Redis :=
  if setex_raises redis then Raised "ConnectionError"
  else Returned (mkRedis (get_raises redis) (setex_raises redis)
                         (profile_entries redis)
                         (<[user_id := recommendations]> (recommendation_entries redis))).

(** [" and ".join(reasons)] *)
Fixpoint join_and (reasons : list string) : string :=
  match reasons with
  | [] => ""
  | [r] => r
  | r :: rest => r +:+ " and " +:+ join_and rest
  end.

(** [_get_recommendation_reason] *)
Definition _get_recommendation_reason (course : Course) (user_profile : UserProfile)
    : string :=
  let reasons : list string := [] in
  let reasons :=
    if bool_decide (c_category course ∈ preferred_categories user_profile)
    then reasons ++ ["matches your interest in " +:+ c_category course]
    else reasons in
  let reasons :=
    if String.eqb (c_level course) (skill_level user_profile)
    then reasons ++ ["appropriate for your skill level"%string]
    else reasons in
  let reasons :=
    match c_avg_rating course with
    | Some rating =>
        if negb (Qeq_bool rating 0) && Qle_bool 4 rating
        then reasons ++ ["highly rated by other users"%string]
        else reasons
    | None => reasons
    end in
  let reasons :=
    match reasons with
    | [] => ["recommended based on your profile"%string]
    | _ :: _ => reasons
    end in
  "Recommended because it " +:+ join_and reasons.

Section Service.

(** The database queries and the clock (seconds). *)
Variable db_user : string -> option UserRow.
Variable db_learning : string -> list LearningRow.
Variable db_trading : string -> list TradeRow.
(** Published courses the given user has not completed. *)
Variable db_courses : string -> list Course.
(** The news of the last seven days, at most 100 rows. *)
Variable db_news : list Article.
Variable now : Z.

(** [_get_user_profile] *)
Definition _get_user_profile (user_id : string) (redis : Redis)
    : outcome UserProfile * Redis :=
  match get_profile redis user_id with
  | Raised e => (Raised e, redis)
  | Returned (Some cached_profile) => (Returned cached_profile, redis)
  | Returned None =>
      let user_data := db_user user_id in
      let learning_data := db_learning user_id in
      let trading_data := db_trading user_id in
      let profile :=
        mkUserProfile user_data learning_data trading_data
          (_extract_interests learning_data trading_data)
          (_determine_skill_level learning_data)
          (match user_data with
           | Some u => user_risk_profile u
           | None => "moderate"%string
           end)
          (_get_preferred_categories learning_data) in
      match setex_profile redis user_id profile with
      | Raised e => (Raised e, redis)
      | Returned redis' => (Returned profile, redis')
      end
  end.

(** [_recommend_courses]; [user_profile["user_data"]["id"]] raises when the
    user record is empty. *)
Definition _recommend_courses (user_profile : UserProfile)
    (preferred_language : option string) (limit : Z) : outcome (list Candidate) :=
  match user_data user_profile with
  | None => Raised "KeyError: 'id'"
  | Some user =>
      let courses := db_courses (id user) in
      let course_scores :=
        map (fun course =>
               mkCandidate (c_id course) "course" (c_title course)
                 (_calculate_course_score now course user_profile preferred_language)
                 (_get_recommendation_reason course user_profile))
            courses in
      let course_scores := PyStr.sorted_desc score course_scores in
      Returned (PyStr.list_slice_to course_scores limit)
  end.

(** [_recommend_news] *)
Definition _recommend_news (user_profile : UserProfile) (limit : Z) : list Candidate :=
  let user_interests := interests user_profile in
  let news_scores :=
    map (fun article =>
           mkCandidate (a_id article) "news" (a_title article)
             (_calculate_news_score now article user_interests)
             "Based on your trading activity and interests")
        db_news in
  let news_scores := PyStr.sorted_desc score news_scores in
  PyStr.list_slice_to news_scores limit.

(** [_cache_recommendations]: an exception of the cache is logged and
    dropped. *)
Definition _cache_recommendations (user_id : string)
    (recommendations : list Candidate) (redis : Redis) : Redis :=
  match setex_recommendations redis user_id recommendations with
  | Raised _ => redis
  | Returned redis' => redis'
  end.

(** The candidates [get_recommendations] hands to the ranker. *)
Definition gather_candidates (user_profile : UserProfile)
    (preferred_language : option string) (limit : Z) : outcome (list Candidate) :=
  match _recommend_courses user_profile preferred_language (limit / 2) with
  | Raised e => Raised e
  | Returned course_recommendations =>
      let news_recommendations := _recommend_news user_profile (limit / 2) in
      Returned (course_recommendations ++ news_recommendations)
  end.

(** [get_recommendations]: every exception is logged and raised again. The
    learning history it also queries is passed on to [_recommend_courses],
    which does not read it, and is left out. *)
Definition get_recommendations (user_id : string)
    (preferred_language : option string) (limit : Z) (redis : Redis)
    : outcome (list Candidate) * Redis :=
  match _get_user_profile user_id redis with
  | (Raised e, redis) => (Raised e, redis)
  | (Returned user_profile, redis) =>
      match gather_candidates user_profile preferred_language limit with
      | Raised e => (Raised e, redis)
      | Returned all_recommendations =>
          let ranked_recommendations :=
            _rank_recommendations all_recommendations limit in
          let redis := _cache_recommendations user_id ranked_recommendations redis in
          (Returned ranked_recommendations, redis)
      end
  end.

End Service.

End Recommendation.

(** ** Reference definitions for the statements *)

(** The sum of a list of rationals. *)
Definition Qsum (l : list Q) : Q := fold_right Qplus 0 l.

Module EnsembleSpec.

(** What one model contributes to the score of label [l]:
    [weight * confidence] when it ran and reported [l]. *)
Definition vote (results : gmap string ModelResult) (l : Label) (model : string) : Q :=
  match results !! model with
  | Some r => if decide (sentiment r = l) then Ensemble.weight_of model * confidence r else 0
  | None => 0
  end.

(** The weight of a model when it ran. *)
Definition weight_used (results : gmap string ModelResult) (model : string) : Q :=
  match results !! model with
  | Some _ => Ensemble.weight_of model
  | None => 0
  end.

(** [weight * confidence] of a model when it ran. *)
Definition weighted_confidence (results : gmap string ModelResult) (model : string) : Q :=
  match results !! model with
  | Some r => Ensemble.weight_of model * confidence r
  | None => 0
  end.

(** The sum of the three scores. *)
Definition scores_sum (s : Scores) : Q :=
  get_score s positive + get_score s negative + get_score s neutral.

End EnsembleSpec.

(** ** Reference definitions for the ranker *)

Module RankSpec.

Import Ranker.

(** The number of entries of a list with the given item type. *)
Definition count_type (t : string) (l : list Candidate) : Z :=
  Z.of_nat (length (filter (fun c => item_type c = t) l)).

(** [ceil(limit * 0.6)] *)
Definition cap (limit : Z) : Z := Qceiling (inject_Z limit * 0.6).

(** The walk described for the ranker: candidates are visited in order; a
    candidate is chosen while its type's running count is below the cap;
    the walk stops once [limit] candidates are chosen or the input is
    exhausted. *)
Fixpoint walk (limit : Z) (chosen sorted : list Candidate) : list Candidate :=
  match sorted with
  | [] => chosen
  | c :: rest =>
      if (Z.of_nat (length chosen) <? limit)%Z then
        if (count_type (item_type c) chosen <? cap limit)%Z
        then walk limit (chosen ++ [c]) rest
        else walk limit chosen rest
      else chosen
  end.

(** Descending order of the scores. *)
Definition descending (l : list Candidate) : Prop :=
  StronglySorted (fun x y => score y <= score x) l.

(** The candidates of a list whose score equals [q], in their order. *)
Definition with_score (q : Q) (l : list Candidate) : list Candidate :=
  filter (fun c => Qeq_bool (score c) q = true) l.

(** [type_counts] holds, for every type seen, its number of chosen
    entries. *)
Definition counts_match (type_counts : gmap string Z) (chosen : list Candidate) : Prop :=
  forall t, default 0%Z (type_counts !! t) = count_type t chosen.

(** Eight courses of score 0.9 followed by two news items of score 0.8. *)
Definition scenario_candidates : list Candidate :=
  map (fun i => mkCandidate i "course" "course" 0.9 "")
      ["c1"; "c2"; "c3"; "c4"; "c5"; "c6"; "c7"; "c8"]%string
  ++ map (fun i => mkCandidate i "news" "news" 0.8 "") ["n1"; "n2"]%string.

End RankSpec.

(** ** Reference definitions for chunking *)

Module ChunkSpec.

(** A stand-in for a sentence tokenizer on plain prose: a sentence ends at a
    full stop, exclamation mark or question mark that is followed by a
    space. *)
Fixpoint sentences_go (cur : string) (s : string) : list string :=
  match s with
  | EmptyString => if String.eqb cur "" then [] else [String.rev cur]
  | String c s' =>
      if (Ascii.eqb c "." || Ascii.eqb c "!" || Ascii.eqb c "?")%char then
        match s' with
        | String " "%char s'' => String.rev (String c cur) :: sentences_go "" s''
        | _ => sentences_go (String c cur) s'
        end
      else sentences_go (String c cur) s'
  end.

Definition simple_sent_tokenize (text : string) : list string := sentences_go "" text.

(** [c * n] for a one-character string [c]. *)
Fixpoint repeat_char (c : ascii) (n : nat) : string :=
  match n with
  | O => EmptyString
  | S n' => String c (repeat_char c n')
  end.

(** A sentence of 256 characters. *)
Definition long_sentence : string := "A" +:+ repeat_char "a" 254 +:+ ".".

(** Two such sentences separated by a space: 513 characters. *)
Definition two_sentences : string := long_sentence +:+ " " +:+ long_sentence.

End ChunkSpec.

(** ** Reference definitions for the profile *)

Module ProfileSpec.

Import Profile.

(** Completed-course counts added up per category, categories in first-seen
    order. *)
Fixpoint add_count (totals : list (string * Z)) (c : string) (n : Z) : list (string * Z) :=
  match totals with
  | [] => [(c, n)]
  | (c', n') :: rest =>
      if String.eqb c' c then (c', (n' + n)%Z) :: rest
      else (c', n') :: add_count rest c n
  end.

Definition totals_per_category (learning_data : list LearningRow) : list (string * Z) :=
  fold_left (fun totals row => add_count totals (category row) (completed_courses row))
            learning_data [].

(** The top three distinct categories by total completed-course count,
    descending, ties in first-seen order. *)
Definition top_categories (learning_data : list LearningRow) : list string :=
  map fst (take 3 (PyStr.sorted_desc (fun p => inject_Z (snd p))
                                     (totals_per_category learning_data))).

(** A learning history in which the completions of one category are split
    over two levels. *)
Definition split_history : list LearningRow :=
  [mkLearningRow "stocks" "beginner" 3 (Some 80);
   mkLearningRow "stocks" "intermediate" 2 (Some 75);
   mkLearningRow "bonds" "beginner" 4 (Some 90);
   mkLearningRow "funds" "beginner" 1 (Some 60)].

End ProfileSpec.

(** ** Fixtures: a small database and stand-ins for the external models *)

Module Fixture.

Import Profile Scorer Ranker.

Definition db_user (user_id : string) : option UserRow :=
  if String.eqb user_id "42" then Some (mkUserRow "42" "moderate") else None.

Definition db_learning (user_id : string) : list LearningRow :=
  if String.eqb user_id "42" then ProfileSpec.split_history else [].

Definition db_trading (user_id : string) : list TradeRow :=
  if String.eqb user_id "42" then [mkTradeRow "BANKNIFTY" 7; mkTradeRow "ITC" 2] else [].

Definition course (i title cat : string) (rating : Q) : Course :=
  mkCourse i title cat "beginner" (Some rating) (Some 40%Z) (Some 0%Z) (Some "en"%string).

Definition db_courses (user_id : string) : list Course :=
  [course "c1" "Stocks 101" "stocks" 4.5; course "c2" "Bonds 101" "bonds" 4;
   course "c3" "Funds 101" "funds" 5; course "c4" "Tax basics" "tax" 3.5].

Definition article (i title : string) : Article :=
  mkArticle i title "Banking and technology stocks" "stocks" (Some "positive"%string)
            (Some 0%Z).

Definition db_news : list Article :=
  [article "n1" "Banking rally"; article "n2" "Technology rally";
   article "n3" "Markets today"; article "n4" "Funds update"].

Definition now : Z := 3600.

(** A cache on which every operation succeeds, and caches whose reads or
    writes raise. *)
Definition healthy : Recommendation.Redis := Recommendation.mkRedis false false ∅ ∅.
Definition unreadable : Recommendation.Redis := Recommendation.mkRedis true false ∅ ∅.

Definition get_recommendations :=
  Recommendation.get_recommendations db_user db_learning db_trading db_courses db_news now.

(** Stand-ins for the external models of the sentiment service. *)
Definition pipeline (chunk : string) : outcome (Label * Q) := Returned (positive, 0.75).

Definition analyze_sentiment :=
  Sentiment.analyze_sentiment (fun text => text) (fun text => PyStr.len text)
    String.words ChunkSpec.simple_sent_tokenize (fun _ => 0.5) pipeline pipeline
    unit (fun _ => tt).

Definition verdict_cache_down : Sentiment.Redis unit := Sentiment.mkRedis true true ∅.

End Fixture.

(** ** Further parts of the services *)

(** *** The market sentiment summary *)

Module Market.

(** The integer dictionary [sentiment_counts]. *)
Record Counts : Type := mkCounts {
  count_positive : Z;
  count_negative : Z;
  count_neutral : Z
}.

Definition get_count (c : Counts) (l : Label) : Z :=
  match l with
  | positive => count_positive c
  | negative => count_negative c
  | neutral => count_neutral c
  end.

(** [sentiment_counts[l] += 1] *)
Definition incr_count (c : Counts) (l : Label) : Counts :=
  match l with
  | positive => mkCounts (count_positive c + 1) (count_negative c) (count_neutral c)
  | negative => mkCounts (count_positive c) (count_negative c + 1) (count_neutral c)
  | neutral => mkCounts (count_positive c) (count_negative c) (count_neutral c + 1)
  end.

(** The key of [sentiment_counts] a string is, if any. *)
Definition label_of_string (s : string) : option Label :=
  if String.eqb s "positive" then Some positive
  else if String.eqb s "negative" then Some negative
  else if String.eqb s "neutral" then Some neutral
  else None.

(** [[article.sentiment for article in news_data if article.sentiment]]:
    the sentiments that are neither missing nor the empty string. *)
Definition stated_sentiments (news_data : list Scorer.Article) : list string :=
  omap (fun article =>
          match Scorer.a_sentiment article with
          | Some s => if String.eqb s "" then None else Some s
          | None => None
          end) news_data.

(** The counting loop: a sentiment outside the three keys is skipped. *)
Definition count_sentiments (sentiments : list string) : Counts :=
  fold_left (fun counts s =>
               match label_of_string s with
               | Some l => incr_count counts l
               | None => counts
               end) sentiments (mkCounts 0 0 0).

(** The returned dictionary; [sentiment_breakdown] and [timeframe] are absent
    from the short form returned when nothing was analysed ([last_updated] is
    left out). *)
Record Summary : Type := mkSummary {
  overall_sentiment : Label;
  summary_confidence : Q;
  sentiment_breakdown : option Scores;
  articles_analyzed : Z;
  summary_timeframe : option string
}.

Definition nothing_analyzed : Summary := mkSummary neutral 0.5 None 0 None.

(** [get_market_sentiment_summary]; [news_data] is the result of the query
    for the time frame. *)
Definition get_market_sentiment_summary (news_data : list Scorer.Article)
    (timeframe : string) : Summary :=
  match news_data with
  | [] => nothing_analyzed
  | _ :: _ =>
      let sentiments := stated_sentiments news_data in
      let sentiment_counts := count_sentiments sentiments in
      let total_articles := Z.of_nat (length sentiments) in
      if (total_articles =? 0)%Z then nothing_analyzed
      else
        let percentage (l : Label) :=
          inject_Z (get_count sentiment_counts l) / inject_Z total_articles * 100 in
        let sentiment_percentages :=
          mkScores (percentage positive) (percentage negative) (percentage neutral) in
        let overall_sentiment :=
          py_max_from (fun l => inject_Z (get_count sentiment_counts l))
                      positive [negative; neutral] in
        let confidence :=
          inject_Z (get_count sentiment_counts overall_sentiment)
          / inject_Z total_articles in
        mkSummary overall_sentiment confidence (Some sentiment_percentages)
                  total_articles (Some timeframe)
  end.

End Market.

(** *** Entity extraction *)

Module Entities.

(** An entity of the parsed document: [ent.text], [ent.label_],
    [ent.start_char], [ent.end_char]. *)
Record Ent : Type := mkEnt {
  ent_text : string;
  label_ : string;
  start_char : Z;
  end_char : Z
}.

(** An entry of the returned lists. *)
Record Entity : Type := mkEntity {
  text : string;
  start : Z;
  end_ : Z;
  entity_confidence : Q
}.

(** The keys the dictionary [entities] starts with. *)
Definition LABELS : list string :=
  ["PERSON"; "ORG"; "MONEY"; "PERCENT"; "DATE"; "GPE"; "PRODUCT"]%string.

Definition empty_entities : gmap string (list Entity) :=
  list_to_map (map (fun l => (l, [])) LABELS).

(** One iteration of the loop over [doc.ents]. *)
Definition add_entity (entities : gmap string (list Entity)) (ent : Ent)
    : gmap string (list Entity) :=
  match entities !! label_ ent with
  | Some found =>
      <[label_ ent := found ++ [mkEntity (ent_text ent) (start_char ent) (end_char ent) 1]]>
        entities
  | None => entities
  end.

(** [_extract_entities]; [nlp] gives the entities of the parsed text. *)
Definition _extract_entities (nlp : string -> list Ent) (text : string)
    : gmap string (list Entity) :=
  fold_left add_entity (nlp text) empty_entities.

End Entities.

(** *** Feedback *)

Module Feedback.

(** The stored feedback (without its timestamp). *)
Record Event : Type := mkEvent {
  event_user_id : string;
  event_item_id : string;
  feedback_type : string;
  rating : option Q
}.

(** The cache seen by [update_user_feedback]: the cache of the
    recommendation service, the feedback entries by key, and whether
    [delete] raises. *)
Record Store : Type := mkStore {
  cache : Recommendation.Redis;
  delete_raises : bool;
  feedback_entries : gmap string Event
}.

(** [f"feedback:{user_id}:{item_id}"] *)
Definition feedback_key (user_id item_id : string) : string :=
  "feedback:" +:+ user_id +:+ ":" +:+ item_id.

(** [update_user_feedback]: an exception of the cache is logged and dropped,
    and ends the function where it is raised. *)
Definition update_user_feedback (user_id item_id feedback_type : string)
    (rating : option Q) (store : Store) : Store :=
  let feedback_data := mkEvent user_id item_id feedback_type rating in
  if Recommendation.setex_raises (cache store) then store
  else
    let store :=
      mkStore (cache store) (delete_raises store)
              (<[feedback_key user_id item_id := feedback_data]> (feedback_entries store)) in
    if delete_raises store then store
    else
      mkStore
        (Recommendation.mkRedis
           (Recommendation.get_raises (cache store))
           (Recommendation.setex_raises (cache store))
           (Recommendation.profile_entries (cache store))
           (delete user_id (Recommendation.recommendation_entries (cache store))))
        (delete_raises store) (feedback_entries store).

End Feedback.

(** *** Reference definitions for the further properties *)

Module MoreSpec.

(** [" ".join(l)] *)
Fixpoint join_space (l : list string) : string :=
  match l with
  | [] => ""
  | [s] => s
  | s :: rest => s +:+ " " +:+ join_space rest
  end.

(** A non-empty string without leading or trailing white space. *)
Definition clean (s : string) : Prop := s <> ""%string /\ PyStr.strip s = s.

(** The number of interests whose lower-case form occurs in a text. *)
Definition matching_interests (article_text : string) (user_interests : list string) : Z :=
  Z.of_nat (length (filter (fun interest =>
                              PyStr.contains (PyStr.lower interest) article_text = true)
                           user_interests)).

(** The sum of the completed-course counts of a learning history. *)
Definition total_completed (learning_data : list Profile.LearningRow) : Z :=
  fold_right Z.add 0%Z (map Profile.completed_courses learning_data).

(** What the loop of [_split_text] keeps: every finished chunk and the
    current chunk are either at most [max_length + 1] characters long or one
    stripped (for the current chunk: unstripped) sentence longer than
    [max_length]. *)
Definition chunk_ok (max_length : Z) (sentences : list string) (chunk : string) : Prop :=
  (PyStr.len chunk <= max_length + 1)%Z
  \/ exists s, s ∈ sentences /\ chunk = PyStr.strip s /\ (max_length < PyStr.len s)%Z.

Definition current_ok (max_length : Z) (sentences : list string) (current : string) : Prop :=
  (PyStr.len current <= max_length + 1)%Z
  \/ (current ∈ sentences /\ (max_length < PyStr.len current)%Z).

(** The confidence accumulated under a label by a list of chunk results. *)
Definition accumulated (chunk_results : list (Label * Q)) (l : Label) : Q :=
  Qsum (map (fun result => if decide (fst result = l) then snd result else 0)
            chunk_results).

(** The number of sentiments that are the given label. *)
Definition count_label (l : Label) (sentiments : list string) : Z :=
  Z.of_nat (length (filter (fun s => Market.label_of_string s = Some l) sentiments)).

(** The list entry made for an entity of the document. *)
Definition to_entity (ent : Entities.Ent) : Entities.Entity :=
  Entities.mkEntity (Entities.ent_text ent) (Entities.start_char ent)
                    (Entities.end_char ent) 1.

(** The entities of a document with a given label, in document order. *)
Definition with_label (l : string) (ents : list Entities.Ent) : list Entities.Ent :=
  filter (fun ent => Entities.label_ ent = l) ents.

End MoreSpec.

(** * Properties *)

(** ** Rational arithmetic helpers *)

Lemma Qltb_true (x y : Q) : Qltb x y = true <-> x < y.
Proof.
  unfold Qltb. destruct (Qlt_le_dec x y) as [H|H]; split; intros H'; try done.
  exfalso. apply (Qlt_not_le _ _ H'), H.
Qed.

Lemma Qltb_false (x y : Q) : Qltb x y = false <-> y <= x.
Proof.
  unfold Qltb. destruct (Qlt_le_dec x y) as [H|H]; split; intros H'; try done.
  exfalso. apply (Qlt_not_le _ _ H), H'.
Qed.



Lemma Qdiv_nonneg (a b : Q) : 0 <= a -> 0 < b -> 0 <= a / b.
Proof.
  intros Ha Hb. apply Qle_shift_div_l; [done|]. by rewrite Qmult_0_l.
Qed.

(** ** The ensemble combiner *)

Lemma get_add_score (s : Scores) (l l' : Label) (x : Q) :
  get_score (add_score s l x) l' == get_score s l' + (if decide (l = l') then x else 0).
Proof. destruct l, l'; simpl; lra. Qed.

Lemma scores_sum_add (s : Scores) (l : Label) (x : Q) :
  EnsembleSpec.scores_sum (add_score s l x) == EnsembleSpec.scores_sum s + x.
Proof. unfold EnsembleSpec.scores_sum. destruct l; simpl; lra. Qed.

Lemma get_div_scores (s : Scores) (d : Q) (l : Label) :
  get_score (div_scores s d) l = get_score s l / d.
Proof. by destruct l. Qed.

(** The weighting loop adds, per label, the votes of the models visited. *)
Lemma weigh_fold (results : gmap string ModelResult) (ms : list string) (st : Scores * Q) :
  let st' := fold_left (Ensemble.weigh_step results) ms st in
  (forall l, get_score (fst st') l
             == get_score (fst st) l + Qsum (map (EnsembleSpec.vote results l) ms))
  /\ snd st' == snd st + Qsum (map (EnsembleSpec.weight_used results) ms)
  /\ EnsembleSpec.scores_sum (fst st')
     == EnsembleSpec.scores_sum (fst st)
        + Qsum (map (EnsembleSpec.weighted_confidence results) ms).
Proof.
  revert st. induction ms as [|m ms IH]; intros st; simpl.
  - repeat split; intros; lra.
  - destruct (IH (Ensemble.weigh_step results st m)) as (IH1 & IH2 & IH3).
    repeat split.
    + intros l. rewrite IH1.
      unfold Ensemble.weigh_step, EnsembleSpec.vote.
      destruct (results !! m) as [r|]; simpl; [|lra].
      rewrite get_add_score. destruct (decide (sentiment r = l)); lra.
    + rewrite IH2. unfold Ensemble.weigh_step, EnsembleSpec.weight_used.
      destruct (results !! m) as [r|]; simpl; lra.
    + rewrite IH3. unfold Ensemble.weigh_step, EnsembleSpec.weighted_confidence.
      destruct (results !! m) as [r|]; simpl; [|lra].
      rewrite scores_sum_add. lra.
Qed.

Lemma weight_of_values :
  Ensemble.weight_of "finbert" = 0.4 /\ Ensemble.weight_of "vader" = 0.25
  /\ Ensemble.weight_of "general" = 0.2 /\ Ensemble.weight_of "rule_based" = 0.15.
Proof. repeat split; vm_compute; reflexivity. Qed.

(** [max] over the scores picks the first key of maximal score. *)
Lemma argmax_scores_spec (s : Scores) :
  (forall l, get_score s l <= get_score s (Ensemble.argmax_scores s))
  /\ (forall l, get_score s l == get_score s (Ensemble.argmax_scores s) ->
                (key_index (Ensemble.argmax_scores s) <= key_index l)%nat).
Proof.
  unfold Ensemble.argmax_scores, py_max_from. simpl.
  destruct (Qltb (score_positive s) (score_negative s)) eqn:E1; simpl.
  - apply Qltb_true in E1.
    destruct (Qltb (score_negative s) (score_neutral s)) eqn:E2;
      [apply Qltb_true in E2 | apply Qltb_false in E2];
      split; intros l; destruct l; simpl; intros; try lia; lra.
  - apply Qltb_false in E1.
    destruct (Qltb (score_positive s) (score_neutral s)) eqn:E2;
      [apply Qltb_true in E2 | apply Qltb_false in E2];
      split; intros l; destruct l; simpl; intros; try lia; lra.
Qed.

Ltac case_models results :=
  destruct (results !! "vader"%string) as [?r|] eqn:?E;
  destruct (results !! "finbert"%string) as [?r|] eqn:?E;
  destruct (results !! "general"%string) as [?r|] eqn:?E;
  destruct (results !! "rule_based"%string) as [?r|] eqn:?E.

(** Some model ran exactly when the first loop collected a sentiment. *)
Lemma collect_sentiments_nonempty (results : gmap string ModelResult) :
  Ensemble.collect_sentiments results <> []
  <-> exists model, model ∈ Ensemble.MODELS /\ is_Some (results !! model).
Proof.
  unfold Ensemble.collect_sentiments, Ensemble.MODELS. split.
  - intros H.
    destruct (results !! "vader"%string) as [r|] eqn:E1;
      [exists "vader"%string; rewrite E1; split; [set_solver | eauto] |].
    destruct (results !! "finbert"%string) as [r|] eqn:E2;
      [exists "finbert"%string; rewrite E2; split; [set_solver | eauto] |].
    destruct (results !! "general"%string) as [r|] eqn:E3;
      [exists "general"%string; rewrite E3; split; [set_solver | eauto] |].
    destruct (results !! "rule_based"%string) as [r|] eqn:E4;
      [exists "rule_based"%string; rewrite E4; split; [set_solver | eauto] |].
    exfalso. apply H. simpl. by rewrite E1, E2, E3, E4.
  - intros (model & Hin & [r Hr]) H.
    assert (Hm : sentiment <$> results !! model = Some (sentiment r)) by by rewrite Hr.
    assert (Hel : sentiment r ∈ omap (fun model => sentiment <$> results !! model)
                    ["vader"; "finbert"; "general"; "rule_based"]%string).
    { apply list_elem_of_omap. eauto. }
    rewrite H in Hel. by apply not_elem_of_nil in Hel.
Qed.

(** The weights used are positive as soon as one model ran. *)
Lemma total_weight_pos (results : gmap string ModelResult) :
  Ensemble.collect_sentiments results <> [] -> 0 < Ensemble.total_weight results.
Proof.
  intros H.
  destruct (weigh_fold results Ensemble.MODELS (zero_scores, 0)) as (_ & Ht & _).
  fold (Ensemble.weigh results) in Ht. fold (Ensemble.total_weight results) in Ht.
  rewrite Ht. clear Ht.
  destruct weight_of_values as (Wf & Wv & Wg & Wr).
  unfold Ensemble.collect_sentiments in H.
  unfold Ensemble.MODELS, EnsembleSpec.weight_used in *. simpl in *.
  rewrite ?Wf, ?Wv, ?Wg, ?Wr.
  case_models results; simpl in *; rewrite ?Wf, ?Wv, ?Wg, ?Wr; try lra.
  by exfalso.
Qed.

(** Each vote is bounded by the weight of its model. *)
Lemma Qsum_weighted_le (results : gmap string ModelResult) (ms : list string) :
  (forall model r, results !! model = Some r -> 0 <= confidence r <= 1) ->
  Qsum (map (EnsembleSpec.weighted_confidence results) ms)
  <= Qsum (map (EnsembleSpec.weight_used results) ms).
Proof.
  intros Hc. induction ms as [|m ms IH]; simpl; [lra|].
  apply Qplus_le_compat; [|exact IH].
  unfold EnsembleSpec.weighted_confidence, EnsembleSpec.weight_used.
  destruct (results !! m) as [r|] eqn:E; [|lra].
  destruct (Hc m r E) as [_ H1].
  assert (Hw : 0 <= Ensemble.weight_of m).
  { unfold Ensemble.weight_of. destruct (Ensemble.weights !! m) as [w|] eqn:Ew; simpl; [|lra].
    unfold Ensemble.weights in Ew. apply elem_of_list_to_map_2 in Ew.
    repeat (apply elem_of_cons in Ew as [Ew|Ew]; [inversion Ew; subst; lra|]).
    by apply not_elem_of_nil in Ew. }
  nra.
Qed.

(** The result of the combiner once some model ran. *)
Lemma create_ensemble_result_ran (results : gmap string ModelResult) :
  Ensemble.collect_sentiments results <> [] ->
  Ensemble._create_ensemble_result results =
  let scores' := div_scores (Ensemble.raw_scores results) (Ensemble.total_weight results) in
  Ensemble.mkEnsembleResult (Ensemble.argmax_scores scores')
    (get_score scores' (Ensemble.argmax_scores scores'))
    (Some scores') (Some (dom results)) (Some (Ensemble.total_weight results)).
Proof.
  intros H. pose proof (total_weight_pos results H) as Hpos.
  unfold Ensemble._create_ensemble_result, Ensemble.raw_scores, Ensemble.total_weight in *.
  destruct (Ensemble.collect_sentiments results) as [|s ss]; [done|].
  destruct (Ensemble.weigh results) as [scores total]; simpl in *.
  unfold Ensemble.normalize. apply Qltb_true in Hpos. by rewrite Hpos.
Qed.




(** The keys of the result once some model ran. *)
Lemma result_keys_ran (results : gmap string ModelResult) :
  (exists model, model ∈ Ensemble.MODELS /\ is_Some (results !! model)) ->
  Ensemble.result_keys (Ensemble._create_ensemble_result results)
  = ["sentiment"; "confidence"; "scores"; "models_used"; "total_weight"]%string.
Proof.
  intros H. apply collect_sentiments_nonempty in H.
  by rewrite (create_ensemble_result_ran results H).
Qed.

(** C7 (amended): when no model contributes a sentiment, the ensemble result
    is exactly the pair neutral, 0.5; it has no further entry, so no flag says
    that no model succeeded. It differs from the result of a run in which
    some model reported only by lacking the entries [scores], [models_used]
    and [total_weight]. *)
Theorem ensemble_no_model_fallback (results : gmap string ModelResult) :
  (forall model, model ∈ Ensemble.MODELS -> results !! model = None) ->
  Ensemble._create_ensemble_result results
  = Ensemble.mkEnsembleResult neutral 0.5 None None None
  /\ Ensemble.result_keys (Ensemble._create_ensemble_result results)
     = ["sentiment"; "confidence"]%string
  /\ (forall results' : gmap string ModelResult,
        (exists model, model ∈ Ensemble.MODELS /\ is_Some (results' !! model)) ->
        Ensemble.result_keys (Ensemble._create_ensemble_result results')
        = ["sentiment"; "confidence"; "scores"; "models_used"; "total_weight"]%string).
Proof.
  intros Hnone.
  assert (Hc : Ensemble.collect_sentiments results = []).
  { destruct (Ensemble.collect_sentiments results) as [|s ss] eqn:E; [done|].
    assert (Hne : Ensemble.collect_sentiments results <> []) by by rewrite E.
    apply collect_sentiments_nonempty in Hne as (model & Hin & [r Hr]).
    rewrite (Hnone model Hin) in Hr. discriminate. }
  unfold Ensemble._create_ensemble_result. rewrite Hc.
  repeat split. intros results'. apply result_keys_ran.
Qed.

Lemma ensemble_no_model_fallback_witness :
  Ensemble._create_ensemble_result ∅
  = Ensemble.mkEnsembleResult neutral 0.5 None None None.
Proof.
  apply (ensemble_no_model_fallback ∅). intros model _. apply lookup_empty.
Defined.

(** C7 as stated fails: with no model result at all, the returned dictionary
    has the keys [sentiment] and [confidence] and no other, so it carries no
    flag. *)
Lemma ensemble_fallback_has_no_flag :
  Ensemble._create_ensemble_result ∅
  = Ensemble.mkEnsembleResult neutral 0.5 None None None
  /\ ~ (exists key, key ∈ Ensemble.result_keys (Ensemble._create_ensemble_result ∅)
                    /\ key <> "sentiment"%string /\ key <> "confidence"%string).
Proof.
  split; [reflexivity|].
  intros (key & Hin & H1 & H2).
  change (key ∈ ["sentiment"; "confidence"]%string) in Hin.
  apply elem_of_cons in Hin as [->|Hin]; [done|].
  apply elem_of_cons in Hin as [->|Hin]; [done|].
  by apply not_elem_of_nil in Hin.
Qed.

(** ** The rule-based adapter *)

Lemma Qdiv_Z_lt (a b t : Z) :
  (0 < t)%Z -> (inject_Z a / inject_Z t < inject_Z b / inject_Z t <-> (a < b)%Z).
Proof.
  intros Ht. assert (Hq : 0 < inject_Z t) by (change 0 with (inject_Z 0); by rewrite <- Zlt_Qlt).
  unfold Qdiv. rewrite Qmult_lt_r by by apply Qinv_lt_0_compat.
  by rewrite <- Zlt_Qlt.
Qed.

Lemma Qdiv_Z_le (a b t : Z) :
  (0 < t)%Z -> (inject_Z a / inject_Z t <= inject_Z b / inject_Z t <-> (a <= b)%Z).
Proof.
  intros Ht. assert (Hq : 0 < inject_Z t) by (change 0 with (inject_Z 0); by rewrite <- Zlt_Qlt).
  unfold Qdiv. rewrite Qmult_le_r by by apply Qinv_lt_0_compat.
  by rewrite <- Zle_Qle.
Qed.

Lemma Qdiv_Z_bounds (a t : Z) :
  (0 <= a <= t)%Z -> (0 < t)%Z -> 0 <= inject_Z a / inject_Z t <= 1.
Proof.
  intros [Ha Hat] Ht.
  assert (Hq : 0 < inject_Z t) by (change 0 with (inject_Z 0); by rewrite <- Zlt_Qlt).
  split.
  - apply Qle_shift_div_l; [done|]. rewrite Qmult_0_l.
    change 0 with (inject_Z 0). by rewrite <- Zle_Qle.
  - apply Qle_shift_div_r; [done|]. rewrite Qmult_1_l. by rewrite <- Zle_Qle.
Qed.

Lemma count_keywords_nonneg (keywords words : list string) :
  (0 <= Rules.count_keywords keywords words)%Z.
Proof. unfold Rules.count_keywords. lia. Qed.

(** The verdict of the rule-based adapter in terms of the three counts. *)
Lemma analyze_words_spec (words : list string) :
  let p := Rules.count_keywords Rules.positive_keywords words in
  let n := Rules.count_keywords Rules.negative_keywords words in
  let u := Rules.count_keywords Rules.neutral_keywords words in
  let total := (p + n + u)%Z in
  let r := Rules.analyze_words words in
  (total = 0%Z -> r = Rules.mkRuleResult neutral 0.5 None None)
  /\ (total <> 0%Z ->
      Rules.r_keyword_counts r = Some (p, n, u)
      /\ ((n < p)%Z /\ (u < p)%Z ->
          Rules.r_sentiment r = positive
          /\ Rules.r_confidence r = inject_Z p / inject_Z total)
      /\ ((p < n)%Z /\ (u < n)%Z ->
          Rules.r_sentiment r = negative
          /\ Rules.r_confidence r = inject_Z n / inject_Z total)
      /\ (~ ((n < p)%Z /\ (u < p)%Z) /\ ~ ((p < n)%Z /\ (u < n)%Z) ->
          Rules.r_sentiment r = neutral
          /\ Rules.r_confidence r = Qmax (inject_Z u / inject_Z total) 0.5)).
Proof.
  intros p n u total r.
  pose proof (count_keywords_nonneg Rules.positive_keywords words) as Hp.
  pose proof (count_keywords_nonneg Rules.negative_keywords words) as Hn.
  pose proof (count_keywords_nonneg Rules.neutral_keywords words) as Hu.
  fold p in Hp. fold n in Hn. fold u in Hu.
  unfold r, Rules.analyze_words. fold p n u. fold total.
  destruct (total =? 0)%Z eqn:E0.
  - apply Z.eqb_eq in E0. split; [done|]. intros H. by destruct H.
  - apply Z.eqb_neq in E0. split; [done|]. intros _.
    assert (Ht : (0 < total)%Z) by (unfold total in *; lia).
    destruct (Qltb (inject_Z n / inject_Z total) (inject_Z p / inject_Z total)) eqn:E1;
      [apply Qltb_true, Qdiv_Z_lt in E1 | apply Qltb_false, Qdiv_Z_le in E1]; try done;
    (destruct (Qltb (inject_Z u / inject_Z total) (inject_Z p / inject_Z total)) eqn:E2;
      [apply Qltb_true, Qdiv_Z_lt in E2 | apply Qltb_false, Qdiv_Z_le in E2]); try done;
    (destruct (Qltb (inject_Z p / inject_Z total) (inject_Z n / inject_Z total)) eqn:E3;
      [apply Qltb_true, Qdiv_Z_lt in E3 | apply Qltb_false, Qdiv_Z_le in E3]); try done;
    (destruct (Qltb (inject_Z u / inject_Z total) (inject_Z n / inject_Z total)) eqn:E4;
      [apply Qltb_true, Qdiv_Z_lt in E4 | apply Qltb_false, Qdiv_Z_le in E4]); try done;
    simpl; (split; [done|]);
    (split; [intros [H1 H2] | split; [intros [H1 H2] | intros [H1 H2]]]);
    first [done | exfalso; lia].
Qed.

(** C5 (amended): the adapter counts the keywords of the three lists among
    the tokens of the lower-cased text. With no keyword it returns neutral,
    0.5. Otherwise it returns positive (negative) when that count is strictly
    above both others, with the count's share of the sentiment-bearing words
    as confidence; in every other case (neutral count highest, or a tie for
    the highest count) it returns neutral with confidence
    [max(neutral share, 0.5)]. *)
Theorem rules_label_and_confidence (word_tokenize : string -> list string) (text : string) :
  let words := word_tokenize (PyStr.lower text) in
  let p := Rules.count_keywords Rules.positive_keywords words in
  let n := Rules.count_keywords Rules.negative_keywords words in
  let u := Rules.count_keywords Rules.neutral_keywords words in
  let total := (p + n + u)%Z in
  let r := Rules._analyze_with_rules word_tokenize text in
  (total = 0%Z -> r = Rules.mkRuleResult neutral 0.5 None None)
  /\ (total <> 0%Z ->
      Rules.r_keyword_counts r = Some (p, n, u)
      /\ ((n < p)%Z /\ (u < p)%Z ->
          Rules.r_sentiment r = positive
          /\ Rules.r_confidence r = inject_Z p / inject_Z total)
      /\ ((p < n)%Z /\ (u < n)%Z ->
          Rules.r_sentiment r = negative
          /\ Rules.r_confidence r = inject_Z n / inject_Z total)
      /\ (~ ((n < p)%Z /\ (u < p)%Z) /\ ~ ((p < n)%Z /\ (u < n)%Z) ->
          Rules.r_sentiment r = neutral
          /\ Rules.r_confidence r = Qmax (inject_Z u / inject_Z total) 0.5)).
Proof.
  intros words p n u total r. exact (analyze_words_spec words).
Qed.

Lemma rules_label_and_confidence_witness :
  Rules.r_sentiment (Rules._analyze_with_rules String.words "Stocks beat estimates") = positive
  /\ Rules.r_confidence (Rules._analyze_with_rules String.words "Stocks beat estimates")
     = inject_Z 1 / inject_Z (1 + 0 + 0).
Proof.
  destruct (rules_label_and_confidence String.words "Stocks beat estimates") as [_ H].
  destruct H as (_ & Hpos & _); [by vm_compute|].
  apply Hpos. by vm_compute.
Defined.

(** C5 as stated fails: with three neutral, two positive and two negative
    keywords the label is neutral, the category of highest count, but the
    confidence is 0.5 and not the neutral share 3/7. *)
Lemma rules_neutral_confidence_is_not_share :
  let r := Rules._analyze_with_rules String.words
             "Stable flat steady profit gain loss fall" in
  Rules.r_keyword_counts r = Some (2, 2, 3)%Z
  /\ Rules.r_sentiment r = neutral
  /\ Rules.r_confidence r == 0.5
  /\ ~ Rules.r_confidence r == inject_Z 3 / inject_Z (2 + 2 + 3).
Proof.
  vm_compute. repeat split; discriminate.
Qed.

(** ** Confidence bounds *)

Lemma Qmin_one_bounds (s : Q) : 0 <= s -> 0 <= Qmin s 1 <= 1.
Proof.
  intros Hs. split; [|apply Q.le_min_r].
  apply Q.min_glb; [done | lra].
Qed.

Lemma rules_confidence_bounds (words : list string) :
  0 <= Rules.r_confidence (Rules.analyze_words words) <= 1.
Proof.
  pose proof (count_keywords_nonneg Rules.positive_keywords words) as Hp.
  pose proof (count_keywords_nonneg Rules.negative_keywords words) as Hn.
  pose proof (count_keywords_nonneg Rules.neutral_keywords words) as Hu.
  unfold Rules.analyze_words.
  set (p := Rules.count_keywords Rules.positive_keywords words) in *.
  set (n := Rules.count_keywords Rules.negative_keywords words) in *.
  set (u := Rules.count_keywords Rules.neutral_keywords words) in *.
  destruct (p + n + u =? 0)%Z eqn:E0; [simpl; lra|].
  apply Z.eqb_neq in E0.
  assert (Ht : (0 < p + n + u)%Z) by lia.
  destruct (Qltb _ _ && Qltb _ _); simpl; [apply Qdiv_Z_bounds; lia|].
  destruct (Qltb _ _ && Qltb _ _); simpl; [apply Qdiv_Z_bounds; lia|].
  destruct (Qdiv_Z_bounds u (p + n + u)) as [H0 H1]; [lia|lia|].
  split.
  - apply Qle_trans with 0.5; [lra | apply Q.le_max_r].
  - apply Q.max_lub; [done | lra].
Qed.

Lemma weight_of_nonneg (model : string) : 0 <= Ensemble.weight_of model.
Proof.
  unfold Ensemble.weight_of. destruct (Ensemble.weights !! model) as [w|] eqn:Ew; simpl; [|lra].
  unfold Ensemble.weights in Ew. apply elem_of_list_to_map_2 in Ew.
  repeat (apply elem_of_cons in Ew as [Ew|Ew]; [inversion Ew; subst; lra|]).
  by apply not_elem_of_nil in Ew.
Qed.

Lemma Qsum_vote_nonneg (results : gmap string ModelResult) (l : Label) (ms : list string) :
  (forall model r, results !! model = Some r -> 0 <= confidence r <= 1) ->
  0 <= Qsum (map (EnsembleSpec.vote results l) ms).
Proof.
  intros Hc. induction ms as [|m ms IH]; simpl; [lra|].
  assert (0 <= EnsembleSpec.vote results l m); [|lra].
  unfold EnsembleSpec.vote. destruct (results !! m) as [r|] eqn:E; [|lra].
  destruct (decide (sentiment r = l)); [|lra].
  destruct (Hc m r E) as [H0 _]. pose proof (weight_of_nonneg m). nra.
Qed.

Lemma ensemble_confidence_bounds (results : gmap string ModelResult) :
  (forall model r, results !! model = Some r -> 0 <= confidence r <= 1) ->
  0 <= Ensemble.e_confidence (Ensemble._create_ensemble_result results) <= 1.
Proof.
  intros Hc.
  destruct (Ensemble.collect_sentiments results) as [|s ss] eqn:E.
  { unfold Ensemble._create_ensemble_result. rewrite E. simpl. lra. }
  assert (Hne : Ensemble.collect_sentiments results <> []) by by rewrite E.
  pose proof (total_weight_pos results Hne) as Hpos.
  rewrite (create_ensemble_result_ran results Hne). simpl.
  rewrite get_div_scores.
  set (f := Ensemble.argmax_scores _). clearbody f.
  destruct (weigh_fold results Ensemble.MODELS (zero_scores, 0)) as (Hs & Ht & Hsum).
  fold (Ensemble.weigh results) in Hs, Ht, Hsum.
  fold (Ensemble.raw_scores results) in Hs, Hsum.
  fold (Ensemble.total_weight results) in Ht.
  assert (Hnn : forall l, 0 <= get_score (Ensemble.raw_scores results) l).
  { intros l. rewrite Hs.
    assert (Hz : get_score (zero_scores, 0).1 l == 0) by by destruct l.
    rewrite Hz, Qplus_0_l. by apply Qsum_vote_nonneg. }
  assert (Hle : EnsembleSpec.scores_sum (Ensemble.raw_scores results)
                <= Ensemble.total_weight results).
  { rewrite Hsum, Ht. change ((zero_scores, 0).2) with 0.
    change (EnsembleSpec.scores_sum (zero_scores, 0).1) with (0 + 0 + 0).
    ring_simplify. by apply Qsum_weighted_le. }
  assert (Hf : get_score (Ensemble.raw_scores results) f
               <= Ensemble.total_weight results).
  { pose proof (Hnn positive). pose proof (Hnn negative). pose proof (Hnn neutral).
    unfold EnsembleSpec.scores_sum in Hle. destruct f; lra. }
  split.
  - apply Qle_shift_div_l; [done|]. rewrite Qmult_0_l. apply Hnn.
  - apply Qle_shift_div_r; [done|]. by rewrite Qmult_1_l.
Qed.

Lemma course_score_sum_nonneg (now : Z) (course : Scorer.Course)
    (user_profile : Profile.UserProfile) (preferred_language : option string) :
  (forall q, Scorer.c_avg_rating course = Some q -> 0 <= q) ->
  (forall n, Scorer.c_review_count course = Some n -> (0 <= n)%Z) ->
  0 <= Scorer.course_score_sum now course user_profile preferred_language.
Proof.
  intros Hr Hn. unfold Scorer.course_score_sum.
  assert (H1 : 0 <= Scorer.or_zero (Scorer.c_avg_rating course) / 5 * 0.2).
  { assert (H0 : 0 <= Scorer.or_zero (Scorer.c_avg_rating course) / 5).
    { apply Qdiv_nonneg; [|lra].
      destruct (Scorer.c_avg_rating course) as [q|]; simpl; [by apply Hr | lra]. }
    lra. }
  assert (H2 : 0 <= Qmin (Scorer.or_zero (inject_Z <$> Scorer.c_review_count course) / 100) 0.1).
  { apply Q.min_glb; [|lra].
    apply Qdiv_nonneg; [|lra].
    destruct (Scorer.c_review_count course) as [n|]; simpl; [|lra].
    specialize (Hn n eq_refl). rewrite Zle_Qle in Hn. exact Hn. }
  set (a := Scorer.or_zero (Scorer.c_avg_rating course) / 5 * 0.2) in *.
  set (b := Qmin _ 0.1) in *. clearbody a b.
  repeat match goal with
         | |- context [if ?c then _ else _] => destruct c
         | |- context [match ?c with Some _ => _ | None => _ end] => destruct c
         end; lra.
Qed.

Lemma interest_score_nonneg (article_text : string) (user_interests : list string) :
  0 <= Scorer.interest_score article_text user_interests.
Proof.
  unfold Scorer.interest_score.
  assert (H : forall acc, 0 <= acc ->
            0 <= fold_left (fun score interest =>
                              if PyStr.contains (PyStr.lower interest) article_text
                              then score + 0.3 else score) user_interests acc).
  { induction user_interests as [|i rest IH]; intros acc Hacc; simpl; [done|].
    apply IH. destruct (PyStr.contains _ _); lra. }
  apply H. lra.
Qed.

Lemma news_score_sum_nonneg (now : Z) (article : Scorer.Article)
    (user_interests : list string) :
  0 <= Scorer.news_score_sum now article user_interests.
Proof.
  unfold Scorer.news_score_sum.
  pose proof (interest_score_nonneg
                (PyStr.lower (Scorer.a_title article +:+ " " +:+ Scorer.a_summary article))
                user_interests) as H.
  set (a := Scorer.interest_score _ _) in *. clearbody a.
  repeat match goal with
         | |- context [if ?c then _ else _] => destruct c
         | |- context [match ?c with Some _ => _ | None => _ end] => destruct c
         end; lra.
Qed.

(** C4: with adapter confidences in [0,1], the confidence of the rule-based
    adapter and of the ensemble verdict lie in [0,1]; so does every course
    score for an average rating in [0,5] and a non-negative review count, and
    every news score. *)
Theorem confidences_in_unit_interval
    (word_tokenize : string -> list string) (text : string)
    (results : gmap string ModelResult)
    (now : Z) (course : Scorer.Course) (user_profile : Profile.UserProfile)
    (preferred_language : option string)
    (article : Scorer.Article) (user_interests : list string) :
  (forall model r, results !! model = Some r -> 0 <= confidence r <= 1) ->
  (forall q, Scorer.c_avg_rating course = Some q -> 0 <= q <= 5) ->
  (forall n, Scorer.c_review_count course = Some n -> (0 <= n)%Z) ->
  0 <= Rules.r_confidence (Rules._analyze_with_rules word_tokenize text) <= 1
  /\ 0 <= Ensemble.e_confidence (Ensemble._create_ensemble_result results) <= 1
  /\ 0 <= Scorer._calculate_course_score now course user_profile preferred_language <= 1
  /\ 0 <= Scorer._calculate_news_score now article user_interests <= 1.
Proof.
  intros Hc Hr Hn.
  split; [apply rules_confidence_bounds|].
  split; [by apply ensemble_confidence_bounds|].
  split.
  - apply Qmin_one_bounds, course_score_sum_nonneg; [|done].
    intros q Hq. by destruct (Hr q Hq).
  - apply Qmin_one_bounds, news_score_sum_nonneg.
Qed.

Lemma confidences_in_unit_interval_witness :
  let results : gmap string ModelResult :=
    {[ "finbert"%string := mkModelResult negative 0.75 ]} in
  let course :=
    Scorer.mkCourse "c1" "Intro to bonds" "bonds" "beginner" (Some 4.5) (Some 20%Z)
                    (Some 0%Z) (Some "en"%string) in
  let user_profile :=
    Profile.mkUserProfile None [] [] ["banking"%string] "beginner" "moderate"
                          ["bonds"%string] in
  let article :=
    Scorer.mkArticle "n1" "Banking stocks rally" "Banks gain" "stocks"
                     (Some "positive"%string) (Some 0%Z) in
  0 <= Rules.r_confidence (Rules._analyze_with_rules String.words "Markets rally") <= 1
  /\ 0 <= Ensemble.e_confidence (Ensemble._create_ensemble_result results) <= 1
  /\ 0 <= Scorer._calculate_course_score 3600 course user_profile (Some "en"%string) <= 1
  /\ 0 <= Scorer._calculate_news_score 3600 article ["banking"%string] <= 1.
Proof.
  intros results course user_profile article.
  apply confidences_in_unit_interval.
  - intros model r H. apply lookup_singleton_Some in H as [_ <-]. simpl. lra.
  - intros q H. injection H as <-. lra.
  - intros n H. injection H as <-. lia.
Defined.


(** ** Sorting *)

Section Sorting.

Context {A : Type} (key : A -> Q).

Lemma insert_desc_perm (x : A) (l : list A) :
  PyStr.insert_desc key x l ≡ₚ x :: l.
Proof.
  induction l as [|y l IH]; simpl; [done|].
  destruct (Qltb (key x) (key y)); [|done].
  rewrite IH. apply perm_swap.
Qed.

Lemma sorted_desc_perm (l : list A) : PyStr.sorted_desc key l ≡ₚ l.
Proof.
  induction l as [|x l IH]; simpl; [done|].
  rewrite insert_desc_perm. by rewrite IH.
Qed.

Lemma insert_desc_sorted (x : A) (l : list A) :
  StronglySorted (fun a b => key b <= key a) l ->
  StronglySorted (fun a b => key b <= key a) (PyStr.insert_desc key x l).
Proof.
  induction 1 as [|y l Hs IH Hall]; simpl.
  - repeat constructor.
  - destruct (Qltb (key x) (key y)) eqn:E.
    + apply Qltb_true in E. constructor; [done|].
      rewrite insert_desc_perm. constructor; [lra | done].
    + apply Qltb_false in E. constructor; [by constructor|].
      constructor; [done|].
      eapply Forall_impl; [exact Hall|]. simpl. intros z Hz. lra.
Qed.

Lemma sorted_desc_sorted (l : list A) :
  StronglySorted (fun a b => key b <= key a) (PyStr.sorted_desc key l).
Proof.
  induction l as [|x l IH]; simpl; [constructor|]. by apply insert_desc_sorted.
Qed.

(** Stability: inserting [x] in front of a segment of equal keys. *)
Lemma insert_desc_filter (P : A -> Prop) `{!forall a, Decision (P a)}
    (x : A) (l : list A) :
  (forall a, P x -> P a -> key a == key x) ->
  filter P (PyStr.insert_desc key x l) = filter P (x :: l).
Proof.
  intros HP. induction l as [|y l IH]; simpl; [done|].
  destruct (Qltb (key x) (key y)) eqn:E; [|done].
  apply Qltb_true in E.
  rewrite filter_cons, IH, !filter_cons.
  destruct (decide (P y)) as [Hy|Hy]; [|done].
  destruct (decide (P x)) as [Hx|Hx]; [|done].
  specialize (HP y Hx Hy). lra.
Qed.

Lemma sorted_desc_filter (P : A -> Prop) `{!forall a, Decision (P a)} (l : list A) :
  (forall a b, P a -> P b -> key a == key b) ->
  filter P (PyStr.sorted_desc key l) = filter P l.
Proof.
  intros HP. induction l as [|x l IH]; simpl; [done|].
  rewrite insert_desc_filter by (intros a Hx Ha; by apply HP).
  by rewrite !filter_cons, IH.
Qed.

End Sorting.

(** ** The ranker *)

Section Ranking.

Import Ranker RankSpec.

(** An integer is below [limit * 0.6] exactly when it is below its ceiling. *)
Lemma below_cap (n limit : Z) :
  Qltb (inject_Z n) (inject_Z limit * 0.6) = (n <? cap limit)%Z.
Proof.
  unfold cap. set (x := inject_Z limit * 0.6).
  destruct (n <? Qceiling x)%Z eqn:E.
  - apply Z.ltb_lt in E. apply Qltb_true.
    apply Qle_lt_trans with (inject_Z (Qceiling x - 1)); [|apply Qceiling_lt].
    rewrite <- Zle_Qle. lia.
  - apply Z.ltb_ge in E. apply Qltb_false.
    apply Qle_trans with (inject_Z (Qceiling x)); [apply Qle_ceiling|].
    by rewrite <- Zle_Qle.
Qed.

Lemma count_type_snoc (t : string) (l : list Candidate) (c : Candidate) :
  count_type t (l ++ [c])
  = (count_type t l + (if decide (item_type c = t) then 1 else 0))%Z.
Proof.
  unfold count_type. rewrite filter_app, length_app, filter_cons, filter_nil.
  destruct (decide (item_type c = t)); simpl; lia.
Qed.

Lemma count_type_nonneg (t : string) (l : list Candidate) : (0 <= count_type t l)%Z.
Proof. unfold count_type. lia. Qed.


Lemma rank_step_walk (limit : Z) (chosen : list Candidate)
    (type_counts : gmap string Z) (c : Candidate) :
  counts_match type_counts chosen ->
  let st' := rank_step limit (chosen, type_counts) c in
  counts_match (snd st') (fst st')
  /\ fst st' = if ((Z.of_nat (length chosen) <? limit)
                   && (count_type (item_type c) chosen <? cap limit))%Z
               then chosen ++ [c] else chosen.
Proof.
  intros Hm. unfold rank_step. rewrite below_cap, (Hm (item_type c)).
  destruct ((Z.of_nat (length chosen) <? limit)
            && (count_type (item_type c) chosen <? cap limit))%Z; simpl.
  - split; [|done]. intros t. rewrite count_type_snoc.
    destruct (decide (item_type c = t)) as [->|Hne].
    + by rewrite lookup_insert_eq.
    + rewrite !lookup_insert_ne by done. rewrite Hm. lia.
  - split; [|done]. intros t.
    destruct (decide (item_type c = t)) as [->|Hne].
    + by rewrite lookup_insert_eq.
    + rewrite lookup_insert_ne by done. apply Hm.
Qed.

(** Once [limit] entries are chosen the walk adds nothing. *)
Lemma rank_fold_full (limit : Z) (l chosen : list Candidate)
    (type_counts : gmap string Z) :
  (limit <= Z.of_nat (length chosen))%Z ->
  fst (fold_left (rank_step limit) l (chosen, type_counts)) = chosen.
Proof.
  intros Hfull. revert type_counts.
  induction l as [|c l IH]; intros type_counts; [done|].
  change (fold_left (rank_step limit) (c :: l) (chosen, type_counts))
    with (fold_left (rank_step limit) l (rank_step limit (chosen, type_counts) c)).
  assert (E : (Z.of_nat (length chosen) <? limit)%Z = false) by by apply Z.ltb_ge.
  unfold rank_step at 2. rewrite E. simpl. apply IH.
Qed.

(** The loop of the ranker is the reference [walk]. *)
Lemma rank_fold_walk (limit : Z) (l chosen : list Candidate)
    (type_counts : gmap string Z) :
  counts_match type_counts chosen ->
  fst (fold_left (rank_step limit) l (chosen, type_counts)) = walk limit chosen l.
Proof.
  revert chosen type_counts.
  induction l as [|c l IH]; intros chosen type_counts Hm; [done|].
  change (fold_left (rank_step limit) (c :: l) (chosen, type_counts))
    with (fold_left (rank_step limit) l (rank_step limit (chosen, type_counts) c)).
  change (walk limit chosen (c :: l))
    with (if (Z.of_nat (length chosen) <? limit)%Z then
            if (count_type (item_type c) chosen <? cap limit)%Z
            then walk limit (chosen ++ [c]) l
            else walk limit chosen l
          else chosen).
  destruct (rank_step_walk limit chosen type_counts c Hm) as [Hm' Hfst].
  destruct (rank_step limit (chosen, type_counts) c) as [chosen' type_counts'] eqn:Es.
  simpl in *. subst chosen'.
  destruct (Z.of_nat (length chosen) <? limit)%Z eqn:E1; simpl in *.
  - destruct (count_type (item_type c) chosen <? cap limit)%Z; by apply IH.
  - apply rank_fold_full. by apply Z.ltb_ge.
Qed.

Lemma rank_is_walk (recommendations : list Candidate) (limit : Z) :
  _rank_recommendations recommendations limit
  = walk limit [] (PyStr.sorted_desc score recommendations).
Proof.
  unfold _rank_recommendations. apply rank_fold_walk.
  intros t. by rewrite lookup_empty.
Qed.

Lemma walk_length (limit : Z) (l chosen : list Candidate) :
  (Z.of_nat (length chosen) <= Z.max 0 limit)%Z ->
  (Z.of_nat (length (walk limit chosen l)) <= Z.max 0 limit)%Z.
Proof.
  revert chosen. induction l as [|c l IH]; intros chosen Hlen; simpl; [done|].
  destruct (Z.of_nat (length chosen) <? limit)%Z eqn:E1; [|done].
  apply Z.ltb_lt in E1.
  destruct (count_type (item_type c) chosen <? cap limit)%Z; apply IH; [|done].
  rewrite length_app. simpl. lia.
Qed.

Lemma walk_count (limit : Z) (l chosen : list Candidate) :
  (forall t, count_type t chosen <= Z.max 0 (cap limit))%Z ->
  forall t, (count_type t (walk limit chosen l) <= Z.max 0 (cap limit))%Z.
Proof.
  revert chosen. induction l as [|c l IH]; intros chosen Hc; simpl; [done|].
  destruct (Z.of_nat (length chosen) <? limit)%Z; [|done].
  destruct (count_type (item_type c) chosen <? cap limit)%Z eqn:E2; apply IH; [|done].
  apply Z.ltb_lt in E2. intros t. rewrite count_type_snoc.
  destruct (decide (item_type c = t)) as [<-|Hne]; [lia|].
  specialize (Hc t). lia.
Qed.

Lemma walk_sublist (limit : Z) (l chosen : list Candidate) :
  exists extra, walk limit chosen l = chosen ++ extra /\ sublist extra l.
Proof.
  revert chosen. induction l as [|c l IH]; intros chosen; simpl.
  - exists []. by rewrite app_nil_r.
  - destruct (Z.of_nat (length chosen) <? limit)%Z.
    + destruct (count_type (item_type c) chosen <? cap limit)%Z.
      * destruct (IH (chosen ++ [c])) as (extra & -> & Hsub).
        exists (c :: extra). rewrite <- app_assoc. split; [done|].
        by constructor.
      * destruct (IH chosen) as (extra & -> & Hsub).
        exists extra. split; [done|]. by constructor.
    + exists []. rewrite app_nil_r. split; [done|]. apply sublist_nil_l.
Qed.

Lemma rank_sublist (recommendations : list Candidate) (limit : Z) :
  sublist (_rank_recommendations recommendations limit)
          (PyStr.sorted_desc score recommendations).
Proof.
  rewrite rank_is_walk.
  by destruct (walk_sublist limit (PyStr.sorted_desc score recommendations) [])
    as (extra & -> & Hsub).
Qed.

Lemma rank_length (recommendations : list Candidate) (limit : Z) :
  (Z.of_nat (length (_rank_recommendations recommendations limit)) <= Z.max 0 limit)%Z.
Proof. rewrite rank_is_walk. apply walk_length. simpl. lia. Qed.

Lemma rank_length_input (recommendations : list Candidate) (limit : Z) :
  (length (_rank_recommendations recommendations limit) <= length recommendations)%nat.
Proof.
  rewrite (sublist_length _ _ (rank_sublist recommendations limit)).
  by rewrite (sorted_desc_perm score recommendations).
Qed.

End Ranking.

Lemma cap_nonneg (limit : Z) : (0 <= limit)%Z -> (0 <= RankSpec.cap limit)%Z.
Proof.
  intros H. unfold RankSpec.cap.
  change 0%Z with (Qceiling 0). apply Qceiling_resp_le.
  rewrite Zle_Qle in H. change (inject_Z 0) with 0 in H. lra.
Qed.

(** C2: for a positive limit, the ranker returns at most [limit] items and at
    most [ceil(limit * 0.6)] items of any one type; it visits the candidates
    in descending order of score, candidates of equal score in their original
    order, takes a candidate only while the running count of its type is
    below the cap, and stops once [limit] items are chosen or the input is
    exhausted. *)
Theorem rank_limit_and_diversity (recommendations : list Ranker.Candidate) (limit : Z) :
  (0 < limit)%Z ->
  let ranked := PyStr.sorted_desc Ranker.score recommendations in
  let out := Ranker._rank_recommendations recommendations limit in
  (Z.of_nat (length out) <= limit)%Z
  /\ (forall t, (RankSpec.count_type t out <= RankSpec.cap limit)%Z)
  /\ ranked ≡ₚ recommendations
  /\ RankSpec.descending ranked
  /\ (forall q, RankSpec.with_score q ranked = RankSpec.with_score q recommendations)
  /\ out = RankSpec.walk limit [] ranked.
Proof.
  intros Hlimit ranked out.
  split.
  { pose proof (rank_length recommendations limit). unfold out. lia. }
  split.
  { intros t. unfold out. rewrite rank_is_walk.
    pose proof (cap_nonneg limit ltac:(lia)) as Hcap.
    pose proof (walk_count limit (PyStr.sorted_desc Ranker.score recommendations) []) as H.
    specialize (H ltac:(intros t'; unfold RankSpec.count_type; simpl; lia) t). lia. }
  split; [apply sorted_desc_perm|].
  split; [apply sorted_desc_sorted|].
  split; [|apply rank_is_walk].
  intros q. unfold RankSpec.with_score. apply sorted_desc_filter.
  intros a b Ha Hb. apply Qeq_bool_iff in Ha, Hb. by rewrite Ha, Hb.
Qed.


Lemma rank_limit_and_diversity_witness :
  (Z.of_nat (length (Ranker._rank_recommendations RankSpec.scenario_candidates 10)) <= 10)%Z
  /\ map Ranker.item_id (Ranker._rank_recommendations RankSpec.scenario_candidates 10)
     = ["c1"; "c2"; "c3"; "c4"; "c5"; "c6"; "n1"; "n2"]%string.
Proof.
  split.
  - apply (rank_limit_and_diversity RankSpec.scenario_candidates 10). lia.
  - vm_compute. reflexivity.
Defined.




(** ** Chunking *)


(** The result of [_split_text] is never the empty list. *)
Lemma split_text_nonempty (sent_tokenize : string -> list string)
    (text : string) (max_length : Z) :
  Chunking._split_text sent_tokenize text max_length <> [].
Proof.
  unfold Chunking._split_text.
  destruct (fold_left _ _ _) as [chunks current_chunk].
  destruct (if String.eqb current_chunk "" then chunks
            else chunks ++ [PyStr.strip current_chunk]); discriminate.
Qed.

(** C6, the failing input: two sentences of 256 characters each, so that
    neither is longer than the maximum of 512 used by the adapters, are packed
    into one chunk of 513 characters. *)
Theorem split_text_chunk_exceeds_max_length (sent_tokenize : string -> list string) :
  sent_tokenize ChunkSpec.two_sentences
  = [ChunkSpec.long_sentence; ChunkSpec.long_sentence] ->
  Chunking._split_text sent_tokenize ChunkSpec.two_sentences 512
  = [ChunkSpec.two_sentences]
  /\ PyStr.len ChunkSpec.long_sentence = 256%Z
  /\ PyStr.len ChunkSpec.two_sentences = 513%Z.
Proof.
  intros Htok. unfold Chunking._split_text. rewrite Htok.
  vm_compute. repeat split.
Qed.

Lemma split_text_chunk_exceeds_max_length_witness :
  Chunking._split_text ChunkSpec.simple_sent_tokenize ChunkSpec.two_sentences 512
  = [ChunkSpec.two_sentences]
  /\ PyStr.len ChunkSpec.long_sentence = 256%Z
  /\ PyStr.len ChunkSpec.two_sentences = 513%Z.
Proof.
  apply split_text_chunk_exceeds_max_length. vm_compute. reflexivity.
Defined.

(** ** Preferred categories *)


(** The list of preferred categories has at most three entries. *)
Lemma preferred_categories_length (learning_data : list Profile.LearningRow) :
  (length (Profile._get_preferred_categories learning_data) <= 3)%nat.
Proof.
  unfold Profile._get_preferred_categories.
  destruct learning_data as [|row rows]; [simpl; lia|].
  rewrite length_map.
  change (PyStr.list_slice_to ?l 3) with (take 3 l).
  rewrite length_take. lia.
Qed.

(** C9, the failing input: with the completions of "stocks" split over two
    levels (3 and 2) next to "bonds" (4) and "funds" (1), the code returns
    bonds, stocks, stocks, where the top three categories by total count are
    stocks (5), bonds (4), funds (1). *)
Theorem preferred_categories_repeat_split_category :
  Profile._get_preferred_categories ProfileSpec.split_history
  = ["bonds"; "stocks"; "stocks"]%string
  /\ ProfileSpec.top_categories ProfileSpec.split_history
     = ["stocks"; "bonds"; "funds"]%string
  /\ ~ NoDup (Profile._get_preferred_categories ProfileSpec.split_history).
Proof.
  assert (E : Profile._get_preferred_categories ProfileSpec.split_history
              = ["bonds"; "stocks"; "stocks"]%string) by (vm_compute; reflexivity).
  split; [exact E|]. split; [vm_compute; reflexivity|].
  rewrite E. intros H. apply NoDup_cons in H as [_ H].
  apply NoDup_cons in H as [H _]. apply H. by left.
Qed.


(** ** Slices *)

Lemma list_slice_to_length {A : Type} (l : list A) (n : Z) :
  (0 <= n)%Z -> (Z.of_nat (length (PyStr.list_slice_to l n)) <= n)%Z.
Proof.
  intros Hn. unfold PyStr.list_slice_to.
  destruct (0 <=? n)%Z eqn:E; [|apply Z.leb_gt in E; lia].
  rewrite length_take. lia.
Qed.

(** ** The recommendation service *)

Section RecommendationService.

Variable db_user : string -> option Profile.UserRow.
Variable db_learning : string -> list Profile.LearningRow.
Variable db_trading : string -> list Profile.TradeRow.
Variable db_courses : string -> list Scorer.Course.
Variable db_news : list Scorer.Article.
Variable now : Z.

Lemma recommend_courses_length (user_profile : Profile.UserProfile)
    (preferred_language : option string) (n : Z) (courses : list Ranker.Candidate) :
  (0 <= n)%Z ->
  Recommendation._recommend_courses db_courses now user_profile preferred_language n
  = Returned courses ->
  (Z.of_nat (length courses) <= n)%Z.
Proof.
  intros Hn. unfold Recommendation._recommend_courses.
  destruct (Profile.user_data user_profile); [|discriminate].
  intros H. injection H as <-. by apply list_slice_to_length.
Qed.

Lemma recommend_news_length (user_profile : Profile.UserProfile) (n : Z) :
  (0 <= n)%Z ->
  (Z.of_nat (length (Recommendation._recommend_news db_news now user_profile n)) <= n)%Z.
Proof. intros Hn. by apply list_slice_to_length. Qed.

Lemma gather_candidates_length (user_profile : Profile.UserProfile)
    (preferred_language : option string) (limit : Z) (all : list Ranker.Candidate) :
  (0 <= limit)%Z ->
  Recommendation.gather_candidates db_courses db_news now user_profile
    preferred_language limit = Returned all ->
  (Z.of_nat (length all) <= 2 * (limit / 2))%Z.
Proof.
  intros Hl. unfold Recommendation.gather_candidates.
  destruct (Recommendation._recommend_courses _ _ _ _ _) as [courses|e] eqn:Ec;
    [|discriminate].
  intros H. injection H as <-.
  assert (Hh : (0 <= limit / 2)%Z) by (apply Z.div_pos; lia).
  pose proof (recommend_courses_length _ _ _ _ Hh Ec).
  pose proof (recommend_news_length user_profile _ Hh).
  rewrite length_app. lia.
Qed.

(** What [get_recommendations] returns is the ranking of the gathered
    candidates. *)
Lemma get_recommendations_returned (user_id : string)
    (preferred_language : option string) (limit : Z) (redis redis' : Recommendation.Redis)
    (recs : list Ranker.Candidate) :
  Recommendation.get_recommendations db_user db_learning db_trading db_courses db_news
    now user_id preferred_language limit redis = (Returned recs, redis') ->
  exists user_profile all,
    Recommendation.gather_candidates db_courses db_news now user_profile
      preferred_language limit = Returned all
    /\ recs = Ranker._rank_recommendations all limit.
Proof.
  unfold Recommendation.get_recommendations.
  destruct (Recommendation._get_user_profile _ _ _ _ _) as [[user_profile|e] redis1];
    [|discriminate].
  destruct (Recommendation.gather_candidates _ _ _ _ _ _) as [all|e] eqn:Eg;
    [|discriminate].
  intros H. injection H as <- _. by exists user_profile, all.
Qed.

Lemma odd_half (limit : Z) : Z.odd limit = true -> (2 * (limit / 2) = limit - 1)%Z.
Proof.
  intros Ho. pose proof (Z.div_mod limit 2 ltac:(lia)) as Hd.
  rewrite Zmod_odd, Ho in Hd. lia.
Qed.

(** C10 (amended): for a non-negative limit, [get_recommendations] asks
    for at most [limit // 2] course candidates and at most [limit // 2]
    news candidates, so that whatever it returns has at most
    [2 * (limit // 2)] entries, fewer than [limit] when [limit] is odd; and
    it does return when the cache works and the user exists. *)
Theorem recommendations_use_half_limit (user_id : string)
    (preferred_language : option string) (limit : Z) (redis : Recommendation.Redis) :
  (0 <= limit)%Z ->
  (forall user_profile courses,
      Recommendation._recommend_courses db_courses now user_profile
        preferred_language (limit / 2) = Returned courses ->
      (Z.of_nat (length courses) <= limit / 2)%Z)
  /\ (forall user_profile,
        (Z.of_nat (length (Recommendation._recommend_news db_news now user_profile
                             (limit / 2))) <= limit / 2)%Z)
  /\ (forall recs redis',
        Recommendation.get_recommendations db_user db_learning db_trading db_courses
          db_news now user_id preferred_language limit redis = (Returned recs, redis') ->
        (Z.of_nat (length recs) <= 2 * (limit / 2))%Z
        /\ (Z.odd limit = true -> (Z.of_nat (length recs) < limit)%Z))
  /\ (Recommendation.get_raises redis = false ->
      Recommendation.setex_raises redis = false ->
      Recommendation.profile_entries redis !! user_id = None ->
      is_Some (db_user user_id) ->
      exists recs redis',
        Recommendation.get_recommendations db_user db_learning db_trading db_courses
          db_news now user_id preferred_language limit redis = (Returned recs, redis')).
Proof.
  intros Hl.
  assert (Hh : (0 <= limit / 2)%Z) by (apply Z.div_pos; lia).
  split; [intros user_profile courses; by apply recommend_courses_length|].
  split; [intros user_profile; by apply recommend_news_length|].
  split.
  - intros recs redis' Hret.
    apply get_recommendations_returned in Hret as (user_profile & all & Hg & ->).
    pose proof (gather_candidates_length _ _ _ _ Hl Hg) as Hall.
    pose proof (rank_length_input all limit) as Hrank.
    split; [lia|]. intros Ho. apply odd_half in Ho. lia.
  - intros Hget Hset Hmiss [user Huser].
    unfold Recommendation.get_recommendations, Recommendation._get_user_profile,
      Recommendation.get_profile, Recommendation.setex_profile.
    rewrite Hget, Hmiss, Hset, Huser.
    unfold Recommendation.gather_candidates, Recommendation._recommend_courses.
    simpl. eauto.
Qed.

End RecommendationService.

Lemma recommendations_use_half_limit_witness :
  exists recs redis',
    Fixture.get_recommendations "42" (Some "en"%string) 5 Fixture.healthy
    = (Returned recs, redis')
    /\ (Z.of_nat (length recs) <= 2 * (5 / 2))%Z
    /\ (Z.of_nat (length recs) < 5)%Z.
Proof.
  destruct (recommendations_use_half_limit Fixture.db_user Fixture.db_learning
              Fixture.db_trading Fixture.db_courses Fixture.db_news Fixture.now
              "42" (Some "en"%string) 5 Fixture.healthy ltac:(lia))
    as (_ & _ & Hlen & Hret).
  destruct Hret as (recs & redis' & Hret); [reflexivity | reflexivity | reflexivity | |].
  { by eexists. }
  exists recs, redis'. split; [exact Hret|].
  destruct (Hlen recs redis' Hret) as [H1 H2]. split; [exact H1 | by apply H2].
Defined.

(** C10 as stated fails for a negative limit: for the limit -1 the service
    takes [courses[:-1]], three of the four course candidates, which is more
    than [limit // 2 = -1], and the empty result is longer than
    [2 * (limit // 2) = -2] and not shorter than the limit. *)
Lemma recommendations_negative_limit :
  Recommendation._recommend_courses Fixture.db_courses Fixture.now
    (Profile.mkUserProfile (Fixture.db_user "42") [] [] [] "beginner" "moderate" [])
    None (-1 / 2)
  <> Returned []
  /\ fst (Fixture.get_recommendations "42" None (-1) Fixture.healthy) = Returned []
  /\ ~ (Z.of_nat (length (@nil Ranker.Candidate)) <= 2 * (-1 / 2))%Z
  /\ Z.odd (-1) = true
  /\ ~ (Z.of_nat (length (@nil Ranker.Candidate)) < -1)%Z.
Proof.
  split; [vm_compute; discriminate|].
  split; [vm_compute; reflexivity|].
  split; [vm_compute; intros H; by apply H|].
  split; [reflexivity|]. lia.
Qed.

(** ** Cache failures *)

Section CacheFailures.

Variable clean_financial_text : string -> string.
Variable hash : string -> Z.
Variable word_tokenize : string -> list string.
Variable sent_tokenize : string -> list string.
Variable polarity_compound : string -> Q.
Variable finbert_pipeline : string -> outcome (Label * Q).
Variable general_pipeline : string -> outcome (Label * Q).
Variable Entities : Type.
Variable _extract_entities : string -> Entities.

Variable db_user : string -> option Profile.UserRow.
Variable db_learning : string -> list Profile.LearningRow.
Variable db_trading : string -> list Profile.TradeRow.
Variable db_courses : string -> list Scorer.Course.
Variable db_news : list Scorer.Article.
Variable now : Z.

(** C8 (amended): only the write of the ranked set to the cache is
    tolerated: when it raises, [get_recommendations] still returns the
    ranking it computed. A cache read that raises, and a cache write of the
    verdict or of the profile that raises, end [analyze_sentiment] and
    [get_recommendations] with that exception. *)
Theorem cache_errors_reach_the_caller
    (text : string) (include_entities : bool) (model_type : string)
    (verdicts : Sentiment.Redis Entities)
    (user_id : string) (preferred_language : option string) (limit : Z)
    (redis : Recommendation.Redis) :
  let verdict :=
    Sentiment.analyze_sentiment clean_financial_text hash word_tokenize sent_tokenize
      polarity_compound finbert_pipeline general_pipeline Entities _extract_entities
      text include_entities model_type verdicts in
  let recommended :=
    Recommendation.get_recommendations db_user db_learning db_trading db_courses db_news
      now user_id preferred_language limit redis in
  (Sentiment.get_raises verdicts = true ->
   verdict = (Raised "ConnectionError", verdicts))
  /\ (Sentiment.get_raises verdicts = false ->
      Sentiment.entries verdicts !! (hash text, model_type) = None ->
      Sentiment.setex_raises verdicts = true ->
      verdict = (Raised "ConnectionError", verdicts))
  /\ (Recommendation.get_raises redis = true ->
      recommended = (Raised "ConnectionError", redis))
  /\ (Recommendation.get_raises redis = false ->
      Recommendation.profile_entries redis !! user_id = None ->
      Recommendation.setex_raises redis = true ->
      recommended = (Raised "ConnectionError", redis))
  /\ (forall user_profile all,
        Recommendation.get_raises redis = false ->
        Recommendation.profile_entries redis !! user_id = Some user_profile ->
        Recommendation.gather_candidates db_courses db_news now user_profile
          preferred_language limit = Returned all ->
        Recommendation.setex_raises redis = true ->
        recommended = (Returned (Ranker._rank_recommendations all limit), redis)).
Proof.
  intros verdict recommended. unfold verdict, recommended.
  unfold Sentiment.analyze_sentiment, Sentiment.redis_get, Sentiment.redis_setex.
  unfold Recommendation.get_recommendations, Recommendation._get_user_profile,
    Recommendation.get_profile, Recommendation.setex_profile,
    Recommendation._cache_recommendations, Recommendation.setex_recommendations.
  repeat split.
  - by intros ->.
  - by intros -> -> ->.
  - by intros ->.
  - by intros -> -> ->.
  - by intros user_profile all -> -> -> ->.
Qed.

End CacheFailures.

Lemma cache_errors_reach_the_caller_witness :
  Fixture.analyze_sentiment "Profit up" false "ensemble" Fixture.verdict_cache_down
  = (Raised "ConnectionError", Fixture.verdict_cache_down)
  /\ Fixture.get_recommendations "42" None 10 Fixture.unreadable
     = (Raised "ConnectionError", Fixture.unreadable).
Proof.
  destruct (cache_errors_reach_the_caller (fun text => text) (fun text => PyStr.len text)
              String.words ChunkSpec.simple_sent_tokenize (fun _ => 0.5)
              Fixture.pipeline Fixture.pipeline unit (fun _ => tt)
              Fixture.db_user Fixture.db_learning Fixture.db_trading Fixture.db_courses
              Fixture.db_news Fixture.now
              "Profit up" false "ensemble" Fixture.verdict_cache_down
              "42" None 10 Fixture.unreadable) as (Hverdict & _ & Hrecs & _).
  split; [apply Hverdict | apply Hrecs]; reflexivity.
Defined.

(** C8 as stated fails: with a cache whose operations raise,
    [analyze_sentiment] ends with the exception of the cache instead of a
    verdict, and so does [get_recommendations] when the profile lookup
    raises. *)
Lemma cache_down_fails_the_request :
  fst (Fixture.analyze_sentiment "Profit up" false "ensemble" Fixture.verdict_cache_down)
  = Raised "ConnectionError"
  /\ fst (Fixture.get_recommendations "42" None 10 Fixture.unreadable)
     = Raised "ConnectionError"
  /\ (exists verdict,
        fst (Fixture.analyze_sentiment "Profit up" false "ensemble"
               (Sentiment.mkRedis false false ∅)) = Returned verdict)
  /\ (exists recs,
        fst (Fixture.get_recommendations "42" None 10 Fixture.healthy) = Returned recs).
Proof.
  split; [reflexivity|]. split; [reflexivity|].
  split; by eexists.
Qed.

(** * Further properties *)

(** ** Strings *)

Section Strings.

Lemma append_cons (c : ascii) (s t : string) : String c s +:+ t = String c (s +:+ t).
Proof. reflexivity. Qed.

Lemma append_nil_r (s : string) : s +:+ "" = s.
Proof. induction s as [|c s IH]; [done|]. by rewrite append_cons, IH. Qed.

Lemma append_assoc (s t u : string) : (s +:+ t) +:+ u = s +:+ t +:+ u.
Proof. induction s as [|c s IH]; [done|]. by rewrite !append_cons, IH. Qed.

Lemma length_append (s t : string) :
  String.length (s +:+ t) = (String.length s + String.length t)%nat.
Proof. induction s as [|c s IH]; [done|]. rewrite append_cons. simpl. by rewrite IH. Qed.

Lemma rev_app_spec (s t : string) : String.rev_app s t = String.rev s +:+ t.
Proof.
  unfold String.rev. revert t. induction s as [|c s IH]; intros t; simpl; [done|].
  rewrite (IH (String c t)), (IH (String c "")). by rewrite append_assoc.
Qed.

Lemma rev_cons (c : ascii) (s : string) : String.rev (String c s) = String.rev s +:+ String c "".
Proof. unfold String.rev at 1. simpl. apply rev_app_spec. Qed.

Lemma rev_append (s t : string) : String.rev (s +:+ t) = String.rev t +:+ String.rev s.
Proof.
  induction s as [|c s IH].
  - by rewrite append_nil_r.
  - rewrite append_cons, !rev_cons, IH. by rewrite append_assoc.
Qed.

Lemma rev_involutive (s : string) : String.rev (String.rev s) = s.
Proof.
  induction s as [|c s IH]; [done|].
  rewrite rev_cons, rev_append, IH. reflexivity.
Qed.

Lemma length_rev (s : string) : String.length (String.rev s) = String.length s.
Proof.
  induction s as [|c s IH]; [done|].
  rewrite rev_cons, length_append, IH. simpl. lia.
Qed.

Lemma length_lstrip (s : string) :
  (String.length (PyStr.lstrip s) <= String.length s)%nat.
Proof.
  induction s as [|c s IH]; simpl; [lia|].
  destruct (PyStr.isspace c); simpl; lia.
Qed.

Lemma length_strip (s : string) : (PyStr.len (PyStr.strip s) <= PyStr.len s)%Z.
Proof.
  unfold PyStr.len, PyStr.strip, PyStr.rstrip.
  rewrite length_rev.
  pose proof (length_lstrip (String.rev (PyStr.lstrip s))) as H1.
  rewrite length_rev in H1. pose proof (length_lstrip s). lia.
Qed.

(** A string [lstrip] leaves alone starts with a character that is no white
    space. *)
Lemma lstrip_fixed_append (s t : string) :
  s <> ""%string -> PyStr.lstrip s = s -> PyStr.lstrip (s +:+ t) = s +:+ t.
Proof.
  destruct s as [|c s]; [done|]. intros _ H. rewrite append_cons. simpl in *.
  destruct (PyStr.isspace c); [|done].
  pose proof (length_lstrip s) as Hl. rewrite H in Hl. simpl in Hl. lia.
Qed.

Lemma lstrip_same_length (s : string) :
  String.length (PyStr.lstrip s) = String.length s -> PyStr.lstrip s = s.
Proof.
  destruct s as [|c s]; [done|]. simpl.
  destruct (PyStr.isspace c); [|done].
  pose proof (length_lstrip s). lia.
Qed.

Lemma strip_fixed (s : string) :
  PyStr.strip s = s -> PyStr.lstrip s = s /\ PyStr.rstrip s = s.
Proof.
  intros H.
  assert (Hl : PyStr.lstrip s = s).
  { apply lstrip_same_length.
    assert (Hlen : String.length (PyStr.strip s) = String.length s) by by rewrite H.
    unfold PyStr.strip, PyStr.rstrip in Hlen. rewrite length_rev in Hlen.
    pose proof (length_lstrip (String.rev (PyStr.lstrip s))) as H1.
    rewrite length_rev in H1. pose proof (length_lstrip s). lia. }
  split; [done|]. unfold PyStr.strip in H. by rewrite Hl in H.
Qed.

Lemma rev_nonempty (s : string) : s <> ""%string -> String.rev s <> ""%string.
Proof.
  intros Hs Hr. apply Hs. rewrite <- (rev_involutive s), Hr. reflexivity.
Qed.

Lemma append_nonempty (s t : string) : s <> ""%string -> s +:+ t <> ""%string.
Proof. destruct s; [done|]. by rewrite append_cons. Qed.

(** Joining two clean strings with anything in between gives a clean
    string. *)
Lemma clean_append (s mid t : string) :
  MoreSpec.clean s -> MoreSpec.clean t -> MoreSpec.clean (s +:+ mid +:+ t).
Proof.
  intros [Hs Hss] [Ht Hst].
  apply strip_fixed in Hss as [Hsl _]. apply strip_fixed in Hst as [_ Htr].
  split; [by apply append_nonempty|].
  unfold PyStr.strip. rewrite (lstrip_fixed_append s _ Hs Hsl).
  unfold PyStr.rstrip in *.
  rewrite <- append_assoc, rev_append.
  assert (Hrt : PyStr.lstrip (String.rev t) = String.rev t).
  { rewrite <- Htr at 2. by rewrite rev_involutive. }
  rewrite (lstrip_fixed_append _ _ (rev_nonempty t Ht) Hrt).
  by rewrite <- rev_append, rev_involutive.
Qed.

Lemma length_substring_0 (n : nat) (s : string) :
  (String.length (String.substring 0 n s) <= n)%nat.
Proof.
  revert s. induction n as [|n IH]; intros s; destruct s as [|c s]; simpl; try lia.
  specialize (IH s). lia.
Qed.

End Strings.

(** ** Chunking: bounds and preservation of the text *)

Section ChunkingFacts.

Variable sent_tokenize : string -> list string.

Lemma current_ok_strip (max_length : Z) (sentences : list string) (current : string) :
  MoreSpec.current_ok max_length sentences current ->
  MoreSpec.chunk_ok max_length sentences (PyStr.strip current).
Proof.
  intros [H|[H1 H2]].
  - left. pose proof (length_strip current). lia.
  - right. by exists current.
Qed.

Lemma split_step_ok (max_length : Z) (sentences : list string)
    (chunks : list string) (current sentence : string) :
  (0 <= max_length)%Z ->
  sentence ∈ sentences ->
  Forall (MoreSpec.chunk_ok max_length sentences) chunks ->
  MoreSpec.current_ok max_length sentences current ->
  let st' := Chunking.split_step max_length (chunks, current) sentence in
  Forall (MoreSpec.chunk_ok max_length sentences) (fst st')
  /\ MoreSpec.current_ok max_length sentences (snd st').
Proof.
  intros Hmax Hin Hchunks Hcur. unfold Chunking.split_step.
  destruct (PyStr.len (current +:+ sentence) <=? max_length)%Z eqn:E.
  - apply Z.leb_le in E. simpl. split; [done|].
    unfold PyStr.len in E. rewrite length_append in E.
    destruct (String.eqb current ""); left; unfold PyStr.len.
    + lia.
    + rewrite !length_append. simpl. lia.
  - apply Z.leb_gt in E. simpl. split.
    + destruct (String.eqb current ""); [done|].
      apply Forall_app. split; [done|].
      apply Forall_singleton. by apply current_ok_strip.
    + destruct (Z_le_gt_dec (PyStr.len sentence) max_length) as [Hle|Hgt].
      * left. lia.
      * right. split; [done|lia].
Qed.

Lemma split_fold_ok (max_length : Z) (sentences todo : list string)
    (chunks : list string) (current : string) :
  (0 <= max_length)%Z ->
  todo ⊆ sentences ->
  Forall (MoreSpec.chunk_ok max_length sentences) chunks ->
  MoreSpec.current_ok max_length sentences current ->
  let st' := fold_left (Chunking.split_step max_length) todo (chunks, current) in
  Forall (MoreSpec.chunk_ok max_length sentences) (fst st')
  /\ MoreSpec.current_ok max_length sentences (snd st').
Proof.
  intros Hmax. revert chunks current.
  induction todo as [|s todo IH]; intros chunks current Hsub Hchunks Hcur; [done|].
  change (fold_left (Chunking.split_step max_length) (s :: todo) (chunks, current))
    with (fold_left (Chunking.split_step max_length) todo
            (Chunking.split_step max_length (chunks, current) s)).
  destruct (split_step_ok max_length sentences chunks current s) as [H1 H2];
    [done | apply Hsub; by left | done | done |].
  destruct (Chunking.split_step max_length (chunks, current) s) as [chunks' current'].
  apply IH; [|done|done].
  intros x Hx. apply Hsub. by right.
Qed.

(** X1: for a non-negative [max_length], every chunk returned by
    [_split_text] has at most [max_length + 1] characters, unless it is one
    stripped sentence that is itself longer than [max_length]. *)
Theorem split_text_chunks_bounded (text : string) (max_length : Z) (chunk : string) :
  (0 <= max_length)%Z ->
  chunk ∈ Chunking._split_text sent_tokenize text max_length ->
  (PyStr.len chunk <= max_length + 1)%Z
  \/ exists sentence,
       sentence ∈ sent_tokenize text
       /\ chunk = PyStr.strip sentence
       /\ (max_length < PyStr.len sentence)%Z.
Proof.
  intros Hmax. unfold Chunking._split_text.
  destruct (split_fold_ok max_length (sent_tokenize text) (sent_tokenize text) [] ""
              Hmax ltac:(done) ltac:(constructor)) as [Hchunks Hcur].
  { left. unfold PyStr.len. simpl. lia. }
  destruct (fold_left _ _ _) as [chunks current]. simpl in Hchunks, Hcur.
  assert (Hall : Forall (MoreSpec.chunk_ok max_length (sent_tokenize text))
                   (if String.eqb current "" then chunks
                    else chunks ++ [PyStr.strip current])).
  { destruct (String.eqb current ""); [done|].
    apply Forall_app. split; [done|].
    apply Forall_singleton. by apply current_ok_strip. }
  destruct (if String.eqb current "" then chunks else chunks ++ [PyStr.strip current])
    as [|c cs].
  - intros Hin. apply list_elem_of_singleton in Hin as ->. left.
    unfold PyStr.slice_to, PyStr.len.
    destruct (0 <=? max_length)%Z eqn:E; [|apply Z.leb_gt in E; lia].
    pose proof (length_substring_0 (Z.to_nat max_length) text). lia.
  - intros Hin. rewrite Forall_forall in Hall. exact (Hall chunk Hin).
Qed.

End ChunkingFacts.

Lemma split_text_chunks_bounded_witness :
  (PyStr.len "It rose. It fell." <= 16 + 1)%Z
  \/ exists sentence,
       sentence ∈ ChunkSpec.simple_sent_tokenize "It rose. It fell."
       /\ "It rose. It fell."%string = PyStr.strip sentence
       /\ (16 < PyStr.len sentence)%Z.
Proof.
  apply (split_text_chunks_bounded ChunkSpec.simple_sent_tokenize "It rose. It fell." 16);
    [lia|].
  vm_compute. by left.
Defined.

Section ChunkingKeepsText.

Variable sent_tokenize : string -> list string.

Lemma join_space_cons (s : string) (l : list string) :
  l <> [] -> MoreSpec.join_space (s :: l) = s +:+ " " +:+ MoreSpec.join_space l.
Proof. by destruct l. Qed.

(** Merging two neighbours with a space does not change the joined text. *)
Lemma join_space_merge (l r : list string) (a b : string) :
  MoreSpec.join_space (l ++ (a +:+ " " +:+ b) :: r)
  = MoreSpec.join_space (l ++ a :: b :: r).
Proof.
  induction l as [|x l IH].
  - simpl app. rewrite (join_space_cons a (b :: r)) by done.
    destruct r as [|y r]; [done|].
    rewrite !(join_space_cons _ (y :: r)) by done.
    by rewrite !append_assoc.
  - simpl app. rewrite !join_space_cons by (by destruct l). by rewrite IH.
Qed.

Lemma split_fold_keeps_text (max_length : Z) (todo chunks : list string) (current : string) :
  MoreSpec.clean current ->
  Forall MoreSpec.clean todo ->
  let st' := fold_left (Chunking.split_step max_length) todo (chunks, current) in
  MoreSpec.clean (snd st')
  /\ MoreSpec.join_space (fst st' ++ [snd st'])
     = MoreSpec.join_space (chunks ++ current :: todo).
Proof.
  revert chunks current.
  induction todo as [|s todo IH]; intros chunks current Hcur Htodo; [done|].
  change (fold_left (Chunking.split_step max_length) (s :: todo) (chunks, current))
    with (fold_left (Chunking.split_step max_length) todo
            (Chunking.split_step max_length (chunks, current) s)).
  apply Forall_cons in Htodo as [Hs Htodo].
  assert (Hne : String.eqb current "" = false) by (apply String.eqb_neq, Hcur).
  assert (Hstep : Chunking.split_step max_length (chunks, current) s
                  = if (PyStr.len (current +:+ s) <=? max_length)%Z
                    then (chunks, current +:+ " " +:+ s)
                    else (chunks ++ [PyStr.strip current], s)).
  { unfold Chunking.split_step. by rewrite Hne. }
  rewrite Hstep. clear Hstep.
  destruct (PyStr.len (current +:+ s) <=? max_length)%Z.
  - destruct (IH chunks (current +:+ " " +:+ s)) as [H1 H2];
      [by apply clean_append | done |].
    split; [done|]. rewrite H2. apply join_space_merge.
  - destruct Hcur as [Hc Hstrip]. rewrite Hstrip.
    destruct (IH (chunks ++ [current]) s) as [H1 H2]; [done | done |].
    split; [done|]. rewrite H2. by rewrite <- app_assoc.
Qed.

(** X2: when the tokenizer yields at least one sentence and every sentence
    is non-empty without leading or trailing white space, [_split_text] loses
    nothing: the chunks joined by single spaces are the sentences joined by
    single spaces, whatever [max_length] is. *)
Theorem split_text_keeps_text (text : string) (max_length : Z) :
  sent_tokenize text <> [] ->
  Forall MoreSpec.clean (sent_tokenize text) ->
  MoreSpec.join_space (Chunking._split_text sent_tokenize text max_length)
  = MoreSpec.join_space (sent_tokenize text).
Proof.
  intros Hne Hclean. unfold Chunking._split_text.
  destruct (sent_tokenize text) as [|s todo]; [done|].
  apply Forall_cons in Hclean as [Hs Htodo].
  change (fold_left (Chunking.split_step max_length) (s :: todo) ([], ""%string))
    with (fold_left (Chunking.split_step max_length) todo
            (Chunking.split_step max_length ([], ""%string) s)).
  assert (Hfirst : Chunking.split_step max_length ([], ""%string) s = ([], s)).
  { unfold Chunking.split_step. simpl.
    by destruct (PyStr.len ("" +:+ s) <=? max_length)%Z. }
  rewrite Hfirst.
  destruct (split_fold_keeps_text max_length todo [] s Hs Htodo) as [[Hc Hstrip] Hjoin].
  destruct (fold_left _ _ _) as [chunks current]. simpl in *.
  assert (E : String.eqb current "" = false) by by apply String.eqb_neq.
  rewrite E, Hstrip.
  destruct (chunks ++ [current]) as [|c cs] eqn:Ec; [by destruct chunks|].
  exact Hjoin.
Qed.

End ChunkingKeepsText.

Lemma split_text_keeps_text_witness :
  MoreSpec.join_space
    (Chunking._split_text ChunkSpec.simple_sent_tokenize "It rose. It fell! Why? Done" 10)
  = MoreSpec.join_space (ChunkSpec.simple_sent_tokenize "It rose. It fell! Why? Done").
Proof.
  apply split_text_keeps_text; [by vm_compute|].
  change (ChunkSpec.simple_sent_tokenize "It rose. It fell! Why? Done")
    with ["It rose."; "It fell!"; "Why?"; "Done"]%string.
  repeat constructor; by vm_compute.
Defined.

(** ** The adapters of the sentiment service *)

Lemma vader_confidence_bounds (polarity_compound : string -> Q) (text : string) :
  -1 <= polarity_compound text <= 1 ->
  0 <= confidence (Sentiment._analyze_with_vader polarity_compound text) <= 1.
Proof.
  intros [H1 H2]. unfold Sentiment._analyze_with_vader. simpl.
  split; [apply Qabs_nonneg|]. apply Qabs_Qle_condition. split; lra.
Qed.

(** X3: the general-lexicon adapter reports the absolute compound score as
    confidence; its label is positive exactly from 0.05 up, negative exactly
    from -0.05 down, so a neutral verdict always has a confidence below 0.05
    and any other verdict one of at least 0.05; for a compound score in
    [-1,1] the confidence is in [0,1]. *)
Theorem vader_label_and_confidence (polarity_compound : string -> Q) (text : string) :
  let compound := polarity_compound text in
  let r := Sentiment._analyze_with_vader polarity_compound text in
  confidence r = Qabs compound
  /\ (sentiment r = positive <-> 0.05 <= compound)
  /\ (sentiment r = negative <-> compound <= -0.05)
  /\ (sentiment r = neutral <-> confidence r < 0.05)
  /\ (-1 <= compound <= 1 -> 0 <= confidence r <= 1).
Proof.
  intros compound r.
  split; [reflexivity|].
  assert (Hcases :
    (0.05 <= compound /\ sentiment r = positive)
    \/ (compound <= -0.05 /\ sentiment r = negative)
    \/ (-0.05 < compound /\ compound < 0.05 /\ sentiment r = neutral)).
  { unfold r, Sentiment._analyze_with_vader. fold compound. simpl.
    destruct (Qle_bool 0.05 compound) eqn:E1.
    - left. by apply Qle_bool_iff in E1.
    - assert (H1 : compound < 0.05).
      { apply Qnot_le_lt. intros H. apply Qle_bool_iff in H. congruence. }
      destruct (Qle_bool compound (-0.05)) eqn:E2.
      + right. left. by apply Qle_bool_iff in E2.
      + right. right. repeat split; [|done].
        apply Qnot_le_lt. intros H. apply Qle_bool_iff in H. congruence. }
  assert (Habs : confidence r = Qabs compound) by reflexivity.
  split; [|split; [|split]].
  - split; [|by destruct Hcases as [[? ?]|[[? ?]|(? & ? & ?)]]; intros; try done; lra].
    intros Hp. destruct Hcases as [[? ?]|[[? H]|(? & ? & H)]]; [done| |];
      rewrite Hp in H; discriminate.
  - split; [|by destruct Hcases as [[? ?]|[[? ?]|(? & ? & ?)]]; intros; try done; lra].
    intros Hp. destruct Hcases as [[? H]|[[? ?]|(? & ? & H)]]; [|done|];
      rewrite Hp in H; discriminate.
  - rewrite Habs. split.
    + intros Hn. destruct Hcases as [[? H]|[[? H]|(? & ? & ?)]];
        [rewrite Hn in H; discriminate | rewrite Hn in H; discriminate |].
      apply Qabs_Qlt_condition. split; lra.
    + intros Hlt. apply Qabs_Qlt_condition in Hlt as [? ?].
      destruct Hcases as [[? ?]|[[? ?]|(? & ? & ?)]]; [lra|lra|done].
  - apply vader_confidence_bounds.
Qed.

Lemma vader_label_and_confidence_witness :
  0 <= confidence (Sentiment._analyze_with_vader (fun _ => -0.6) "Shares crash") <= 1.
Proof.
  destruct (vader_label_and_confidence (fun _ => -0.6) "Shares crash")
    as (_ & _ & _ & _ & H).
  apply H. split; lra.
Defined.

Lemma accumulate_fold (chunk_results : list (Label * Q)) (init : Scores) (l : Label) :
  get_score (fold_left (fun counts result => add_score counts (fst result) (snd result))
                       chunk_results init) l
  == get_score init l + MoreSpec.accumulated chunk_results l.
Proof.
  revert init. induction chunk_results as [|r rs IH]; intros init.
  - unfold MoreSpec.accumulated. simpl. ring.
  - change (fold_left ?f (r :: rs) init) with (fold_left f rs (f init r)).
    rewrite IH, get_add_score. unfold MoreSpec.accumulated. simpl. ring.
Qed.

Lemma accumulated_nonneg (chunk_results : list (Label * Q)) (l : Label) :
  Forall (fun result => 0 <= snd result <= 1) chunk_results ->
  0 <= MoreSpec.accumulated chunk_results l.
Proof.
  unfold MoreSpec.accumulated.
  induction 1 as [|r rs [H0 H1] _ IH]; simpl; [lra|].
  destruct (decide (fst r = l)); lra.
Qed.

Lemma accumulated_le_length (chunk_results : list (Label * Q)) (l : Label) :
  Forall (fun result => 0 <= snd result <= 1) chunk_results ->
  MoreSpec.accumulated chunk_results l <= inject_Z (Z.of_nat (length chunk_results)).
Proof.
  unfold MoreSpec.accumulated.
  induction 1 as [|r rs [H0 H1] _ IH]; [apply Qle_refl|].
  change (length (r :: rs)) with (S (length rs)).
  rewrite Nat2Z.inj_succ, <- Z.add_1_r, inject_Z_plus.
  change (inject_Z 1) with 1.
  set (n := inject_Z (Z.of_nat (length rs))) in *. clearbody n.
  change (Qsum (map ?f (r :: rs))) with (f r + Qsum (map f rs)). cbv beta.
  set (rest := Qsum _) in *. clearbody rest.
  destruct (decide (fst r = l)); lra.
Qed.

Lemma aggregate_spec (chunk_results : list (Label * Q)) :
  chunk_results <> [] ->
  let out := Sentiment._aggregate_chunk_results chunk_results in
  snd out == MoreSpec.accumulated chunk_results (fst out)
             / inject_Z (Z.of_nat (length chunk_results))
  /\ (forall l, MoreSpec.accumulated chunk_results l
                <= MoreSpec.accumulated chunk_results (fst out))
  /\ (forall l, MoreSpec.accumulated chunk_results l
                == MoreSpec.accumulated chunk_results (fst out) ->
                (key_index (fst out) <= key_index l)%nat).
Proof.
  intros Hne out. subst out.
  assert (Hout : Sentiment._aggregate_chunk_results chunk_results
                 = let counts :=
                     fold_left (fun counts result =>
                                  add_score counts (fst result) (snd result))
                               chunk_results zero_scores in
                   let dominant :=
                     py_max_from (get_score counts) positive [negative; neutral] in
                   (dominant,
                    get_score counts dominant
                    / inject_Z (Z.of_nat (length chunk_results)))).
  { by destruct chunk_results. }
  rewrite Hout. clear Hout. cbv zeta.
  set (counts := fold_left _ chunk_results zero_scores).
  assert (Hc : forall l, get_score counts l == MoreSpec.accumulated chunk_results l).
  { intros l. unfold counts. rewrite accumulate_fold. destruct l; simpl; ring. }
  destruct (argmax_scores_spec counts) as [Hmax Hfirst].
  unfold Ensemble.argmax_scores in Hmax, Hfirst.
  set (dominant := py_max_from (get_score counts) positive [negative; neutral]) in *.
  cbn [fst snd]. repeat split.
  - by rewrite Hc.
  - intros l. rewrite <- !Hc. apply Hmax.
  - intros l Heq. apply Hfirst. by rewrite !Hc.
Qed.

Lemma aggregate_confidence_bounds (chunk_results : list (Label * Q)) :
  Forall (fun result => 0 <= snd result <= 1) chunk_results ->
  0 <= snd (Sentiment._aggregate_chunk_results chunk_results) <= 1.
Proof.
  intros Hall. destruct chunk_results as [|r rs] eqn:E; [simpl; lra|].
  rewrite <- E in *. assert (Hne : chunk_results <> []) by by rewrite E.
  destruct (aggregate_spec chunk_results Hne) as (Hs & _ & _).
  rewrite Hs.
  assert (Hn : 0 < inject_Z (Z.of_nat (length chunk_results))).
  { rewrite E. change 0 with (inject_Z 0). rewrite <- Zlt_Qlt. simpl. lia. }
  split.
  - apply Qdiv_nonneg; [|done]. by apply accumulated_nonneg.
  - apply Qle_shift_div_r; [done|]. rewrite Qmult_1_l. by apply accumulated_le_length.
Qed.



Lemma for_each_returned {A B : Type} (f : A -> outcome B) (l : list A) (ys : list B) :
  for_each f l = Returned ys -> Forall2 (fun x y => f x = Returned y) l ys.
Proof.
  revert ys. induction l as [|x l IH]; intros ys; simpl.
  - intros H. injection H as <-. constructor.
  - destruct (f x) as [y|e] eqn:Ex; [|discriminate].
    destruct (for_each f l) as [ys'|e]; [|discriminate].
    intros H. injection H as <-. constructor; [done|]. by apply IH.
Qed.

Lemma for_each_raised {A B : Type} (f : A -> outcome B) (l : list A) (x : A) (e : string) :
  x ∈ l -> f x = Raised e -> exists e', for_each f l = Raised e'.
Proof.
  intros Hin Hx. induction l as [|a l IH]; [by apply not_elem_of_nil in Hin|].
  simpl. apply elem_of_cons in Hin as [->|Hin].
  - rewrite Hx. eauto.
  - destruct (f a); [|eauto]. destruct (IH Hin) as [e' ->]. eauto.
Qed.

Lemma pipeline_confidence_bounds (sent_tokenize : string -> list string)
    (pipeline : string -> outcome (Label * Q)) (text : string) :
  (forall chunk l c, pipeline chunk = Returned (l, c) -> 0 <= c <= 1) ->
  0 <= confidence (Sentiment.analyze_with_pipeline sent_tokenize pipeline text) <= 1.
Proof.
  intros Hp. unfold Sentiment.analyze_with_pipeline.
  destruct (for_each pipeline _) as [chunk_results|e] eqn:E; [|simpl; lra].
  apply for_each_returned in E.
  assert (Hall : Forall (fun result => 0 <= snd result <= 1) chunk_results).
  { induction E as [|chunk [l c] chunks results Hc _ IH]; constructor; [|done].
    simpl. by apply (Hp chunk l c). }
  destruct chunk_results as [|r [|r' rs]]; cbn [confidence snd].
  - simpl. lra.
  - by apply Forall_cons in Hall as [H _].
  - by apply aggregate_confidence_bounds.
Qed.

(** X5: the two classifier adapters tolerate a failing model: when the
    pipeline raises on any chunk of the text the adapter returns neutral with
    confidence 0.5 instead of raising; when the text is a single chunk the
    adapter passes the pipeline's label and score on unchanged; and with
    pipeline scores in [0,1] the adapter's confidence is in [0,1]. *)
Theorem classifier_adapter_tolerates_failure (sent_tokenize : string -> list string)
    (pipeline : string -> outcome (Label * Q)) (text : string) :
  (forall chunk l c, pipeline chunk = Returned (l, c) -> 0 <= c <= 1) ->
  let r := Sentiment.analyze_with_pipeline sent_tokenize pipeline text in
  0 <= confidence r <= 1
  /\ (forall chunk e,
        chunk ∈ Chunking._split_text sent_tokenize text 512 ->
        pipeline chunk = Raised e ->
        r = mkModelResult neutral 0.5)
  /\ (forall chunk l c,
        Chunking._split_text sent_tokenize text 512 = [chunk] ->
        pipeline chunk = Returned (l, c) ->
        r = mkModelResult l c).
Proof.
  intros Hp r. split; [by apply pipeline_confidence_bounds|]. split.
  - intros chunk e Hin Hraise. unfold r, Sentiment.analyze_with_pipeline.
    by destruct (for_each_raised pipeline _ chunk e Hin Hraise) as [e' ->].
  - intros chunk l c Hone Hret. unfold r, Sentiment.analyze_with_pipeline.
    rewrite Hone. simpl. by rewrite Hret.
Qed.

Lemma classifier_adapter_tolerates_failure_witness :
  Sentiment._analyze_with_finbert ChunkSpec.simple_sent_tokenize
    (fun _ => Raised "model unavailable") "Profit up"
  = mkModelResult neutral 0.5.
Proof.
  destruct (classifier_adapter_tolerates_failure ChunkSpec.simple_sent_tokenize
              (fun _ => Raised "model unavailable") "Profit up") as (_ & H & _).
  { intros chunk l c H. discriminate. }
  apply (H "Profit up"%string "model unavailable"%string); [|done].
  vm_compute. by left.
Defined.

(** ** The sentiment service *)

Section SentimentService.

Variable clean_financial_text : string -> string.
Variable hash : string -> Z.
Variable word_tokenize : string -> list string.
Variable sent_tokenize : string -> list string.
Variable polarity_compound : string -> Q.
Variable finbert_pipeline : string -> outcome (Label * Q).
Variable general_pipeline : string -> outcome (Label * Q).
Variable Entities : Type.
Variable _extract_entities : string -> Entities.

Lemma compute_results_models (text : string) (include_entities : bool)
    (model_type model : string) (r : ModelResult) :
  Sentiment.models (Sentiment.compute_results clean_financial_text word_tokenize
                      sent_tokenize polarity_compound finbert_pipeline general_pipeline
                      Entities _extract_entities text include_entities model_type)
    !! model = Some r ->
  (model = "vader"%string
   /\ r = Sentiment._analyze_with_vader polarity_compound (clean_financial_text text))
  \/ (model = "finbert"%string
      /\ r = Sentiment._analyze_with_finbert sent_tokenize finbert_pipeline
               (clean_financial_text text))
  \/ (model = "general"%string
      /\ r = Sentiment._analyze_with_general_model sent_tokenize general_pipeline
               (clean_financial_text text))
  \/ (model = "rule_based"%string
      /\ r = Rules.to_model_result
               (Rules._analyze_with_rules word_tokenize (clean_financial_text text))).
Proof.
  unfold Sentiment.compute_results. cbn [Sentiment.models].
  intros H.
  apply lookup_insert_Some in H as [[<- <-]|[_ H]]; [by right; right; right|].
  destruct (bool_decide (model_type ∈ ["general"; "ensemble"]%string));
    [apply lookup_insert_Some in H as [[<- <-]|[_ H]]; [by right; right; left|]|];
    (destruct (bool_decide (model_type ∈ ["finbert"; "ensemble"]%string));
      [apply lookup_insert_Some in H as [[<- <-]|[_ H]]; [by right; left|]|]);
    (destruct (bool_decide (model_type ∈ ["vader"; "ensemble"]%string));
      [apply lookup_insert_Some in H as [[<- <-]|[_ H]]; [by left|]|]);
    by rewrite lookup_empty in H.
Qed.

(** X6: whatever the model selector, the rule-based adapter runs; the
    ensemble entry exists exactly for the selector "ensemble", and then all
    four adapters have run, so the combiner never takes its no-model path; a
    selector that names no model gives the rule-based entry alone, without an
    error. *)
Theorem analyze_sentiment_models_run (text : string) (include_entities : bool)
    (model_type : string) :
  let results :=
    Sentiment.compute_results clean_financial_text word_tokenize sent_tokenize
      polarity_compound finbert_pipeline general_pipeline Entities _extract_entities
      text include_entities model_type in
  is_Some (Sentiment.models results !! "rule_based"%string)
  /\ (is_Some (Sentiment.ensemble results) <-> model_type = "ensemble"%string)
  /\ (model_type = "ensemble"%string ->
      dom (Sentiment.models results)
      = ({[ "vader"; "finbert"; "general"; "rule_based" ]} : gset string)%string
      /\ exists e, Sentiment.ensemble results = Some e
                   /\ Ensemble.result_keys e
                      = ["sentiment"; "confidence"; "scores"; "models_used";
                         "total_weight"]%string)
  /\ (model_type ∉ ["vader"; "finbert"; "general"; "ensemble"]%string ->
      dom (Sentiment.models results) = ({[ "rule_based"%string ]} : gset string)
      /\ Sentiment.ensemble results = None).
Proof.
  intros results. unfold results, Sentiment.compute_results.
  cbn [Sentiment.models Sentiment.ensemble].
  split; [rewrite lookup_insert_eq; eauto|].
  split.
  { destruct (String.eqb model_type "ensemble") eqn:E.
    - apply String.eqb_eq in E. split; [done|eauto].
    - apply String.eqb_neq in E. split; [by intros [? ?]|done]. }
  split.
  - intros ->. simpl. split.
    + rewrite !dom_insert_L, dom_empty_L. set_solver.
    + eexists. split; [reflexivity|].
      apply result_keys_ran. exists "rule_based"%string.
      split; [apply list_elem_of_In; simpl; tauto|]. rewrite lookup_insert_eq. eauto.
  - intros Hnot.
    assert (Hv : model_type <> "vader"%string).
    { intros ->. apply Hnot. apply list_elem_of_In. simpl. tauto. }
    assert (Hf : model_type <> "finbert"%string).
    { intros ->. apply Hnot. apply list_elem_of_In. simpl. tauto. }
    assert (Hg : model_type <> "general"%string).
    { intros ->. apply Hnot. apply list_elem_of_In. simpl. tauto. }
    assert (He : model_type <> "ensemble"%string).
    { intros ->. apply Hnot. apply list_elem_of_In. simpl. tauto. }
    assert (H1 : bool_decide (model_type ∈ ["vader"; "ensemble"]%string) = false).
    { apply bool_decide_eq_false. rewrite list_elem_of_In. simpl. intuition congruence. }
    assert (H2 : bool_decide (model_type ∈ ["finbert"; "ensemble"]%string) = false).
    { apply bool_decide_eq_false. rewrite list_elem_of_In. simpl. intuition congruence. }
    assert (H3 : bool_decide (model_type ∈ ["general"; "ensemble"]%string) = false).
    { apply bool_decide_eq_false. rewrite list_elem_of_In. simpl. intuition congruence. }
    assert (H4 : String.eqb model_type "ensemble" = false) by by apply String.eqb_neq.
    rewrite H1, H2, H3, H4. split; [|done].
    rewrite dom_insert_L, dom_empty_L. apply (right_id_L ∅ (∪)).
Qed.

(** X7: a verdict stored by [analyze_sentiment] is what the next call gets
    back: after a call that missed a working cache, a call for a text of the
    same hash and the same model selector returns the verdict computed by the
    first call and leaves the cache as it is, also when the second text or its
    [include_entities] flag differ from the first. *)
Theorem analyze_sentiment_cached_verdict (text text' : string)
    (include_entities include_entities' : bool) (model_type : string)
    (redis : Sentiment.Redis Entities) :
  Sentiment.get_raises redis = false ->
  Sentiment.setex_raises redis = false ->
  Sentiment.entries redis !! (hash text, model_type) = None ->
  hash text' = hash text ->
  let computed :=
    Sentiment.compute_results clean_financial_text word_tokenize sent_tokenize
      polarity_compound finbert_pipeline general_pipeline Entities _extract_entities
      text include_entities model_type in
  exists redis',
    Sentiment.analyze_sentiment clean_financial_text hash word_tokenize sent_tokenize
      polarity_compound finbert_pipeline general_pipeline Entities _extract_entities
      text include_entities model_type redis = (Returned computed, redis')
    /\ Sentiment.analyze_sentiment clean_financial_text hash word_tokenize sent_tokenize
         polarity_compound finbert_pipeline general_pipeline Entities _extract_entities
         text' include_entities' model_type redis' = (Returned computed, redis').
Proof.
  intros Hget Hset Hmiss Hhash computed.
  unfold Sentiment.analyze_sentiment, Sentiment.redis_get, Sentiment.redis_setex.
  rewrite Hget, Hmiss, Hset. eexists. split; [reflexivity|].
  cbn [Sentiment.get_raises Sentiment.entries]. rewrite Hhash.
  by rewrite lookup_insert_eq.
Qed.

(** X8: with a compound score in [-1,1] and classifier scores in [0,1],
    every confidence in the result of an analysis, per model and of the
    ensemble, is in [0,1]. *)
Theorem analyze_sentiment_confidences (text : string) (include_entities : bool)
    (model_type : string) :
  (forall t, -1 <= polarity_compound t <= 1) ->
  (forall chunk l c, finbert_pipeline chunk = Returned (l, c) -> 0 <= c <= 1) ->
  (forall chunk l c, general_pipeline chunk = Returned (l, c) -> 0 <= c <= 1) ->
  let results :=
    Sentiment.compute_results clean_financial_text word_tokenize sent_tokenize
      polarity_compound finbert_pipeline general_pipeline Entities _extract_entities
      text include_entities model_type in
  (forall model r, Sentiment.models results !! model = Some r -> 0 <= confidence r <= 1)
  /\ (forall e, Sentiment.ensemble results = Some e -> 0 <= Ensemble.e_confidence e <= 1).
Proof.
  intros Hv Hf Hg results.
  assert (Hmodels : forall model r,
            Sentiment.models results !! model = Some r -> 0 <= confidence r <= 1).
  { intros model r H.
    apply compute_results_models in H as [[_ ->]|[[_ ->]|[[_ ->]|[_ ->]]]].
    - by apply vader_confidence_bounds.
    - by apply pipeline_confidence_bounds.
    - by apply pipeline_confidence_bounds.
    - apply rules_confidence_bounds. }
  split; [exact Hmodels|].
  intros e He. unfold results, Sentiment.compute_results in He.
  cbn [Sentiment.ensemble] in He.
  destruct (String.eqb model_type "ensemble"); [|discriminate].
  injection He as <-. apply ensemble_confidence_bounds. exact Hmodels.
Qed.

End SentimentService.

Lemma analyze_sentiment_cached_verdict_witness :
  exists verdict redis',
    Fixture.analyze_sentiment "Profit up" false "ensemble" (Sentiment.mkRedis false false ∅)
    = (Returned verdict, redis')
    /\ Fixture.analyze_sentiment "Stocks up" true "ensemble" redis'
       = (Returned verdict, redis').
Proof.
  destruct (analyze_sentiment_cached_verdict (fun text => text) (fun text => PyStr.len text)
              String.words ChunkSpec.simple_sent_tokenize (fun _ => 0.5)
              Fixture.pipeline Fixture.pipeline unit (fun _ => tt)
              "Profit up" "Stocks up" false true "ensemble"
              (Sentiment.mkRedis false false ∅))
    as (redis' & H1 & H2); [reflexivity | reflexivity | reflexivity | reflexivity |].
  eexists. exists redis'. split; [exact H1 | exact H2].
Defined.

Lemma analyze_sentiment_confidences_witness :
  exists e,
    Sentiment.ensemble
      (Sentiment.compute_results (fun text => text) String.words
         ChunkSpec.simple_sent_tokenize (fun _ => 0.5) Fixture.pipeline Fixture.pipeline
         unit (fun _ => tt) "Profit up" false "ensemble") = Some e
    /\ 0 <= Ensemble.e_confidence e <= 1.
Proof.
  eexists. split; [reflexivity|].
  apply (analyze_sentiment_confidences (fun text => text) String.words
           ChunkSpec.simple_sent_tokenize (fun _ => 0.5) Fixture.pipeline Fixture.pipeline
           unit (fun _ => tt) "Profit up" false "ensemble").
  - intros t. split; lra.
  - intros chunk l c H. injection H as <- <-. lra.
  - intros chunk l c H. injection H as <- <-. lra.
  - reflexivity.
Defined.

(** ** The market sentiment summary *)

Lemma count_sentiments_fold (sentiments : list string) (init : Market.Counts) (l : Label) :
  Market.get_count
    (fold_left (fun counts s =>
                  match Market.label_of_string s with
                  | Some l => Market.incr_count counts l
                  | None => counts
                  end) sentiments init) l
  = (Market.get_count init l + MoreSpec.count_label l sentiments)%Z.
Proof.
  unfold MoreSpec.count_label. revert init.
  induction sentiments as [|s ss IH]; intros init; [simpl; lia|].
  change (fold_left ?f (s :: ss) init) with (fold_left f ss (f init s)).
  rewrite IH, filter_cons.
  destruct (Market.label_of_string s) as [l'|] eqn:E.
  - destruct (decide (Some l' = Some l)) as [Heq|Hne].
    + injection Heq as ->. simpl. destruct l; simpl; lia.
    + assert (l' <> l) by congruence. destruct l', l; simpl; try done; lia.
  - destruct (decide (None = Some l)); [done|]. lia.
Qed.

Lemma count_sentiments_spec (sentiments : list string) (l : Label) :
  Market.get_count (Market.count_sentiments sentiments) l
  = MoreSpec.count_label l sentiments.
Proof.
  unfold Market.count_sentiments. rewrite count_sentiments_fold. by destruct l.
Qed.

Lemma count_label_nonneg (l : Label) (sentiments : list string) :
  (0 <= MoreSpec.count_label l sentiments)%Z.
Proof. unfold MoreSpec.count_label. lia. Qed.

(** Each sentiment is counted under at most one label. *)
Lemma count_label_total (sentiments : list string) :
  (MoreSpec.count_label positive sentiments + MoreSpec.count_label negative sentiments
   + MoreSpec.count_label neutral sentiments
   <= Z.of_nat (length sentiments))%Z.
Proof.
  unfold MoreSpec.count_label.
  induction sentiments as [|s ss IH]; [simpl; lia|].
  rewrite !filter_cons. change (length (s :: ss)) with (S (length ss)).
  destruct (Market.label_of_string s) as [[]|];
    repeat (destruct (decide _) as [?|?]; try discriminate; try done); simpl; lia.
Qed.

(** The summary when some article states a sentiment. *)
Lemma market_summary_stated (news_data : list Scorer.Article) (timeframe : string) :
  Market.stated_sentiments news_data <> [] ->
  Market.get_market_sentiment_summary news_data timeframe
  = let sentiments := Market.stated_sentiments news_data in
    let counts := Market.count_sentiments sentiments in
    let total := Z.of_nat (length sentiments) in
    let percentage l := inject_Z (Market.get_count counts l) / inject_Z total * 100 in
    let overall :=
      py_max_from (fun l => inject_Z (Market.get_count counts l))
                  positive [negative; neutral] in
    Market.mkSummary overall
      (inject_Z (Market.get_count counts overall) / inject_Z total)
      (Some (mkScores (percentage positive) (percentage negative) (percentage neutral)))
      total (Some timeframe).
Proof.
  intros Hne. unfold Market.get_market_sentiment_summary.
  destruct news_data as [|a news]; [done|].
  destruct (Market.stated_sentiments (a :: news)) as [|s ss]; [done|].
  reflexivity.
Qed.

Lemma market_summary_nothing (news_data : list Scorer.Article) (timeframe : string) :
  Market.stated_sentiments news_data = [] ->
  Market.get_market_sentiment_summary news_data timeframe = Market.nothing_analyzed.
Proof.
  intros He. unfold Market.get_market_sentiment_summary.
  destruct news_data as [|a news]; [done|]. by rewrite He.
Qed.

(** X9: the market summary counts the articles that state a sentiment; when
    there is none (no article at all, or only missing and empty sentiments)
    it is the short form neutral, 0.5 with 0 articles analysed; in every case
    its confidence is in [0,1]. *)
Theorem market_summary_bounds (news_data : list Scorer.Article) (timeframe : string) :
  let summary := Market.get_market_sentiment_summary news_data timeframe in
  Market.articles_analyzed summary
  = Z.of_nat (length (Market.stated_sentiments news_data))
  /\ (Market.stated_sentiments news_data = [] -> summary = Market.nothing_analyzed)
  /\ (Market.stated_sentiments news_data <> [] ->
      is_Some (Market.sentiment_breakdown summary))
  /\ 0 <= Market.summary_confidence summary <= 1.
Proof.
  intros summary. unfold summary.
  destruct (Market.stated_sentiments news_data) as [|s ss] eqn:E.
  - rewrite (market_summary_nothing news_data timeframe E).
    repeat split; try done; simpl; lra.
  - assert (Hne : Market.stated_sentiments news_data <> []) by by rewrite E.
    rewrite (market_summary_stated news_data timeframe Hne). cbv zeta. rewrite E.
    cbn [Market.articles_analyzed Market.sentiment_breakdown Market.summary_confidence].
    split; [done|]. split; [done|]. split; [eauto|].
    set (overall := py_max_from _ positive [negative; neutral]).
    rewrite count_sentiments_spec.
    apply Qdiv_Z_bounds; [|simpl; lia].
    pose proof (count_label_total (s :: ss)).
    pose proof (count_label_nonneg positive (s :: ss)).
    pose proof (count_label_nonneg negative (s :: ss)).
    pose proof (count_label_nonneg neutral (s :: ss)).
    destruct overall; lia.
Qed.




(** X11: a stated sentiment that is none of the three labels counts toward
    the number of articles analysed but toward no label: when no stated
    sentiment is one of the three labels, the summary still reports positive,
    with confidence 0. *)
Theorem market_summary_unrecognised (news_data : list Scorer.Article) (timeframe : string) :
  Market.stated_sentiments news_data <> [] ->
  Forall (fun s => Market.label_of_string s = None) (Market.stated_sentiments news_data) ->
  let summary := Market.get_market_sentiment_summary news_data timeframe in
  Market.overall_sentiment summary = positive
  /\ Market.summary_confidence summary == 0
  /\ Market.articles_analyzed summary
     = Z.of_nat (length (Market.stated_sentiments news_data)).
Proof.
  intros Hne Hall summary.
  assert (Hzero : forall l,
            Market.get_count (Market.count_sentiments
                                (Market.stated_sentiments news_data)) l = 0%Z).
  { intros l. rewrite count_sentiments_spec. unfold MoreSpec.count_label.
    clear Hne. induction Hall as [|s ss Hs _ IH]; [done|].
    rewrite filter_cons. destruct (decide _) as [Heq|_]; [congruence|exact IH]. }
  unfold summary. rewrite (market_summary_stated news_data timeframe Hne). cbv zeta.
  cbn [Market.overall_sentiment Market.summary_confidence Market.articles_analyzed].
  assert (Hbest : py_max_from
                    (fun l => inject_Z (Market.get_count
                                (Market.count_sentiments
                                   (Market.stated_sentiments news_data)) l))
                    positive [negative; neutral] = positive).
  { unfold py_max_from. cbn [fold_left]. by rewrite !Hzero. }
  rewrite Hbest, Hzero. repeat split.
Qed.

Lemma market_summary_unrecognised_witness :
  let news_data :=
    [Scorer.mkArticle "n3" "Mixed day" "Flat close" "market" (Some "mixed"%string) None] in
  Market.overall_sentiment (Market.get_market_sentiment_summary news_data "1d") = positive
  /\ Market.summary_confidence (Market.get_market_sentiment_summary news_data "1d") == 0
  /\ Market.articles_analyzed (Market.get_market_sentiment_summary news_data "1d") = 1%Z.
Proof.
  intros news_data.
  apply (market_summary_unrecognised news_data "1d"); [by vm_compute|].
  repeat constructor.
Defined.

(** ** Entity extraction *)

Lemma add_entity_fold (ents : list Entities.Ent) (m : gmap string (list Entities.Entity))
    (l : string) :
  fold_left Entities.add_entity ents m !! l
  = (fun found => found ++ map MoreSpec.to_entity (MoreSpec.with_label l ents)) <$> m !! l.
Proof.
  unfold MoreSpec.with_label. revert m.
  induction ents as [|e ents IH]; intros m.
  - simpl. destruct (m !! l); simpl; [by rewrite app_nil_r | done].
  - change (fold_left Entities.add_entity (e :: ents) m)
      with (fold_left Entities.add_entity ents (Entities.add_entity m e)).
    rewrite IH, filter_cons. unfold Entities.add_entity.
    destruct (decide (Entities.label_ e = l)) as [<-|Hne].
    + destruct (m !! Entities.label_ e) as [found|] eqn:E.
      * rewrite lookup_insert_eq. simpl. by rewrite <- app_assoc.
      * by rewrite E.
    + destruct (m !! Entities.label_ e) as [found|] eqn:E;
        [by rewrite lookup_insert_ne|done].
Qed.

Lemma empty_entities_lookup (l : string) :
  Entities.empty_entities !! l = if decide (l ∈ Entities.LABELS) then Some [] else None.
Proof.
  unfold Entities.empty_entities, Entities.LABELS. cbn [map list_to_map foldr].
  destruct (decide _) as [Hin|Hnot].
  - repeat (apply elem_of_cons in Hin as [->|Hin]; [reflexivity|]).
    by apply not_elem_of_nil in Hin.
  - repeat (rewrite lookup_insert_ne;
            [|intros <-; apply Hnot; apply list_elem_of_In; simpl; tauto]).
    apply lookup_empty.
Qed.

(** X12: the dictionary returned by [_extract_entities] has exactly the seven
    keys PERSON, ORG, MONEY, PERCENT, DATE, GPE, PRODUCT, also when nothing is
    found; under each of them it lists the entities of the document with that
    label, in document order and each with confidence 1; entities with any
    other label are dropped. *)
Theorem extract_entities_by_label (nlp : string -> list Entities.Ent) (text : string) :
  let out := Entities._extract_entities nlp text in
  (forall l, out !! l
             = if decide (l ∈ Entities.LABELS)
               then Some (map MoreSpec.to_entity (MoreSpec.with_label l (nlp text)))
               else None)
  /\ dom out = (list_to_set Entities.LABELS : gset string)
  /\ (forall l found entity,
        out !! l = Some found -> entity ∈ found ->
        Entities.entity_confidence entity = 1).
Proof.
  intros out.
  assert (Hlookup : forall l, out !! l
             = if decide (l ∈ Entities.LABELS)
               then Some (map MoreSpec.to_entity (MoreSpec.with_label l (nlp text)))
               else None).
  { intros l. unfold out, Entities._extract_entities.
    rewrite add_entity_fold, empty_entities_lookup.
    by destruct (decide (l ∈ Entities.LABELS)). }
  split; [exact Hlookup|]. split.
  - apply set_eq. intros l. rewrite elem_of_dom, Hlookup, elem_of_list_to_set.
    destruct (decide (l ∈ Entities.LABELS)); split; intros H; try done; eauto.
  - intros l found entity Hl Hin. rewrite Hlookup in Hl.
    destruct (decide (l ∈ Entities.LABELS)); [|discriminate].
    injection Hl as <-. apply list_elem_of_fmap in Hin as (ent & -> & _). reflexivity.
Qed.

(** ** The profile aggregator *)

Section ProfileFacts.

Import Profile.

Lemma interests_learning_fold (rows : list LearningRow) (init : gset string) (x : string) :
  x ∈ fold_left (fun acc item => acc ∪ {[ category item ]}) rows init
  <-> x ∈ init \/ exists row, row ∈ rows /\ category row = x.
Proof.
  revert init. induction rows as [|r rows IH]; intros init; simpl.
  - split; [by left|]. intros [H|(row & Hin & _)]; [done|].
    by apply not_elem_of_nil in Hin.
  - rewrite IH, elem_of_union, elem_of_singleton. split.
    + intros [[H | ->]|(row & Hin & Hc)]; [by left| |].
      * right. exists r. split; [by left|done].
      * right. exists row. split; [by right|done].
    + intros [H|(row & Hin & Hc)]; [by left; left|].
      apply elem_of_cons in Hin as [-> |Hin]; [by left; right|].
      right. by exists row.
Qed.

Lemma prefix_it_not_bank (s : string) :
  String.prefix "IT" s = true -> String.prefix "BANK" s = false.
Proof.
  destruct s as [|c s]; [done|].
  destruct c as [[] [] [] [] [] [] [] []]; cbn; intros H;
    first [reflexivity | discriminate H].
Qed.

Lemma interests_trading_fold (trades : list TradeRow) (init : gset string) (x : string) :
  x ∈ fold_left (fun acc trade =>
                   if String.prefix "BANK" (symbol trade) then acc ∪ {[ "banking"%string ]}
                   else if String.prefix "IT" (symbol trade)
                        then acc ∪ {[ "technology"%string ]}
                        else acc) trades init
  <-> x ∈ init
      \/ (x = "banking"%string
          /\ exists trade, trade ∈ trades /\ String.prefix "BANK" (symbol trade) = true)
      \/ (x = "technology"%string
          /\ exists trade, trade ∈ trades /\ String.prefix "IT" (symbol trade) = true).
Proof.
  revert init. induction trades as [|t trades IH]; intros init.
  - simpl. split; [by left|].
    intros [H|[(_ & trade & Hin & _)|(_ & trade & Hin & _)]]; [done| |];
      by apply not_elem_of_nil in Hin.
  - change (fold_left ?f (t :: trades) init) with (fold_left f trades (f init t)).
    rewrite IH. clear IH. cbv beta.
    destruct (String.prefix "BANK" (symbol t)) eqn:Eb;
      [|destruct (String.prefix "IT" (symbol t)) eqn:Ei];
      rewrite ?elem_of_union, ?elem_of_singleton; split.
    + intros [[H| ->]|[(-> & trade & Hin & Hp)|(-> & trade & Hin & Hp)]].
      * by left.
      * right. left. split; [done|]. exists t. split; [by left|done].
      * right. left. split; [done|]. exists trade. split; [by right|done].
      * right. right. split; [done|]. exists trade. split; [by right|done].
    + intros [H|[(-> & trade & Hin & Hp)|(-> & trade & Hin & Hp)]].
      * by left; left.
      * by left; right.
      * apply elem_of_cons in Hin as [-> |Hin].
        { apply prefix_it_not_bank in Hp. congruence. }
        right. right. split; [done|]. by exists trade.
    + intros [[H| ->]|[(-> & trade & Hin & Hp)|(-> & trade & Hin & Hp)]].
      * by left.
      * right. right. split; [done|]. exists t. split; [by left|done].
      * right. left. split; [done|]. exists trade. split; [by right|done].
      * right. right. split; [done|]. exists trade. split; [by right|done].
    + intros [H|[(-> & trade & Hin & Hp)|(-> & trade & Hin & Hp)]].
      * by left; left.
      * apply elem_of_cons in Hin as [-> |Hin]; [congruence|].
        right. left. split; [done|]. by exists trade.
      * by left; right.
    + intros [H|[(-> & trade & Hin & Hp)|(-> & trade & Hin & Hp)]].
      * by left.
      * right. left. split; [done|]. exists trade. split; [by right|done].
      * right. right. split; [done|]. exists trade. split; [by right|done].
    + intros [H|[(-> & trade & Hin & Hp)|(-> & trade & Hin & Hp)]].
      * by left.
      * apply elem_of_cons in Hin as [-> |Hin]; [congruence|].
        right. left. split; [done|]. by exists trade.
      * apply elem_of_cons in Hin as [-> |Hin]; [congruence|].
        right. right. split; [done|]. by exists trade.
Qed.

(** X13: the interests of a profile are, without repetition, the categories
    of the learning history, "banking" when some traded symbol starts with
    BANK, and "technology" when some traded symbol starts with IT; nothing
    else. *)
Theorem extract_interests_members (learning_data : list LearningRow)
    (trading_data : list TradeRow) :
  NoDup (_extract_interests learning_data trading_data)
  /\ forall x,
       x ∈ _extract_interests learning_data trading_data
       <-> (exists row, row ∈ learning_data /\ category row = x)
           \/ (x = "banking"%string
               /\ exists trade, trade ∈ trading_data
                                /\ String.prefix "BANK" (symbol trade) = true)
           \/ (x = "technology"%string
               /\ exists trade, trade ∈ trading_data
                                /\ String.prefix "IT" (symbol trade) = true).
Proof.
  unfold _extract_interests. split; [apply NoDup_elements|].
  intros x. rewrite elem_of_elements, interests_trading_fold, interests_learning_fold.
  split.
  - intros [[H|H]|H]; [by apply not_elem_of_empty in H | by left | by right].
  - intros [H|H]; [left; by right | by right].
Qed.

End ProfileFacts.

Section ProfileLevels.

Import Profile.

(** X14: the skill level is one of beginner, intermediate, advanced; it is
    beginner with fewer than 5 completed courses in total, intermediate only
    from 5 and advanced only from 10 completed courses; and it is beginner,
    whatever the number of courses, when no row of the history carries a
    non-zero average score. *)
Theorem skill_level_cases (learning_data : list LearningRow) :
  let level := _determine_skill_level learning_data in
  level ∈ ["beginner"; "intermediate"; "advanced"]%string
  /\ ((MoreSpec.total_completed learning_data < 5)%Z -> level = "beginner"%string)
  /\ (level = "intermediate"%string -> (5 <= MoreSpec.total_completed learning_data)%Z)
  /\ (level = "advanced"%string -> (10 <= MoreSpec.total_completed learning_data)%Z)
  /\ (Forall (fun row => match avg_score row with
                         | Some x => x == 0
                         | None => True
                         end) learning_data ->
      level = "beginner"%string).
Proof.
  intros level.
  assert (Hfacts :
    (level = "beginner"%string
     \/ (level = "intermediate"%string /\ (5 <= MoreSpec.total_completed learning_data)%Z)
     \/ (level = "advanced"%string /\ (10 <= MoreSpec.total_completed learning_data)%Z))
    /\ ((MoreSpec.total_completed learning_data < 5)%Z -> level = "beginner"%string)
    /\ (Forall (fun row => match avg_score row with
                           | Some x => x == 0
                           | None => True
                           end) learning_data ->
        level = "beginner"%string)).
  { unfold level, _determine_skill_level, MoreSpec.total_completed.
    destruct learning_data as [|row rows]; [by repeat split; try left|].
    set (history := row :: rows).
    set (total := fold_right Z.add 0%Z (map completed_courses history)).
    set (scores := omap _ history).
    assert (Hnone : Forall (fun row => match avg_score row with
                                       | Some x => x == 0
                                       | None => True
                                       end) history -> mean scores = None).
    { intros Hall. assert (Hs : scores = []); [|by rewrite Hs].
      unfold scores. clear -Hall.
      induction Hall as [|r rs Hr _ IH]; [done|].
      simpl. destruct (avg_score r) as [x|]; [|exact IH].
      apply Qeq_bool_iff in Hr. rewrite Hr. exact IH. }
    destruct (mean scores) as [a|].
    - destruct (10 <=? total)%Z eqn:E10; destruct (5 <=? total)%Z eqn:E5;
        try apply Z.leb_le in E10; try apply Z.leb_gt in E10;
        try apply Z.leb_le in E5; try apply Z.leb_gt in E5;
        destruct (Qle_bool 80 a); destruct (Qle_bool 70 a); simpl;
        (split; [tauto|]); (split; [intros; first [done | lia]|]);
        intros Hall; by apply Hnone in Hall.
    - rewrite !andb_false_r. by repeat split; try left. }
  destruct Hfacts as (Hcases & Hfew & Hnoscore).
  split.
  { destruct Hcases as [-> |[[-> _]|[-> _]]]; apply list_elem_of_In; simpl; tauto. }
  split; [exact Hfew|].
  split.
  { intros Hl. destruct Hcases as [H|[[_ H]|[H _]]]; [| done |];
      rewrite Hl in H; discriminate. }
  split; [|exact Hnoscore].
  intros Hl. destruct Hcases as [H|[[H _]|[_ H]]]; [| | done];
    rewrite Hl in H; discriminate.
Qed.

Lemma add_count_fresh (totals : list (string * Z)) (c : string) (n : Z) :
  c ∉ map fst totals -> ProfileSpec.add_count totals c n = totals ++ [(c, n)].
Proof.
  induction totals as [|[c' n'] totals IH]; intros Hfresh; simpl; [done|].
  destruct (String.eqb c' c) eqn:E.
  - apply String.eqb_eq in E. subst. exfalso. apply Hfresh. by left.
  - rewrite IH; [done|]. intros Hin. apply Hfresh. by right.
Qed.

Lemma totals_distinct_fold (rows : list LearningRow) (init : list (string * Z)) :
  NoDup (map fst init ++ map category rows) ->
  fold_left (fun totals row =>
               ProfileSpec.add_count totals (category row) (completed_courses row))
            rows init
  = init ++ map (fun row => (category row, completed_courses row)) rows.
Proof.
  revert init. induction rows as [|r rows IH]; intros init Hnd; simpl.
  - by rewrite app_nil_r.
  - apply NoDup_app in Hnd as (Hi & Hdisj & Hr).
    apply NoDup_cons in Hr as [Hfresh Hr].
    rewrite add_count_fresh.
    + rewrite IH; [by rewrite <- app_assoc|].
      rewrite map_app. simpl. rewrite <- app_assoc. simpl.
      apply NoDup_app. split; [done|]. split.
      * intros x Hx. apply Hdisj in Hx. exact Hx.
      * by apply NoDup_cons.
    + intros Hin. apply (Hdisj (category r) Hin). by left.
Qed.

Lemma insert_desc_map {A B : Type} (g : A -> B) (key : B -> Q) (x : A) (l : list A) :
  PyStr.insert_desc key (g x) (map g l)
  = map g (PyStr.insert_desc (fun a => key (g a)) x l).
Proof.
  induction l as [|y l IH]; simpl; [done|].
  destruct (Qltb (key (g x)) (key (g y))); simpl; [by rewrite IH|done].
Qed.

Lemma sorted_desc_map {A B : Type} (g : A -> B) (key : B -> Q) (l : list A) :
  PyStr.sorted_desc key (map g l) = map g (PyStr.sorted_desc (fun a => key (g a)) l).
Proof.
  induction l as [|x l IH]; simpl; [done|].
  by rewrite IH, insert_desc_map.
Qed.

(** X15: the preferred categories are at most three categories of the
    history, and when every category occurs in one row only they are the top
    three categories by completed-course count, descending, ties in first-seen
    order. *)
Theorem preferred_categories_distinct (learning_data : list LearningRow) :
  (length (_get_preferred_categories learning_data) <= 3)%nat
  /\ _get_preferred_categories learning_data ⊆ map category learning_data
  /\ (NoDup (map category learning_data) ->
      _get_preferred_categories learning_data
      = ProfileSpec.top_categories learning_data).
Proof.
  split; [apply preferred_categories_length|].
  assert (Hcode : _get_preferred_categories learning_data
                  = map category
                      (take 3 (PyStr.sorted_desc
                                 (fun x => inject_Z (completed_courses x)) learning_data))).
  { by destruct learning_data. }
  split.
  - rewrite Hcode. intros c Hc.
    apply list_elem_of_fmap in Hc as (row & -> & Hrow).
    apply list_elem_of_fmap. exists row. split; [done|].
    apply (sublist_subseteq _ _ (sublist_take _ 3)) in Hrow.
    by rewrite (sorted_desc_perm _ learning_data) in Hrow.
  - intros Hnd. rewrite Hcode.
    unfold ProfileSpec.top_categories, ProfileSpec.totals_per_category.
    rewrite totals_distinct_fold by done. simpl app.
    rewrite (sorted_desc_map (fun row => (category row, completed_courses row))
               (fun p => inject_Z (snd p))).
    simpl. rewrite <- fmap_take.
    change (map fst (?f <$> ?l)) with (map fst (map f l)). by rewrite map_map.
Qed.

End ProfileLevels.

Lemma preferred_categories_distinct_witness :
  Profile._get_preferred_categories
    [Profile.mkLearningRow "stocks" "beginner" 3 None;
     Profile.mkLearningRow "bonds" "beginner" 4 None;
     Profile.mkLearningRow "funds" "beginner" 3 None;
     Profile.mkLearningRow "tax" "beginner" 1 None]
  = ["bonds"; "stocks"; "funds"]%string.
Proof.
  destruct (preferred_categories_distinct
              [Profile.mkLearningRow "stocks" "beginner" 3 None;
               Profile.mkLearningRow "bonds" "beginner" 4 None;
               Profile.mkLearningRow "funds" "beginner" 3 None;
               Profile.mkLearningRow "tax" "beginner" 1 None]) as (_ & _ & H).
  rewrite H; [reflexivity|]. apply (bool_decide_unpack _). by vm_compute.
Defined.

(** ** Candidate scores *)

Lemma prefix_spec (s1 s2 : string) :
  String.prefix s1 s2 = true <-> exists post, s2 = s1 +:+ post.
Proof.
  revert s2. induction s1 as [|a s1 IH]; intros s2.
  - split; [intros _; by exists s2 | intros _; by destruct s2].
  - destruct s2 as [|b s2].
    + split; [done|]. intros [post H]. discriminate.
    + change (String.prefix (String a s1) (String b s2))
        with (if ascii_dec a b then String.prefix s1 s2 else false).
      destruct (ascii_dec a b) as [->|Hne].
      * rewrite IH. split; intros [post H]; exists post.
        -- by rewrite append_cons, H.
        -- rewrite append_cons in H. by injection H.
      * split; [done|]. intros [post H]. rewrite append_cons in H.
        injection H as H1 H2. congruence.
Qed.

(** [needle in hay] holds exactly when [needle] occurs in [hay]. *)
Lemma contains_spec (needle hay : string) :
  PyStr.contains needle hay = true <-> exists pre post, hay = pre +:+ needle +:+ post.
Proof.
  induction hay as [|c hay IH].
  - change (PyStr.contains needle "")
      with (if String.prefix needle "" then true else false).
    destruct (String.prefix needle "") eqn:E.
    + apply prefix_spec in E as [post E]. split; [|done]. intros _. by exists ""%string, post.
    + split; [done|]. intros (pre & post & H).
      destruct pre; [|discriminate].
      assert (String.prefix needle "" = true) by (apply prefix_spec; by exists post).
      congruence.
  - change (PyStr.contains needle (String c hay))
      with (if String.prefix needle (String c hay) then true
            else PyStr.contains needle hay).
    destruct (String.prefix needle (String c hay)) eqn:E.
    + apply prefix_spec in E as [post E]. split; [|done]. intros _.
      by exists ""%string, post.
    + rewrite IH. split.
      * intros (pre & post & ->). by exists (String c pre), post.
      * intros (pre & post & H). destruct pre as [|c' pre].
        -- assert (String.prefix needle (String c hay) = true)
             by (apply prefix_spec; by exists post).
           congruence.
        -- rewrite append_cons in H. injection H as _ ->. by exists pre, post.
Qed.

Lemma interest_score_fold (article_text : string) (user_interests : list string) (init : Q) :
  fold_left (fun score interest =>
               if PyStr.contains (PyStr.lower interest) article_text
               then score + 0.3 else score) user_interests init
  == init + 0.3 * inject_Z (MoreSpec.matching_interests article_text user_interests).
Proof.
  unfold MoreSpec.matching_interests. revert init.
  induction user_interests as [|i rest IH]; intros init.
  - simpl. ring.
  - change (fold_left ?f (i :: rest) init) with (fold_left f rest (f init i)).
    rewrite IH, filter_cons. cbv beta.
    destruct (PyStr.contains (PyStr.lower i) article_text) eqn:E.
    + destruct (decide (true = true)); [|done].
      change (length (i :: ?l)) with (S (length l)).
      rewrite Nat2Z.inj_succ, <- Z.add_1_r, inject_Z_plus.
      change (inject_Z 1) with 1. ring.
    + destruct (decide (false = true)); [done|]. ring.
Qed.

(** X17: the news score before clamping starts from 0.3 for every interest
    whose lower-case form occurs in the lower-cased "title summary" text;
    with four or more such interests the score is 1, and with none it is at
    most 0.5 (exact arithmetic). *)
Theorem news_score_by_interests (now : Z) (article : Scorer.Article)
    (user_interests : list string) :
  let article_text :=
    PyStr.lower (Scorer.a_title article +:+ " " +:+ Scorer.a_summary article) in
  let matches := MoreSpec.matching_interests article_text user_interests in
  (forall interest,
     PyStr.contains (PyStr.lower interest) article_text = true
     <-> exists pre post, article_text = pre +:+ PyStr.lower interest +:+ post)
  /\ Scorer.interest_score article_text user_interests == 0.3 * inject_Z matches
  /\ 0.3 * inject_Z matches <= Scorer.news_score_sum now article user_interests
     <= 0.3 * inject_Z matches + 0.5
  /\ ((4 <= matches)%Z -> Scorer._calculate_news_score now article user_interests == 1)
  /\ (matches = 0%Z -> Scorer._calculate_news_score now article user_interests <= 0.5).
Proof.
  intros article_text matches.
  assert (Hi : Scorer.interest_score article_text user_interests == 0.3 * inject_Z matches).
  { unfold Scorer.interest_score, matches. rewrite interest_score_fold. ring. }
  assert (Hsum : 0.3 * inject_Z matches <= Scorer.news_score_sum now article user_interests
                 <= 0.3 * inject_Z matches + 0.5).
  { unfold Scorer.news_score_sum. fold article_text. rewrite <- Hi.
    set (a := Scorer.interest_score article_text user_interests). clearbody a.
    repeat match goal with
           | |- context [if ?c then _ else _] => destruct c
           | |- context [match ?c with Some _ => _ | None => _ end] => destruct c
           end; split; lra. }
  split; [intros interest; apply contains_spec|].
  split; [exact Hi|]. split; [exact Hsum|]. split.
  - intros H4. unfold Scorer._calculate_news_score.
    rewrite Zle_Qle in H4. change (inject_Z 4) with 4 in H4.
    apply Q.min_r. lra.
  - intros H0. unfold Scorer._calculate_news_score. rewrite H0 in Hsum.
    change (inject_Z 0) with 0 in Hsum.
    apply Qle_trans with (Scorer.news_score_sum now article user_interests);
      [apply Q.le_min_l | lra].
Qed.

Lemma news_score_by_interests_witness :
  Scorer._calculate_news_score 3600
    (Scorer.mkArticle "n9" "Banking and IT stocks" "Funds and bonds rally" "economy"
                      None None)
    ["Banking"; "Stocks"; "FUNDS"; "bonds"; "gold"]%string == 1.
Proof.
  apply news_score_by_interests. by vm_compute.
Defined.

(** X16: with an average rating in [0,5] and a non-negative review count, a
    course score before clamping is at most 1.05; a course outside the
    preferred categories scores at most 0.75 and one inside them at least 0.3
    (exact arithmetic). *)
Theorem course_score_by_category (now : Z) (course : Scorer.Course)
    (user_profile : Profile.UserProfile) (preferred_language : option string) :
  (forall q, Scorer.c_avg_rating course = Some q -> 0 <= q <= 5) ->
  (forall n, Scorer.c_review_count course = Some n -> (0 <= n)%Z) ->
  Scorer.course_score_sum now course user_profile preferred_language <= 1.05
  /\ (Scorer.c_category course ∉ Profile.preferred_categories user_profile ->
      Scorer._calculate_course_score now course user_profile preferred_language <= 0.75)
  /\ (Scorer.c_category course ∈ Profile.preferred_categories user_profile ->
      0.3 <= Scorer._calculate_course_score now course user_profile preferred_language).
Proof.
  intros Hr Hn.
  assert (H1 : 0 <= Scorer.or_zero (Scorer.c_avg_rating course) / 5 * 0.2 <= 0.2).
  { assert (H0 : 0 <= Scorer.or_zero (Scorer.c_avg_rating course) / 5 <= 1).
    { split.
      - apply Qdiv_nonneg; [|lra].
        destruct (Scorer.c_avg_rating course) as [q|]; simpl; [by apply Hr | lra].
      - apply Qle_shift_div_r; [lra|].
        destruct (Scorer.c_avg_rating course) as [q|]; simpl; [|lra].
        destruct (Hr q eq_refl). lra. }
    lra. }
  assert (H2 : 0 <= Qmin (Scorer.or_zero (inject_Z <$> Scorer.c_review_count course) / 100)
                         0.1 <= 0.1).
  { split; [|apply Q.le_min_r]. apply Q.min_glb; [|lra].
    apply Qdiv_nonneg; [|lra].
    destruct (Scorer.c_review_count course) as [n|]; simpl; [|lra].
    specialize (Hn n eq_refl). rewrite Zle_Qle in Hn. exact Hn. }
  unfold Scorer._calculate_course_score, Scorer.course_score_sum.
  set (a := Scorer.or_zero (Scorer.c_avg_rating course) / 5 * 0.2) in *.
  set (b := Qmin _ 0.1) in *. clearbody a b.
  destruct (bool_decide (Scorer.c_category course
                         ∈ Profile.preferred_categories user_profile)) eqn:Ec.
  - apply bool_decide_eq_true in Ec. split; [|split; [done|]].
    + repeat match goal with
             | |- context [if ?c then _ else _] => destruct c
             | |- context [match ?c with Some _ => _ | None => _ end] => destruct c
             end; lra.
    + intros _. apply Q.min_glb; [|lra].
      repeat match goal with
             | |- context [if ?c then _ else _] => destruct c
             | |- context [match ?c with Some _ => _ | None => _ end] => destruct c
             end; lra.
  - apply bool_decide_eq_false in Ec. split; [|split; [|done]].
    + repeat match goal with
             | |- context [if ?c then _ else _] => destruct c
             | |- context [match ?c with Some _ => _ | None => _ end] => destruct c
             end; lra.
    + intros _. eapply Qle_trans; [apply Q.le_min_l|].
      repeat match goal with
             | |- context [if ?c then _ else _] => destruct c
             | |- context [match ?c with Some _ => _ | None => _ end] => destruct c
             end; lra.
Qed.

Lemma course_score_by_category_witness :
  Scorer._calculate_course_score Fixture.now (Fixture.course "c4" "Tax basics" "tax" 5)
    (Profile.mkUserProfile None [] [] [] "beginner" "moderate" ["stocks"%string])
    (Some "en"%string) <= 0.75.
Proof.
  apply course_score_by_category.
  - intros q H. injection H as <-. lra.
  - intros n H. injection H as <-. lia.
  - apply (bool_decide_unpack _). by vm_compute.
Defined.

(** ** The ranker: order and completeness *)

Section RankingOrder.

Import Ranker RankSpec.

Lemma sublist_strongly_sorted {A : Type} (R : A -> A -> Prop) (l1 l2 : list A) :
  sublist l1 l2 -> StronglySorted R l2 -> StronglySorted R l1.
Proof.
  induction 1 as [|x l1 l2 Hsub IH|x l1 l2 Hsub IH]; intros Hs; [done| |].
  - apply StronglySorted_inv in Hs as [Hs Hall]. constructor; [by apply IH|].
    rewrite Forall_forall in Hall. apply Forall_forall. intros y Hy.
    apply Hall. by apply (sublist_subseteq _ _ Hsub).
  - apply StronglySorted_inv in Hs as [Hs _]. by apply IH.
Qed.

Lemma count_type_app (t : string) (l1 l2 : list Candidate) :
  count_type t (l1 ++ l2) = (count_type t l1 + count_type t l2)%Z.
Proof. unfold count_type. rewrite filter_app, length_app. lia. Qed.

Lemma count_type_perm (t : string) (l1 l2 : list Candidate) :
  l1 ≡ₚ l2 -> count_type t l1 = count_type t l2.
Proof. intros H. unfold count_type. by rewrite H. Qed.

(** When the rest of the walk fits, the walk takes all of it. *)
Lemma walk_takes_all (limit : Z) (l chosen : list Candidate) :
  (Z.of_nat (length (chosen ++ l)) <= limit)%Z ->
  (forall t, count_type t (chosen ++ l) <= cap limit)%Z ->
  walk limit chosen l = chosen ++ l.
Proof.
  revert chosen. induction l as [|c l IH]; intros chosen Hlen Hcount; simpl.
  - by rewrite app_nil_r.
  - assert (E1 : (Z.of_nat (length chosen) <? limit)%Z = true).
    { apply Z.ltb_lt. rewrite length_app in Hlen. simpl in Hlen. lia. }
    assert (E2 : (count_type (item_type c) chosen <? cap limit)%Z = true).
    { apply Z.ltb_lt. specialize (Hcount (item_type c)).
      rewrite count_type_app in Hcount.
      change (c :: l) with ([c] ++ l) in Hcount. rewrite count_type_app in Hcount.
      pose proof (count_type_nonneg (item_type c) l).
      assert (count_type (item_type c) [c] = 1%Z).
      { unfold count_type. rewrite filter_cons. by destruct (decide _). }
      lia. }
    rewrite E1, E2. rewrite IH.
    + by rewrite <- app_assoc.
    + by rewrite <- app_assoc.
    + intros t. by rewrite <- app_assoc.
Qed.

(** X18: the ranked list is in descending order of score and keeps the
    order of the stable sort of its input; it is empty for a limit of 0 or
    less; and when the input has at most [limit] candidates and no item type
    has more than [ceil(limit * 0.6)] of them, nothing is dropped: the result
    is the whole input, sorted. *)
Theorem rank_order_and_completeness (recommendations : list Candidate) (limit : Z) :
  descending (_rank_recommendations recommendations limit)
  /\ sublist (_rank_recommendations recommendations limit)
             (PyStr.sorted_desc score recommendations)
  /\ ((limit <= 0)%Z -> _rank_recommendations recommendations limit = [])
  /\ ((Z.of_nat (length recommendations) <= limit)%Z ->
      (forall t, count_type t recommendations <= cap limit)%Z ->
      _rank_recommendations recommendations limit
      = PyStr.sorted_desc score recommendations).
Proof.
  split.
  { apply (sublist_strongly_sorted _ _ _ (rank_sublist recommendations limit)).
    apply sorted_desc_sorted. }
  split; [apply rank_sublist|]. split.
  - intros Hl. pose proof (rank_length recommendations limit) as H.
    destruct (_rank_recommendations recommendations limit); [done|]. simpl in H. lia.
  - intros Hlen Hcount. rewrite rank_is_walk.
    pose proof (sorted_desc_perm score recommendations) as Hperm.
    rewrite (walk_takes_all limit (PyStr.sorted_desc score recommendations) []); [done| |].
    + simpl. by rewrite Hperm.
    + intros t. simpl. by rewrite (count_type_perm t _ _ Hperm).
Qed.

End RankingOrder.

Lemma rank_order_and_completeness_witness :
  Ranker._rank_recommendations
    [Ranker.mkCandidate "n1" "news" "Markets" 0.4 "";
     Ranker.mkCandidate "c1" "course" "Bonds" 0.9 "";
     Ranker.mkCandidate "c2" "course" "Funds" 0.4 ""] 5
  = [Ranker.mkCandidate "c1" "course" "Bonds" 0.9 "";
     Ranker.mkCandidate "n1" "news" "Markets" 0.4 "";
     Ranker.mkCandidate "c2" "course" "Funds" 0.4 ""].
Proof.
  destruct (rank_order_and_completeness
              [Ranker.mkCandidate "n1" "news" "Markets" 0.4 "";
               Ranker.mkCandidate "c1" "course" "Bonds" 0.9 "";
               Ranker.mkCandidate "c2" "course" "Funds" 0.4 ""] 5) as (_ & _ & _ & H).
  rewrite H; [reflexivity | simpl; lia |].
  intros t. unfold RankSpec.count_type. rewrite !filter_cons, filter_nil.
  change (RankSpec.cap 5) with 3%Z.
  repeat (destruct (decide _)); simpl; lia.
Defined.

(** ** The recommendation service: candidates, cache and feedback *)

Section RecommendationFacts.

Import Profile Scorer Ranker.

Variable db_user : string -> option UserRow.
Variable db_learning : string -> list LearningRow.
Variable db_trading : string -> list TradeRow.
Variable db_courses : string -> list Course.
Variable db_news : list Article.
Variable now : Z.

Lemma list_slice_to_sublist {A : Type} (l : list A) (n : Z) :
  sublist (PyStr.list_slice_to l n) l.
Proof. unfold PyStr.list_slice_to. destruct (0 <=? n)%Z; apply sublist_take. Qed.

Lemma list_slice_to_all {A : Type} (l : list A) (n : Z) :
  (Z.of_nat (length l) <= n)%Z -> PyStr.list_slice_to l n = l.
Proof.
  intros H. unfold PyStr.list_slice_to.
  destruct (0 <=? n)%Z eqn:E; [|apply Z.leb_gt in E; lia].
  apply take_ge. lia.
Qed.

(** X19: [_recommend_courses] raises [KeyError] when the profile has no user
    record; otherwise it returns candidates that are all of type "course",
    come from the courses of the query, are in descending order of score and
    number at most [limit] (for a non-negative limit), all of them when
    [limit] is at least the number of courses. *)
Theorem recommend_courses_result (user_profile : UserProfile)
    (preferred_language : option string) (limit : Z) :
  (user_data user_profile = None ->
   Recommendation._recommend_courses db_courses now user_profile preferred_language limit
   = Raised "KeyError: 'id'")
  /\ (forall user,
        user_data user_profile = Some user ->
        exists courses,
          Recommendation._recommend_courses db_courses now user_profile
            preferred_language limit = Returned courses
          /\ Forall (fun c => item_type c = "course"%string) courses
          /\ RankSpec.descending courses
          /\ map item_id courses ⊆ map c_id (db_courses (id user))
          /\ ((0 <= limit)%Z -> (Z.of_nat (length courses) <= limit)%Z)
          /\ (length courses <= length (db_courses (id user)))%nat
          /\ ((Z.of_nat (length (db_courses (id user))) <= limit)%Z ->
              length courses = length (db_courses (id user)))).
Proof.
  unfold Recommendation._recommend_courses. split; [by intros ->|].
  intros user ->. eexists. split; [reflexivity|].
  set (scored := map _ (db_courses (id user))).
  pose proof (list_slice_to_sublist (PyStr.sorted_desc score scored) limit) as Hsub.
  pose proof (sorted_desc_perm score scored) as Hperm.
  assert (Hlen : length scored = length (db_courses (id user))) by apply length_map.
  split.
  { apply Forall_forall. intros c Hc. apply (sublist_subseteq _ _ Hsub) in Hc.
    rewrite Hperm in Hc. unfold scored in Hc.
    by apply list_elem_of_fmap in Hc as (course & -> & _). }
  split.
  { apply (sublist_strongly_sorted _ _ _ Hsub), sorted_desc_sorted. }
  split.
  { intros i Hi. apply list_elem_of_fmap in Hi as (c & -> & Hc).
    apply (sublist_subseteq _ _ Hsub) in Hc. rewrite Hperm in Hc. unfold scored in Hc.
    apply list_elem_of_fmap in Hc as (course & -> & Hcourse).
    apply list_elem_of_fmap. by exists course. }
  split; [apply list_slice_to_length|].
  split.
  { rewrite (sublist_length _ _ Hsub), Hperm. lia. }
  intros Hall. rewrite list_slice_to_all; [by rewrite Hperm|].
  rewrite Hperm. lia.
Qed.

(** X20: [_recommend_news] returns candidates that are all of type "news"
    with the one fixed reason, come from the news of the query, are in
    descending order of score and number at most [limit] (for a non-negative
    limit), all of them when [limit] is at least the number of news rows; it
    returns the empty list when there is no news. *)
Theorem recommend_news_result (user_profile : UserProfile) (limit : Z) :
  let news := Recommendation._recommend_news db_news now user_profile limit in
  Forall (fun c => item_type c = "news"%string
                   /\ reason c = "Based on your trading activity and interests"%string)
         news
  /\ RankSpec.descending news
  /\ map item_id news ⊆ map a_id db_news
  /\ ((0 <= limit)%Z -> (Z.of_nat (length news) <= limit)%Z)
  /\ (length news <= length db_news)%nat
  /\ ((Z.of_nat (length db_news) <= limit)%Z -> length news = length db_news).
Proof.
  intros news. unfold news, Recommendation._recommend_news.
  set (scored := map _ db_news).
  pose proof (list_slice_to_sublist (PyStr.sorted_desc score scored) limit) as Hsub.
  pose proof (sorted_desc_perm score scored) as Hperm.
  assert (Hlen : length scored = length db_news) by apply length_map.
  split.
  { apply Forall_forall. intros c Hc. apply (sublist_subseteq _ _ Hsub) in Hc.
    rewrite Hperm in Hc. unfold scored in Hc.
    by apply list_elem_of_fmap in Hc as (a & -> & _). }
  split.
  { apply (sublist_strongly_sorted _ _ _ Hsub), sorted_desc_sorted. }
  split.
  { intros i Hi. apply list_elem_of_fmap in Hi as (c & -> & Hc).
    apply (sublist_subseteq _ _ Hsub) in Hc. rewrite Hperm in Hc. unfold scored in Hc.
    apply list_elem_of_fmap in Hc as (a & -> & Ha).
    apply list_elem_of_fmap. by exists a. }
  split; [apply list_slice_to_length|].
  split.
  { rewrite (sublist_length _ _ Hsub), Hperm. lia. }
  intros Hall. rewrite list_slice_to_all; [by rewrite Hperm|].
  rewrite Hperm. lia.
Qed.

End RecommendationFacts.

Section RecommendationCache.

Import Profile Scorer Ranker.

Variable db_user : string -> option UserRow.
Variable db_learning : string -> list LearningRow.
Variable db_trading : string -> list TradeRow.
Variable db_courses : string -> list Course.
Variable db_news : list Article.
Variable now : Z.

Lemma recommend_courses_types (user_profile : UserProfile)
    (preferred_language : option string) (limit : Z) (courses : list Candidate) :
  Recommendation._recommend_courses db_courses now user_profile preferred_language limit
  = Returned courses ->
  Forall (fun c => item_type c = "course"%string) courses.
Proof.
  unfold Recommendation._recommend_courses.
  destruct (user_data user_profile) as [user|]; [|discriminate].
  intros H. injection H as <-.
  apply Forall_forall. intros c Hc.
  apply (sublist_subseteq _ _ (list_slice_to_sublist _ _)) in Hc.
  rewrite (sorted_desc_perm score) in Hc.
  by apply list_elem_of_fmap in Hc as (course & -> & _).
Qed.

Lemma recommend_news_types (user_profile : UserProfile) (limit : Z) :
  Forall (fun c => item_type c = "news"%string)
    (Recommendation._recommend_news db_news now user_profile limit).
Proof.
  unfold Recommendation._recommend_news.
  apply Forall_forall. intros c Hc.
  apply (sublist_subseteq _ _ (list_slice_to_sublist _ _)) in Hc.
  rewrite (sorted_desc_perm score) in Hc.
  by apply list_elem_of_fmap in Hc as (a & -> & _).
Qed.

Lemma gather_candidates_types (user_profile : UserProfile)
    (preferred_language : option string) (limit : Z) (all : list Candidate) :
  Recommendation.gather_candidates db_courses db_news now user_profile
    preferred_language limit = Returned all ->
  Forall (fun c => item_type c = "course"%string \/ item_type c = "news"%string) all.
Proof.
  unfold Recommendation.gather_candidates.
  destruct (Recommendation._recommend_courses _ _ _ _ _) as [courses|e] eqn:Ec;
    [|discriminate].
  intros H. injection H as <-. apply Forall_app. split.
  - apply recommend_courses_types in Ec.
    eapply Forall_impl; [exact Ec|]. intros c Hc. by left.
  - eapply Forall_impl; [apply recommend_news_types|]. intros c Hc. by right.
Qed.

Lemma get_recommendations_ignores_ranked_sets (user_id : string)
    (preferred_language : option string) (limit : Z) (redis : Recommendation.Redis)
    (ranked_sets : gmap string (list Candidate)) :
  fst (Recommendation.get_recommendations db_user db_learning db_trading db_courses
         db_news now user_id preferred_language limit
         (Recommendation.mkRedis (Recommendation.get_raises redis)
            (Recommendation.setex_raises redis)
            (Recommendation.profile_entries redis) ranked_sets))
  = fst (Recommendation.get_recommendations db_user db_learning db_trading
           db_courses db_news now user_id preferred_language limit redis).
Proof.
  unfold Recommendation.get_recommendations, Recommendation._get_user_profile,
    Recommendation.get_profile, Recommendation.setex_profile.
  cbn [Recommendation.get_raises Recommendation.setex_raises
       Recommendation.profile_entries].
  destruct (Recommendation.get_raises redis); [done|].
  destruct (Recommendation.profile_entries redis !! user_id) as [profile|].
  - by destruct (Recommendation.gather_candidates _ _ _ _ _ _).
  - destruct (Recommendation.setex_raises redis); [done|].
    by destruct (Recommendation.gather_candidates _ _ _ _ _ _).
Qed.

(** X21: for a user with a user record and a working cache without a
    profile for that user, [get_recommendations] returns; what it returns is
    in descending order of score and holds only candidates of type "course"
    or "news"; it never reads a ranked set from the cache: two caches that
    differ only in their stored ranked sets give the same result. *)
Theorem get_recommendations_result (user_id : string)
    (preferred_language : option string) (limit : Z) (redis : Recommendation.Redis) :
  (is_Some (db_user user_id) ->
   Recommendation.get_raises redis = false ->
   Recommendation.setex_raises redis = false ->
   Recommendation.profile_entries redis !! user_id = None ->
   exists recs redis',
     Recommendation.get_recommendations db_user db_learning db_trading db_courses db_news
       now user_id preferred_language limit redis = (Returned recs, redis'))
  /\ (forall recs redis',
     Recommendation.get_recommendations db_user db_learning db_trading db_courses db_news
       now user_id preferred_language limit redis = (Returned recs, redis') ->
     RankSpec.descending recs
     /\ Forall (fun c => item_type c = "course"%string \/ item_type c = "news"%string) recs)
  /\ (forall ranked_sets,
        fst (Recommendation.get_recommendations db_user db_learning db_trading db_courses
               db_news now user_id preferred_language limit
               (Recommendation.mkRedis (Recommendation.get_raises redis)
                  (Recommendation.setex_raises redis)
                  (Recommendation.profile_entries redis) ranked_sets))
        = fst (Recommendation.get_recommendations db_user db_learning db_trading
                 db_courses db_news now user_id preferred_language limit redis)).
Proof.
  split; [|split].
  - intros [user Huser] Hget Hset Hmiss.
    unfold Recommendation.get_recommendations, Recommendation._get_user_profile,
      Recommendation.get_profile, Recommendation.setex_profile.
    rewrite Hget, Hmiss, Hset, Huser.
    unfold Recommendation.gather_candidates, Recommendation._recommend_courses.
    cbn [user_data Recommendation._cache_recommendations].
    eexists. eexists. reflexivity.
  - intros recs redis' Hret.
    apply get_recommendations_returned in Hret as (user_profile & all & Hg & ->).
    split.
    + apply (sublist_strongly_sorted _ _ _ (rank_sublist all limit)), sorted_desc_sorted.
    + apply gather_candidates_types in Hg. apply Forall_forall. intros c Hc.
      apply (sublist_subseteq _ _ (rank_sublist all limit)) in Hc.
      rewrite (sorted_desc_perm score all) in Hc.
      rewrite Forall_forall in Hg. by apply Hg.
  - intros ranked_sets. apply get_recommendations_ignores_ranked_sets.
Qed.

(** X22: when [get_recommendations] returns and the cache accepts writes,
    the cache afterwards holds the returned ranked set under the user's id and
    the ranked sets of all other users are untouched; when the cache rejects
    writes, the cache is left as it was. *)
Theorem get_recommendations_stores_result (user_id : string)
    (preferred_language : option string) (limit : Z) (redis redis' : Recommendation.Redis)
    (recs : list Candidate) :
  Recommendation.get_recommendations db_user db_learning db_trading db_courses db_news
    now user_id preferred_language limit redis = (Returned recs, redis') ->
  (Recommendation.setex_raises redis = false ->
   Recommendation.recommendation_entries redis' !! user_id = Some recs
   /\ forall other, other <> user_id ->
        Recommendation.recommendation_entries redis' !! other
        = Recommendation.recommendation_entries redis !! other)
  /\ (Recommendation.setex_raises redis = true -> redis' = redis).
Proof.
  unfold Recommendation.get_recommendations, Recommendation._get_user_profile,
    Recommendation.get_profile, Recommendation.setex_profile,
    Recommendation._cache_recommendations, Recommendation.setex_recommendations.
  destruct (Recommendation.get_raises redis); [discriminate|].
  destruct (Recommendation.profile_entries redis !! user_id) as [profile|].
  - destruct (Recommendation.gather_candidates _ _ _ _ _ _) as [all|e]; [|discriminate].
    destruct (Recommendation.setex_raises redis); intros H; injection H as <- <-.
    + split; [done|]. done.
    + split; [|done]. intros _. cbn [Recommendation.recommendation_entries].
      split; [by rewrite lookup_insert_eq|].
      intros other Hne. by rewrite lookup_insert_ne.
  - destruct (Recommendation.setex_raises redis) eqn:Es; [discriminate|].
    cbn [Recommendation.setex_raises Recommendation.recommendation_entries
         Recommendation.get_raises Recommendation.profile_entries].
    destruct (Recommendation.gather_candidates _ _ _ _ _ _) as [all|e]; [|discriminate].
    intros H. injection H as <- <-.
    split; [|done]. intros _. cbn [Recommendation.recommendation_entries].
    split; [by rewrite lookup_insert_eq|].
    intros other Hne. by rewrite lookup_insert_ne.
Qed.

(** X23: [_get_user_profile] returns a cached profile as it is, without
    consulting the database and without changing the cache; after a call that
    missed a working cache, the next call returns the same profile and leaves
    the cache as it is. *)
Theorem get_user_profile_cached (user_id : string) (redis : Recommendation.Redis) :
  Recommendation.get_raises redis = false ->
  (forall cached,
     Recommendation.profile_entries redis !! user_id = Some cached ->
     Recommendation._get_user_profile db_user db_learning db_trading user_id redis
     = (Returned cached, redis))
  /\ (Recommendation.profile_entries redis !! user_id = None ->
      Recommendation.setex_raises redis = false ->
      exists user_profile redis',
        Recommendation._get_user_profile db_user db_learning db_trading user_id redis
        = (Returned user_profile, redis')
        /\ Recommendation._get_user_profile db_user db_learning db_trading user_id redis'
           = (Returned user_profile, redis')
        /\ user_data user_profile = db_user user_id
        /\ preferred_categories user_profile
           = _get_preferred_categories (db_learning user_id)
        /\ skill_level user_profile = _determine_skill_level (db_learning user_id)
        /\ interests user_profile
           = _extract_interests (db_learning user_id) (db_trading user_id)).
Proof.
  intros Hget.
  unfold Recommendation._get_user_profile, Recommendation.get_profile,
    Recommendation.setex_profile.
  rewrite Hget. split.
  - by intros cached ->.
  - intros -> ->. eexists. eexists. split; [reflexivity|].
    cbn [Recommendation.get_raises Recommendation.profile_entries].
    rewrite lookup_insert_eq. by repeat split.
Qed.

(** X24: for a user without a user record, [get_recommendations] on a
    working cache that holds no profile for that user ends with
    [KeyError: 'id'], after it has stored the profile it built. *)
Theorem get_recommendations_unknown_user (user_id : string)
    (preferred_language : option string) (limit : Z) (redis : Recommendation.Redis) :
  db_user user_id = None ->
  Recommendation.get_raises redis = false ->
  Recommendation.setex_raises redis = false ->
  Recommendation.profile_entries redis !! user_id = None ->
  exists redis',
    Recommendation.get_recommendations db_user db_learning db_trading db_courses db_news
      now user_id preferred_language limit redis = (Raised "KeyError: 'id'", redis')
    /\ is_Some (Recommendation.profile_entries redis' !! user_id).
Proof.
  intros Huser Hget Hset Hmiss.
  unfold Recommendation.get_recommendations, Recommendation._get_user_profile,
    Recommendation.get_profile, Recommendation.setex_profile.
  rewrite Hget, Hmiss, Hset, Huser.
  unfold Recommendation.gather_candidates, Recommendation._recommend_courses.
  cbn [user_data]. eexists. split; [reflexivity|].
  cbn [Recommendation.profile_entries]. rewrite lookup_insert_eq. eauto.
Qed.

(** X25: with a working cache, [update_user_feedback] stores the feedback
    under its key, removes the ranked set cached for that user, and leaves
    the ranked sets of all other users, all cached profiles and all feedback
    stored under other keys as they were. *)
Theorem update_user_feedback_invalidates (user_id item_id feedback_type : string)
    (rating : option Q) (store : Feedback.Store) :
  Recommendation.setex_raises (Feedback.cache store) = false ->
  Feedback.delete_raises store = false ->
  let store' := Feedback.update_user_feedback user_id item_id feedback_type rating store in
  Feedback.feedback_entries store' !! Feedback.feedback_key user_id item_id
  = Some (Feedback.mkEvent user_id item_id feedback_type rating)
  /\ Recommendation.recommendation_entries (Feedback.cache store') !! user_id = None
  /\ (forall other, other <> user_id ->
        Recommendation.recommendation_entries (Feedback.cache store') !! other
        = Recommendation.recommendation_entries (Feedback.cache store) !! other)
  /\ Recommendation.profile_entries (Feedback.cache store')
     = Recommendation.profile_entries (Feedback.cache store)
  /\ (forall key, key <> Feedback.feedback_key user_id item_id ->
        Feedback.feedback_entries store' !! key = Feedback.feedback_entries store !! key).
Proof.
  intros Hset Hdel store'. unfold store', Feedback.update_user_feedback.
  rewrite Hset. cbn [Feedback.delete_raises Feedback.cache Feedback.feedback_entries].
  rewrite Hdel.
  cbn [Feedback.delete_raises Feedback.cache Feedback.feedback_entries
       Recommendation.recommendation_entries Recommendation.profile_entries].
  split; [by rewrite lookup_insert_eq|].
  split; [by rewrite lookup_delete_eq|].
  split; [intros other Hne; by rewrite lookup_delete_ne|].
  split; [done|].
  intros key Hne. by rewrite lookup_insert_ne.
Qed.

(** X26: [update_user_feedback] ends at the first cache operation that
    raises: when the write raises, the store is left as it was, so the ranked
    set cached for the user is not removed; when only the delete raises, the
    feedback is stored and every cached ranked set stays. *)
Theorem update_user_feedback_failure (user_id item_id feedback_type : string)
    (rating : option Q) (store : Feedback.Store) :
  let store' := Feedback.update_user_feedback user_id item_id feedback_type rating store in
  (Recommendation.setex_raises (Feedback.cache store) = true -> store' = store)
  /\ (Recommendation.setex_raises (Feedback.cache store) = false ->
      Feedback.delete_raises store = true ->
      Feedback.feedback_entries store' !! Feedback.feedback_key user_id item_id
      = Some (Feedback.mkEvent user_id item_id feedback_type rating)
      /\ Feedback.cache store' = Feedback.cache store).
Proof.
  intros store'. unfold store', Feedback.update_user_feedback. split.
  - by intros ->.
  - intros -> Hdel.
    cbn [Feedback.delete_raises Feedback.cache Feedback.feedback_entries].
    rewrite Hdel. cbn [Feedback.feedback_entries Feedback.cache].
    split; [by rewrite lookup_insert_eq|done].
Qed.

(** X27: feedback has no effect on what is recommended: whatever the
    feedback and whatever the state of the cache, [get_recommendations]
    gives the same outcome after [update_user_feedback] as before it. *)
Theorem feedback_leaves_recommendations (user_id item_id feedback_type : string)
    (rating : option Q) (store : Feedback.Store)
    (for_user : string) (preferred_language : option string) (limit : Z) :
  fst (Recommendation.get_recommendations db_user db_learning db_trading db_courses
         db_news now for_user preferred_language limit
         (Feedback.cache
            (Feedback.update_user_feedback user_id item_id feedback_type rating store)))
  = fst (Recommendation.get_recommendations db_user db_learning db_trading db_courses
           db_news now for_user preferred_language limit (Feedback.cache store)).
Proof.
  unfold Feedback.update_user_feedback.
  destruct (Recommendation.setex_raises (Feedback.cache store)) eqn:Hset; [done|].
  cbn [Feedback.delete_raises Feedback.cache Feedback.feedback_entries].
  destruct (Feedback.delete_raises store); [done|].
  cbn [Feedback.cache]. apply get_recommendations_ignores_ranked_sets.
Qed.

End RecommendationCache.

Lemma get_recommendations_stores_result_witness :
  exists recs redis',
    Fixture.get_recommendations "42" None 4 Fixture.healthy = (Returned recs, redis')
    /\ Recommendation.recommendation_entries redis' !! "42"%string = Some recs.
Proof.
  eexists. eexists. split; [reflexivity|].
  eapply (get_recommendations_stores_result Fixture.db_user Fixture.db_learning
            Fixture.db_trading Fixture.db_courses Fixture.db_news Fixture.now
            "42" None 4 Fixture.healthy); reflexivity.
Defined.

Lemma get_user_profile_cached_witness :
  exists user_profile redis',
    Recommendation._get_user_profile Fixture.db_user Fixture.db_learning
      Fixture.db_trading "42" Fixture.healthy = (Returned user_profile, redis')
    /\ Recommendation._get_user_profile Fixture.db_user Fixture.db_learning
         Fixture.db_trading "42" redis' = (Returned user_profile, redis').
Proof.
  destruct (get_user_profile_cached Fixture.db_user Fixture.db_learning
              Fixture.db_trading "42" Fixture.healthy eq_refl) as [_ H].
  destruct (H eq_refl eq_refl) as (user_profile & redis' & H1 & H2 & _).
  exists user_profile, redis'. by split.
Defined.

Lemma get_recommendations_unknown_user_witness :
  exists redis',
    Fixture.get_recommendations "7" None 4 Fixture.healthy
    = (Raised "KeyError: 'id'", redis')
    /\ is_Some (Recommendation.profile_entries redis' !! "7"%string).
Proof.
  apply (get_recommendations_unknown_user Fixture.db_user Fixture.db_learning
           Fixture.db_trading Fixture.db_courses Fixture.db_news Fixture.now
           "7" None 4 Fixture.healthy); reflexivity.
Defined.

Lemma update_user_feedback_invalidates_witness :
  let store :=
    Feedback.mkStore
      (Recommendation.mkRedis false false ∅
         (<["42"%string := [Ranker.mkCandidate "c1" "course" "Bonds" 0.9 "Popular"]]> ∅))
      false ∅ in
  Recommendation.recommendation_entries
    (Feedback.cache (Feedback.update_user_feedback "42" "c1" "like" (Some 5) store))
  !! "42"%string = None.
Proof.
  intros store.
  destruct (update_user_feedback_invalidates "42" "c1" "like" (Some 5) store
              eq_refl eq_refl) as (_ & H & _).
  exact H.
Defined.
